(** * Marketing performance chatbot: loader, query engine and chat loop

    A shallow embedding of [src/data/schema.py], [src/data/loader.py],
    [src/engine/query_plan.py] and [src/engine/query_engine.py], then of
    [src/config.py], [src/llm/router.py] and of the application around
    them ([app/commands.py], [app/memory.py], [app/auth.py],
    [app/render.py], [app/chat_loop.py]), and the properties proved on it.

    Part I is the model: the embedding of the source, then the notions the
    statements use and the sample data.  Part II holds the proofs.

    Conventions of the embedding.
    - A pandas DataFrame of the normalized table is a list of rows, in row
      order; a numeric column holds [option Z] ([None] is NaN), numbers being
      exact integers here (the floating point of pandas is not modelled).
    - A Python exception is the [Raise] branch of [Result].
    - Behaviour of pandas / numpy / hashlib that the source relies on without
      fixing it (the sort kind behind [sort_values], the frame-with-series
      [&], [to_datetime], [to_numeric] on strings, SHA-256) is a field of a
      class, with the contract the library documents. *)

From Stdlib Require Import ZArith List String Ascii Bool Lia.
From Stdlib Require Import Permutation Sorted DecimalString.
Import ListNotations.
Local Open Scope Z_scope.

(** * Part I: the model *)

(** ** Results and exceptions *)

Inductive Result (E A : Type) : Type :=
| OK (a : A)
| Raise (e : E).

Arguments OK {E A} a.
Arguments Raise {E A} e.

Definition bind {E A B} (r : Result E A) (k : A -> Result E B) : Result E B :=
  match r with
  | OK a => k a
  | Raise e => Raise e
  end.

Notation "x <- e ;; k" := (bind e (fun x => k))
  (at level 61, e at next level, right associativity).

Definition is_ok {E A} (r : Result E A) : bool :=
  match r with OK _ => true | Raise _ => false end.

(** ** Cells *)

(** A cell of a frame: an integer, a string or NaN (a missing value). *)
Inductive Cell :=
| CInt (z : Z)
| CStr (s : string)
| CNaN.

Definition Cell_eq_dec (a b : Cell) : {a = b} + {a <> b}.
Proof. decide equality; [apply Z.eq_dec | apply string_dec]. Defined.

Arguments Cell_eq_dec : simpl never.

(** The cell of a numeric column. *)
Definition num_cell (x : option Z) : Cell :=
  match x with Some v => CInt v | None => CNaN end.

(** Element-wise [==] of pandas: NaN equals nothing, itself included. *)
Definition cell_eq (c v : Cell) : bool :=
  match c, v with
  | CInt a, CInt b => a =? b
  | CStr a, CStr b => String.eqb a b
  | _, _ => false
  end.

(** Ascending order of a column, NaN last ([na_position="last"]).  A column
    of the normalized table is homogeneous; integers are put before strings
    only to make the order total. *)
Definition cell_leb (a b : Cell) : bool :=
  match a, b with
  | _, CNaN => true
  | CNaN, _ => false
  | CInt x, CInt y => x <=? y
  | CInt _, CStr _ => true
  | CStr _, CInt _ => false
  | CStr x, CStr y => String.leb x y
  end.

(** Descending order, NaN still last. *)
Definition cell_geb_na_last (a b : Cell) : bool :=
  match a, b with
  | _, CNaN => true
  | CNaN, _ => false
  | _, _ => cell_leb b a
  end.

Definition cell_order (ascending : bool) : Cell -> Cell -> bool :=
  if ascending then cell_leb else cell_geb_na_last.

(** Lexicographic order on keys (lists of cells of one length). *)
Fixpoint key_leb (a b : list Cell) : bool :=
  match a, b with
  | [], _ => true
  | _ :: _, [] => false
  | x :: a', y :: b' =>
      if Cell_eq_dec x y then key_leb a' b' else cell_leb x y
  end.

(** ** src/data/schema.py *)

Module Schema.

Local Open Scope string_scope.

Definition RAW_COLUMNS : list string :=
  ["Year"; "Quarter"; "Month"; "Week"; "Date"; "Country";
   "Media Category"; "Media Name"; "Communication";
   "Campaign Category"; "Product"; "Campaign Name"; "Revenue"; "Cost"].

Definition RENAME_MAP : list (string * string) :=
  [("Year", "year"); ("Quarter", "quarter"); ("Month", "month");
   ("Week", "week"); ("Date", "date"); ("Country", "country");
   ("Media Category", "media_category"); ("Media Name", "media_name");
   ("Communication", "communication");
   ("Campaign Category", "campaign_category"); ("Product", "product");
   ("Campaign Name", "campaign_name"); ("Revenue", "revenue");
   ("Cost", "cost")].

Definition NUMERIC_COLUMNS : list string :=
  ["year"; "quarter"; "month"; "week"; "revenue"; "cost"].

Definition DATE_COLUMN : string := "date".

Definition DIMENSIONS : list string :=
  ["year"; "quarter"; "month"; "week";
   "country"; "media_category"; "media_name";
   "communication"; "campaign_category";
   "product"; "campaign_name"].

Definition ROW_ID_HASH_COLUMNS : list string :=
  ["year"; "quarter"; "month"; "week"; "date";
   "country"; "media_category"; "media_name";
   "communication"; "campaign_category"; "product"; "campaign_name";
   "revenue"; "cost"].

Record DatasetSchema := {
  raw_columns : list string;
  rename_map : list (string * string);
  numeric_columns : list string;
  date_column : string;
  dimensions : list string;
  row_id_hash_columns : list string
}.

Definition marketing_default : DatasetSchema := {|
  raw_columns := RAW_COLUMNS;
  rename_map := RENAME_MAP;
  numeric_columns := NUMERIC_COLUMNS;
  date_column := DATE_COLUMN;
  dimensions := DIMENSIONS;
  row_id_hash_columns := ROW_ID_HASH_COLUMNS
|}.

End Schema.

(** ** The normalized table *)

(** A parsed date: calendar day and time of day (seconds). *)
Record Timestamp := {
  ts_year : Z;
  ts_month : Z;
  ts_day : Z;
  ts_time : Z
}.

(** The fourteen source columns after type coercion. *)
Record SourceRow := {
  year : option Z;
  quarter : option Z;
  month : option Z;
  week : option Z;
  date : Timestamp;
  country : Cell;
  media_category : Cell;
  media_name : Cell;
  communication : Cell;
  campaign_category : Cell;
  product : Cell;
  campaign_name : Cell;
  revenue : option Z;
  cost : option Z
}.

(** ... with the derived metric ... *)
Record DerivedRow := {
  source :> SourceRow;
  profit : option Z
}.

(** ... and with the row identifier: a row of the normalized table. *)
Record Row := {
  derived :> DerivedRow;
  row_id : string
}.

Definition DataFrame := list Row.

(** The data model's invariant on the time columns the engine looks up:
    every row carries an integer year and quarter. *)
Definition normalized (df : DataFrame) : Prop :=
  Forall (fun r : Row => year r <> None /\ quarter r <> None) df.

(** ** src/engine/query_plan.py *)

Module Plan.

Inductive Intent := I_aggregate | I_top_n | I_trend | I_unknown.

Inductive Metric := M_revenue | M_cost | M_profit.

Inductive FilterField :=
| F_year | F_quarter | F_month | F_week
| F_country | F_media_category | F_media_name
| F_communication | F_campaign_category
| F_product | F_campaign_name.

Inductive GroupByField :=
| G_year | G_quarter | G_month | G_week
| G_country | G_media_category | G_media_name
| G_product | G_campaign_name.

Inductive TimeRangeType :=
| T_all | T_year | T_quarter | T_last_quarter | T_last_n_years.

Record TimeRange := {
  tr_type : TimeRangeType;
  tr_year : option Z;
  tr_quarter : option Z;
  tr_n_years : option Z
}.

Inductive Op := Op_eq.

Record Filter := {
  f_field : FilterField;
  f_op : Op;
  f_value : Cell
}.

Inductive Direction := asc | desc.

Record SortBy := {
  sb_field : Metric;
  sb_direction : Direction
}.

Record QueryPlan := {
  intent : Intent;
  metrics : list Metric;
  groupby : list GroupByField;
  time_range : TimeRange;
  filters : list Filter;
  top_n : option Z;
  sort_by : option SortBy
}.

Definition Metric_eq_dec (a b : Metric) : {a = b} + {a <> b}.
Proof. decide equality. Defined.

Definition GroupByField_eq_dec (a b : GroupByField) : {a = b} + {a <> b}.
Proof. decide equality. Defined.

Arguments Metric_eq_dec : simpl never.
Arguments GroupByField_eq_dec : simpl never.

Local Open Scope string_scope.

(** The literals of each [Literal[...]] type, in declaration order. *)
Definition Intent_literals : list (string * Intent) :=
  [("aggregate", I_aggregate); ("top_n", I_top_n); ("trend", I_trend);
   ("unknown", I_unknown)].

Definition Metric_literals : list (string * Metric) :=
  [("revenue", M_revenue); ("cost", M_cost); ("profit", M_profit)].

Definition FilterField_literals : list (string * FilterField) :=
  [("year", F_year); ("quarter", F_quarter); ("month", F_month);
   ("week", F_week);
   ("country", F_country); ("media_category", F_media_category);
   ("media_name", F_media_name);
   ("communication", F_communication);
   ("campaign_category", F_campaign_category);
   ("product", F_product); ("campaign_name", F_campaign_name)].

Definition GroupByField_literals : list (string * GroupByField) :=
  [("year", G_year); ("quarter", G_quarter); ("month", G_month);
   ("week", G_week);
   ("country", G_country); ("media_category", G_media_category);
   ("media_name", G_media_name);
   ("product", G_product); ("campaign_name", G_campaign_name)].

Definition TimeRangeType_literals : list (string * TimeRangeType) :=
  [("all", T_all); ("year", T_year); ("quarter", T_quarter);
   ("last_quarter", T_last_quarter); ("last_n_years", T_last_n_years)].

Definition Op_literals : list (string * Op) := [("=", Op_eq)].

Definition Direction_literals : list (string * Direction) :=
  [("asc", asc); ("desc", desc)].

(** The plan as the producer emits it: every literal still a string. *)
Record RawTimeRange := {
  raw_type : string;
  raw_year : option Z;
  raw_quarter : option Z;
  raw_n_years : option Z
}.

Record RawFilter := {
  raw_field : string;
  raw_op : string;
  raw_value : Cell
}.

Record RawSortBy := {
  raw_sb_field : string;
  raw_direction : string
}.

Record RawPlan := {
  raw_intent : string;
  raw_metrics : list string;
  raw_groupby : list string;
  raw_time_range : RawTimeRange;
  raw_filters : list RawFilter;
  raw_top_n : option Z;
  raw_sort_by : option RawSortBy
}.

(** A validation failure: the field and the input refused there. *)
Inductive ValidationError :=
| literal_error (loc : string) (input : string).

(** Validation of one [Literal] field. *)
Fixpoint lookup_literal {A} (lits : list (string * A)) (s : string) : option A :=
  match lits with
  | [] => None
  | (name, a) :: rest => if String.eqb name s then Some a else lookup_literal rest s
  end.

Definition validate_literal {A} (loc : string) (lits : list (string * A))
  (s : string) : Result ValidationError A :=
  match lookup_literal lits s with
  | Some a => OK a
  | None => Raise (literal_error loc s)
  end.

Fixpoint validate_list {A B} (f : A -> Result ValidationError B) (l : list A)
  : Result ValidationError (list B) :=
  match l with
  | [] => OK []
  | x :: rest =>
      y <- f x ;;
      ys <- validate_list f rest ;;
      OK (y :: ys)
  end.

Definition validate_TimeRange (raw : RawTimeRange)
  : Result ValidationError TimeRange :=
  t <- validate_literal "time_range.type" TimeRangeType_literals (raw_type raw) ;;
  OK {| tr_type := t; tr_year := raw_year raw; tr_quarter := raw_quarter raw;
        tr_n_years := raw_n_years raw |}.

Definition validate_Filter (raw : RawFilter) : Result ValidationError Filter :=
  f <- validate_literal "filters.field" FilterField_literals (raw_field raw) ;;
  o <- validate_literal "filters.op" Op_literals (raw_op raw) ;;
  OK {| f_field := f; f_op := o; f_value := raw_value raw |}.

Definition validate_SortBy (raw : RawSortBy) : Result ValidationError SortBy :=
  f <- validate_literal "sort_by.field" Metric_literals (raw_sb_field raw) ;;
  d <- validate_literal "sort_by.direction" Direction_literals (raw_direction raw) ;;
  OK {| sb_field := f; sb_direction := d |}.

(** [QueryPlan.model_validate]: the construction boundary of a plan. *)
Definition model_validate (raw : RawPlan) : Result ValidationError QueryPlan :=
  i <- validate_literal "intent" Intent_literals (raw_intent raw) ;;
  ms <- validate_list (validate_literal "metrics" Metric_literals) (raw_metrics raw) ;;
  gs <- validate_list (validate_literal "groupby" GroupByField_literals) (raw_groupby raw) ;;
  tr <- validate_TimeRange (raw_time_range raw) ;;
  fs <- validate_list validate_Filter (raw_filters raw) ;;
  sb <- match raw_sort_by raw with
        | None => OK None
        | Some s => x <- validate_SortBy s ;; OK (Some x)
        end ;;
  OK {| intent := i; metrics := ms; groupby := gs; time_range := tr;
        filters := fs; top_n := raw_top_n raw; sort_by := sb |}.

(** *** Notions of the statements, and a sample *)

Definition literal_names {A} (lits : list (string * A)) : list string :=
  map fst lits.

(** A name a plan may group by: a dimension of the registry other than
    communication and campaign_category. *)
Definition groupable (s : string) : Prop :=
  In s Schema.DIMENSIONS /\ s <> "communication" /\ s <> "campaign_category".

Definition raw_plan_of (groupby_names : list string) (filter_names : list string)
  : RawPlan :=
  {| raw_intent := "aggregate"; raw_metrics := ["revenue"];
     raw_groupby := groupby_names;
     raw_time_range := {| raw_type := "all"; raw_year := None;
                          raw_quarter := None; raw_n_years := None |};
     raw_filters := map (fun s => {| raw_field := s; raw_op := "=";
                                     raw_value := CStr "x" |}) filter_names;
     raw_top_n := None; raw_sort_by := None |}.

End Plan.

(** ** pandas: frames, sorting, and what the source leaves to the library *)

Inductive Exception :=
| ValueError (msg : string)
| KeyError (label : string)
| TypeError (msg : string).

(** A column label of a result frame. *)
Inductive Column :=
| Dim (g : Plan.GroupByField)
| Met (m : Plan.Metric).

Definition Column_eq_dec (a b : Column) : {a = b} + {a <> b}.
Proof.
  decide equality; [apply Plan.GroupByField_eq_dec | apply Plan.Metric_eq_dec].
Defined.

Arguments Column_eq_dec : simpl never.

(** A result frame: its column labels and its rows, a cell per column. *)
Record Frame := {
  columns : list Column;
  rows : list (list Cell)
}.

(** Insertion of [x] before the first element [y] with [c x y]. *)
Fixpoint insert_by {A} (c : A -> A -> bool) (x : A) (l : list A) : list A :=
  match l with
  | [] => [x]
  | y :: l' => if c x y then x :: l else y :: insert_by c x l'
  end.

(** Insertion sort; stable when [c] is a total "less or equal". *)
Fixpoint insertion_sort {A} (c : A -> A -> bool) (l : list A) : list A :=
  match l with
  | [] => []
  | x :: l' => insert_by c x (insertion_sort c l')
  end.

(** Order of two rows by the cell [key] reads off them. *)
Definition rows_ordered (key : list Cell -> Cell) (ascending : bool)
  (a b : list Cell) : Prop :=
  cell_order ascending (key a) (key b) = true.

(** What the engine takes from pandas without fixing it in the source.
    - [frame_and_series]: the operator [&] between a DataFrame and a boolean
      Series (it aligns the Series' labels with the frame's columns; it is
      not a row selection).
    - [quicksort]: the reordering behind [sort_values] on a single column
      with the default [kind="quicksort"]; numpy documents it as a sort that
      is not stable, so only "a sorted permutation" is known of it. *)
Class Pandas := {
  frame_and_series : DataFrame -> list bool -> Result Exception DataFrame;
  quicksort : (list Cell -> Cell) -> bool -> list (list Cell) -> list (list Cell);
  quicksort_Permutation :
    forall key ascending l, Permutation (quicksort key ascending l) l;
  quicksort_Sorted :
    forall key ascending l,
      Sorted (rows_ordered key ascending) (quicksort key ascending l)
}.

(** Two sorts that meet the [quicksort] contract: a stable one, and one
    that leaves equal keys in reverse order. *)
Definition stable_sort (key : list Cell -> Cell) (ascending : bool)
  : list (list Cell) -> list (list Cell) :=
  insertion_sort (fun a b => cell_order ascending (key a) (key b)).


(** ** src/engine/query_engine.py *)

Module Engine.

Import Plan.
Local Open Scope string_scope.
Local Open Scope list_scope.
Local Open Scope Z_scope.

Record ExecutionResult := {
  result_df : Frame;
  subset_df : DataFrame
}.

Definition Metric_name (m : Metric) : string :=
  match m with
  | M_revenue => "revenue" | M_cost => "cost" | M_profit => "profit"
  end.

Definition GroupByField_name (g : GroupByField) : string :=
  match g with
  | G_year => "year" | G_quarter => "quarter" | G_month => "month"
  | G_week => "week" | G_country => "country"
  | G_media_category => "media_category" | G_media_name => "media_name"
  | G_product => "product" | G_campaign_name => "campaign_name"
  end.

Definition Column_name (c : Column) : string :=
  match c with Dim g => GroupByField_name g | Met m => Metric_name m end.

(** [df[m]] for a metric. *)
Definition metric_column (m : Metric) (r : Row) : option Z :=
  match m with
  | M_revenue => revenue r | M_cost => cost r | M_profit => profit r
  end.

(** [df[g]] for a grouping dimension. *)
Definition groupby_column (g : GroupByField) (r : Row) : Cell :=
  match g with
  | G_year => num_cell (year r) | G_quarter => num_cell (quarter r)
  | G_month => num_cell (month r) | G_week => num_cell (week r)
  | G_country => country r | G_media_category => media_category r
  | G_media_name => media_name r | G_product => product r
  | G_campaign_name => campaign_name r
  end.

(** [df[f.field]] for a filter field. *)
Definition filter_column (f : FilterField) (r : Row) : Cell :=
  match f with
  | F_year => num_cell (year r) | F_quarter => num_cell (quarter r)
  | F_month => num_cell (month r) | F_week => num_cell (week r)
  | F_country => country r | F_media_category => media_category r
  | F_media_name => media_name r | F_communication => communication r
  | F_campaign_category => campaign_category r | F_product => product r
  | F_campaign_name => campaign_name r
  end.

(** Comparisons of a numeric column with a number: false on NaN. *)
Definition num_eq (x : option Z) (v : Z) : bool :=
  match x with Some a => a =? v | None => false end.

Definition num_ge (x : option Z) (v : Z) : bool :=
  match x with Some a => v <=? a | None => false end.

Definition num_le (x : option Z) (v : Z) : bool :=
  match x with Some a => a <=? v | None => false end.

(** [Series.max()]: NaN is skipped; NaN when nothing is left. *)
Fixpoint series_max (s : list (option Z)) : option Z :=
  match s with
  | [] => None
  | x :: rest =>
      match x, series_max rest with
      | Some v, Some m => Some (Z.max v m)
      | Some v, None => Some v
      | None, m => m
      end
  end.

(** [Series.sum()]: NaN is skipped; the empty sum is 0. *)
Fixpoint series_sum (s : list (option Z)) : Z :=
  match s with
  | [] => 0
  | Some v :: rest => v + series_sum rest
  | None :: rest => series_sum rest
  end.

(** Python's [int(x)] on the result of [max()]. *)
Definition python_int (x : option Z) : Result Exception Z :=
  match x with
  | Some v => OK v
  | None => Raise (ValueError "cannot convert float NaN to integer")
  end.

Definition _slice_last_quarter (df : DataFrame) : Result Exception DataFrame :=
  max_year <- python_int (series_max (map (fun r : Row => year r) df)) ;;
  max_q <- python_int (series_max (map (fun r : Row => quarter r)
                         (filter (fun r : Row => num_eq (year r) max_year) df))) ;;
  let '(y, q) := if max_q =? 1 then (max_year - 1, 4) else (max_year, max_q - 1) in
  OK (filter (fun r : Row => num_eq (year r) y && num_eq (quarter r) q) df).

(** [tr.n_years or 3]. *)
Definition n_years_or_3 (tr : TimeRange) : Z :=
  match tr_n_years tr with
  | Some n => if n =? 0 then 3 else n
  | None => 3
  end.

Section WithPandas.

Context {pandas : Pandas}.

Definition _apply_time_range (df : DataFrame) (plan : QueryPlan)
  : Result Exception DataFrame :=
  let tr := time_range plan in
  match tr_type tr with
  | T_all => OK df
  | T_year =>
      match tr_year tr with
      | None => Raise (ValueError "time_range.year is required for type=year")
      | Some y => OK (filter (fun r : Row => num_eq (year r) y) df)
      end
  | T_quarter =>
      match tr_year tr, tr_quarter tr with
      | Some y, Some q =>
          OK (filter (fun r : Row => num_eq (year r) y && num_eq (quarter r) q) df)
      | _, _ =>
          Raise (ValueError
            "time_range.year and time_range.quarter are required for type=quarter")
      end
  | T_last_quarter => _slice_last_quarter df
  | T_last_n_years =>
      match tr_year tr with
      | None =>
          Raise (ValueError "time_range.year is required for type=last_n_years")
      | Some _ =>
          let n := n_years_or_3 tr in
          max_year <- python_int (series_max (map (fun r : Row => year r) df)) ;;
          let start_year := max_year - n + 1 in
          frame_and_series
            (filter (fun r : Row => num_ge (year r) start_year) df)
            (map (fun r : Row => num_le (year r) max_year) df)
      end
  end.

(** One equality filter as a row predicate. *)
Definition filter_holds (f : Filter) (r : Row) : bool :=
  cell_eq (filter_column (f_field f) r) (f_value f).

Definition _apply_filters (df : DataFrame) (plan : QueryPlan) : DataFrame :=
  fold_left
    (fun out f => match f_op f with Op_eq => filter (filter_holds f) out end)
    (filters plan) df.

(** [{m: "sum" for m in metrics}]: the keys, each once, in first-seen order. *)
Fixpoint agg_map (ms : list Metric) : list Metric :=
  match ms with
  | [] => []
  | m :: rest => m :: remove Metric_eq_dec m (agg_map rest)
  end.

(** [df.agg(agg_map).to_frame().T]: one row of sums. *)
Definition agg_frame (df : DataFrame) (keys : list Metric) : Frame :=
  {| columns := map Met keys;
     rows := [map (fun m => CInt (series_sum (map (metric_column m) df))) keys] |}.

Definition group_key (group : list GroupByField) (r : Row) : list Cell :=
  map (fun g => groupby_column g r) group.

Definition key_eq_dec : forall a b : list Cell, {a = b} + {a <> b} :=
  list_eq_dec Cell_eq_dec.

Arguments key_eq_dec : simpl never.

Definition in_group (group : list GroupByField) (k : list Cell) (r : Row) : bool :=
  if key_eq_dec (group_key group r) k then true else false.

(** The first label that [reset_index] finds already present. *)
Fixpoint duplicated (l : list GroupByField) : option GroupByField :=
  match l with
  | [] => None
  | g :: rest =>
      if in_dec GroupByField_eq_dec g rest then Some g else duplicated rest
  end.

(** The keys of the groups: distinct, sorted ([sort=True]), NaN kept
    ([dropna=False]). *)
Definition group_keys (df : DataFrame) (group : list GroupByField)
  : list (list Cell) :=
  insertion_sort key_leb (nodup key_eq_dec (map (group_key group) df)).

Definition group_row (df : DataFrame) (group : list GroupByField)
  (keys : list Metric) (k : list Cell) : list Cell :=
  (k ++ map (fun m => CInt (series_sum
               (map (metric_column m) (filter (in_group group k) df)))) keys)%list.

(** [df.groupby(group, dropna=False).agg(agg_map).reset_index()]. *)
Definition groupby_agg (df : DataFrame) (group : list GroupByField)
  (keys : list Metric) : Result Exception Frame :=
  match duplicated group with
  | Some g =>
      Raise (ValueError ("cannot insert " ++ GroupByField_name g ++ ", already exists")%string)
  | None =>
      OK {| columns := (map Dim group ++ map Met keys)%list;
            rows := map (group_row df group keys) (group_keys df group) |}
  end.

Definition _run_aggregate (df : DataFrame) (plan : QueryPlan)
  : Result Exception Frame :=
  match metrics plan with
  | [] => Raise (ValueError "aggregate requires at least one metric")
  | _ :: _ =>
      let keys := agg_map (metrics plan) in
      match groupby plan with
      | [] => OK (agg_frame df keys)
      | _ :: _ => groupby_agg df (groupby plan) keys
      end
  end.

Fixpoint column_index (c : Column) (cols : list Column) : option nat :=
  match cols with
  | [] => None
  | c' :: rest =>
      if Column_eq_dec c c' then Some O
      else option_map S (column_index c rest)
  end.

Definition cell_at (i : nat) (row : list Cell) : Cell := nth i row CNaN.

Fixpoint column_indices (by_ : list Column) (cols : list Column)
  : Result Exception (list nat) :=
  match by_ with
  | [] => OK []
  | c :: rest =>
      match column_index c cols with
      | None => Raise (KeyError (Column_name c))
      | Some i => js <- column_indices rest cols ;; OK (i :: js)
      end
  end.

(** [res.sort_values(by=label, ascending=...)]: one column, default kind. *)
Definition sort_values_by (by_ : Column) (ascending : bool) (f : Frame)
  : Result Exception Frame :=
  match column_index by_ (columns f) with
  | None => Raise (KeyError (Column_name by_))
  | Some i =>
      OK {| columns := columns f;
            rows := quicksort (cell_at i) ascending (rows f) |}
  end.

Definition cells_at (idxs : list nat) (row : list Cell) : list Cell :=
  map (fun i => cell_at i row) idxs.

(** [res.sort_values(labels)], ascending: a single label goes through the
    default kind, several through the (stable) lexicographic sort. *)
Definition sort_values (by_ : list Column) (f : Frame) : Result Exception Frame :=
  idxs <- column_indices by_ (columns f) ;;
  match idxs with
  | [] => OK f
  | [i] =>
      OK {| columns := columns f; rows := quicksort (cell_at i) true (rows f) |}
  | _ :: _ :: _ =>
      OK {| columns := columns f;
            rows := insertion_sort (fun a b => key_leb (cells_at idxs a) (cells_at idxs b))
                      (rows f) |}
  end.

(** [DataFrame.head(n)]: the first [n] rows; all but the last [-n] when [n]
    is negative. *)
Definition head (n : Z) (f : Frame) : Frame :=
  {| columns := columns f;
     rows := if 0 <=? n then firstn (Z.to_nat n) (rows f)
             else firstn (List.length (rows f) - Z.to_nat (- n))%nat (rows f) |}.

Definition is_asc (d : Direction) : bool :=
  match d with asc => true | desc => false end.

(** [plan.metrics or ["revenue"]]. *)
Definition top_n_metrics (plan : QueryPlan) : list Metric :=
  match metrics plan with
  | [] => [M_revenue]
  | _ :: _ => metrics plan
  end.

Definition _run_top_n (df : DataFrame) (plan : QueryPlan)
  : Result Exception Frame :=
  match groupby plan with
  | [] => Raise (ValueError "top_n requires groupby (e.g., campaign_name)")
  | _ :: _ =>
      match top_n plan, sort_by plan with
      | Some n, Some sb =>
          let metrics := top_n_metrics plan in
          res <- groupby_agg df (groupby plan) (agg_map metrics) ;;
          res <- sort_values_by (Met (sb_field sb)) (is_asc (sb_direction sb)) res ;;
          OK (head n res)
      | _, _ => Raise (ValueError "top_n requires top_n and sort_by")
      end
  end.

(** [plan.groupby or ["year", "month"]]. *)
Definition trend_group (plan : QueryPlan) : list GroupByField :=
  match groupby plan with
  | [] => [G_year; G_month]
  | _ :: _ => groupby plan
  end.

(** [plan.metrics or ["revenue", "cost"]]. *)
Definition trend_metrics (plan : QueryPlan) : list Metric :=
  match metrics plan with
  | [] => [M_revenue; M_cost]
  | _ :: _ => metrics plan
  end.

Definition mem_group (g : GroupByField) (l : list GroupByField) : bool :=
  if in_dec GroupByField_eq_dec g l then true else false.

Definition _run_trend (df : DataFrame) (plan : QueryPlan)
  : Result Exception Frame :=
  let group := trend_group plan in
  let metrics := trend_metrics plan in
  res <- groupby_agg df group (agg_map metrics) ;;
  if mem_group G_year group && mem_group G_month group
  then sort_values [Dim G_year; Dim G_month] res
  else sort_values (map Dim group) res.

Definition execute_with_subset (df : DataFrame) (plan : QueryPlan)
  : Result Exception ExecutionResult :=
  subset <- _apply_time_range df plan ;;
  let subset := _apply_filters subset plan in
  res <- match intent plan with
         | I_aggregate => _run_aggregate subset plan
         | I_top_n => _run_top_n subset plan
         | I_trend => _run_trend subset plan
         | I_unknown => Raise (ValueError "Unsupported intent: unknown")
         end ;;
  OK {| result_df := res; subset_df := subset |}.

Definition execute (df : DataFrame) (plan : QueryPlan) : Result Exception Frame :=
  er <- execute_with_subset df plan ;; OK (result_df er).

End WithPandas.

(** *** Notions of the statements *)

(** [m] is the largest number present in a column. *)
Definition is_maximum (s : list (option Z)) (m : Z) : Prop :=
  In (Some m) s /\ forall v, In (Some v) s -> v <= m.



(** The inclusive range of years [[maxYear-n+1, maxYear]], as the
    specification words the [last_n_years] slice. *)
Definition rows_of_last_years (n maxYear : Z) (df : DataFrame) : DataFrame :=
  filter (fun r : Row => num_ge (year r) (maxYear - n + 1) && num_le (year r) maxYear) df.

Definition nan_to_int : Exception :=
  ValueError "cannot convert float NaN to integer".

Definition year_required : Exception :=
  ValueError "time_range.year is required for type=last_n_years".

(** All the equality filters of a plan, as one conjunction on a row. *)
Definition all_filters_hold (plan : QueryPlan) (r : Row) : bool :=
  forallb (fun f => filter_holds f r) (filters plan).



(** The cells of [row] under the labels [by_], for a frame with the
    columns [cols]. *)
Definition row_cell (cols : list Column) (c : Column) (row : list Cell) : Cell :=
  match column_index c cols with
  | Some i => cell_at i row
  | None => CNaN
  end.

Definition row_cells (cols : list Column) (by_ : list Column) (row : list Cell)
  : list Cell :=
  map (fun c => row_cell cols c row) by_.

(** Rows in lexicographic order of the columns [by_], NaN last. *)
Definition ordered_by (cols : list Column) (by_ : list Column)
  (a b : list Cell) : Prop :=
  key_leb (row_cells cols by_ a) (row_cells cols by_ b) = true.




(** The number of distinct grouping keys present in a table. *)
Definition group_count (df : DataFrame) (group : list GroupByField) : Z :=
  Z.of_nat (List.length (nodup key_eq_dec (map (group_key group) df))).

(** The dimensions held in numeric columns. *)
Definition numeric_field (f : FilterField) : bool :=
  match f with
  | F_year | F_quarter | F_month | F_week => true
  | _ => false
  end.

(** *** Sample data *)

Definition sample_row (y q m : Z) (campaign : string) (rev cst : Z) : Row :=
  {| derived :=
       {| source :=
            {| year := Some y; quarter := Some q; month := Some m;
               week := Some 1;
               date := {| ts_year := y; ts_month := m; ts_day := 1; ts_time := 0 |};
               country := CStr "IT"; media_category := CStr "online";
               media_name := CStr "search"; communication := CStr "brand";
               campaign_category := CStr "always-on"; product := CStr "P";
               campaign_name := CStr campaign;
               revenue := Some rev; cost := Some cst |};
          profit := Some (rev - cst) |};
     row_id := "" |}.

Definition sample_df : DataFrame :=
  [sample_row 2022 4 11 "alpha" 50 20;
   sample_row 2023 1 1 "beta" 30 10;
   sample_row 2022 3 8 "gamma" 80 30;
   sample_row 2023 1 2 "alpha" 5 1].


Definition plan_of (i : Intent) (ms : list Metric) (gs : list GroupByField)
  (tr : TimeRange) : QueryPlan :=
  {| intent := i; metrics := ms; groupby := gs; time_range := tr;
     filters := []; top_n := None; sort_by := None |}.

Definition time_range_of (t : TimeRangeType) : TimeRange :=
  {| tr_type := t; tr_year := None; tr_quarter := None; tr_n_years := None |}.

Definition last_years_plan (y n : option Z) : QueryPlan :=
  plan_of I_aggregate [M_revenue] []
    {| tr_type := T_last_n_years; tr_year := y; tr_quarter := None;
       tr_n_years := n |}.

Definition filter_of (f : FilterField) (v : Cell) : Filter :=
  {| f_field := f; f_op := Op_eq; f_value := v |}.

Definition revenue_2022_alpha : QueryPlan :=
  {| intent := I_aggregate; metrics := [M_revenue]; groupby := [];
     time_range := {| tr_type := T_year; tr_year := Some 2022;
                      tr_quarter := None; tr_n_years := None |};
     filters := [filter_of F_country (CStr "IT");
                 filter_of F_campaign_name (CStr "alpha")];
     top_n := None; sort_by := None |}.

Definition revenue_by_campaign : QueryPlan :=
  plan_of I_aggregate [M_revenue; M_profit] [G_campaign_name] (time_range_of T_all).

Definition top_n_plan (ms : list Metric) (n : Z) (field : Metric) (d : Direction)
  : QueryPlan :=
  {| intent := I_top_n; metrics := ms; groupby := [G_campaign_name];
     time_range := time_range_of T_all; filters := [];
     top_n := Some n;
     sort_by := Some {| sb_field := field; sb_direction := d |} |}.

End Engine.

(** ** src/data/loader.py *)

Module Loader.

Local Open Scope string_scope.
Local Open Scope list_scope.
Local Open Scope Z_scope.

(** A row as [read_csv] yields it: a cell per raw column. *)
Record RawRow := {
  Year : Cell;
  Quarter : Cell;
  Month : Cell;
  Week : Cell;
  Date : Cell;
  Country : Cell;
  Media_Category : Cell;
  Media_Name : Cell;
  Communication : Cell;
  Campaign_Category : Cell;
  Product : Cell;
  Campaign_Name : Cell;
  Revenue : Cell;
  Cost : Cell
}.

(** The frame read from the source: its column labels and its rows. *)
Record RawFrame := {
  header : list string;
  raw_rows : list RawRow
}.

(** The failures of [load]: the [ValueError] of each gate, with the missing
    columns or the bounded sample of offending rows that its message
    prints, and the [KeyError] of [row[c]] on a label the frame lacks. *)
Inductive LoadError :=
| MissingColumns (missing : list string)
| InvalidDate (sample : list RawRow)
| InvalidQuarterMonth (sample : list RawRow)
| InvalidRevenueCost (sample : list RawRow)
| UnknownColumn (label : string).

Record LoadResult := {
  df : DataFrame;
  min_date : option Timestamp;
  max_date : option Timestamp
}.


(** *** Text of values *)

Definition str_of_Z (z : Z) : string := NilZero.string_of_int (Z.to_int z).

(** [str(x)] of a number or NaN, and of a cell. *)
Definition str_of_num (x : option Z) : string :=
  match x with Some z => str_of_Z z | None => "nan" end.

Definition str_of_cell (c : Cell) : string :=
  match c with CInt z => str_of_Z z | CStr s => s | CNaN => "nan" end.

Definition pad2 (z : Z) : string :=
  if z <? 10 then "0" ++ str_of_Z z else str_of_Z z.

Definition pad4 (z : Z) : string :=
  if z <? 10 then "000" ++ str_of_Z z
  else if z <? 100 then "00" ++ str_of_Z z
  else if z <? 1000 then "0" ++ str_of_Z z
  else str_of_Z z.

(** [str(v.date())]: the calendar day, YYYY-MM-DD. *)
Definition str_of_date (t : Timestamp) : string :=
  pad4 (ts_year t) ++ "-" ++ pad2 (ts_month t) ++ "-" ++ pad2 (ts_day t).

(** *** The patterns of the quarter and month columns (ASCII classes) *)

Definition is_space (c : ascii) : bool :=
  let n := nat_of_ascii c in
  (Nat.eqb n 32 || (Nat.leb 9 n && Nat.leb n 13))%bool.

Definition is_digit (c : ascii) : bool :=
  let n := nat_of_ascii c in (Nat.leb 48 n && Nat.leb n 57)%bool.

Definition is_1_to_4 (c : ascii) : bool :=
  let n := nat_of_ascii c in (Nat.leb 49 n && Nat.leb n 52)%bool.

Fixpoint skip_spaces (s : string) : string :=
  match s with
  | String c rest => if is_space c then skip_spaces rest else s
  | EmptyString => s
  end.

(** [str.extract(r"Q\s*([1-4])")]: the group of the first match. *)
Fixpoint extract_Q (s : string) : option string :=
  match s with
  | EmptyString => None
  | String c rest =>
      if Ascii.eqb c "Q" then
        match skip_spaces rest with
        | String d _ =>
            if is_1_to_4 d then Some (String d EmptyString) else extract_Q rest
        | EmptyString => extract_Q rest
        end
      else extract_Q rest
  end.

(** [str.extract(r"M\s*(\d{1,2})")]: the group of the first match. *)
Fixpoint extract_M (s : string) : option string :=
  match s with
  | EmptyString => None
  | String c rest =>
      if Ascii.eqb c "M" then
        match skip_spaces rest with
        | String d1 after =>
            if is_digit d1 then
              match after with
              | String d2 _ =>
                  if is_digit d2 then Some (String d1 (String d2 EmptyString))
                  else Some (String d1 EmptyString)
              | EmptyString => Some (String d1 EmptyString)
              end
            else extract_M rest
        | EmptyString => extract_M rest
        end
      else extract_M rest
  end.

(** [Series.between(lo, hi)]: false on NaN. *)
Definition between (lo hi : Z) (x : option Z) : bool :=
  match x with
  | Some v => (lo <=? v) && (v <=? hi)
  | None => false
  end.

Definition is_none {A} (x : option A) : bool :=
  match x with Some _ => false | None => true end.

(** [a.fillna(b)]. *)
Definition fillna {A} (a b : option A) : option A :=
  match a with Some _ => a | None => b end.

(** [dt.quarter] and [dt.month]. *)
Definition dt_quarter (t : Timestamp) : Z := (ts_month t - 1) / 3 + 1.

Definition dt_month (t : Timestamp) : Z := ts_month t.

(** Order of timestamps, for the date bounds. *)
Definition ts_leb (a b : Timestamp) : bool :=
  if ts_year a =? ts_year b then
    if ts_month a =? ts_month b then
      if ts_day a =? ts_day b then ts_time a <=? ts_time b
      else ts_day a <? ts_day b
    else ts_month a <? ts_month b
  else ts_year a <? ts_year b.

Fixpoint dates_min (l : list Timestamp) : option Timestamp :=
  match l with
  | [] => None
  | t :: rest =>
      match dates_min rest with
      | Some m => Some (if ts_leb t m then t else m)
      | None => Some t
      end
  end.

Fixpoint dates_max (l : list Timestamp) : option Timestamp :=
  match l with
  | [] => None
  | t :: rest =>
      match dates_max rest with
      | Some m => Some (if ts_leb m t then t else m)
      | None => Some t
      end
  end.

(** What the loader takes from pandas and hashlib.
    - [to_datetime]: [pd.to_datetime(x, errors="coerce")] on one cell;
      [None] is NaT.
    - [to_numeric_str]: [pd.to_numeric(s, errors="coerce")] on one string;
      [None] is NaN.
    - [sha256_hexdigest]: [hashlib.sha256(key.encode("utf-8")).hexdigest()].
    - [apply_on_no_rows]: what [df["row_id"] = df.apply(f, axis=1)] does on a
      frame without rows, where pandas does not call [f]: it may go through
      ([None]) or raise. *)
Class Libraries := {
  to_datetime : Cell -> option Timestamp;
  to_numeric_str : string -> option Z;
  sha256_hexdigest : string -> string;
  apply_on_no_rows : option LoadError
}.

Section WithLibraries.

Context {libraries : Libraries}.

(** [pd.to_numeric(x, errors="coerce")] on one cell. *)
Definition to_numeric (c : Cell) : option Z :=
  match c with
  | CInt z => Some z
  | CStr s => to_numeric_str s
  | CNaN => None
  end.

Definition to_numeric_opt (s : option string) : option Z :=
  match s with Some s => to_numeric_str s | None => None end.

Definition schema : Schema.DatasetSchema := Schema.marketing_default.

Definition _validate_columns (src : RawFrame) : Result LoadError unit :=
  let missing :=
    filter (fun c => negb (existsb (String.eqb c) (header src)))
           (Schema.raw_columns schema) in
  match missing with
  | [] => OK tt
  | _ :: _ => Raise (MissingColumns missing)
  end.

Fixpoint renamed (m : list (string * string)) (c : string) : string :=
  match m with
  | [] => c
  | (raw, canonical) :: rest =>
      if String.eqb raw c then canonical else renamed rest c
  end.

Definition _normalize (src : RawFrame) : RawFrame :=
  {| header := map (renamed (Schema.rename_map schema)) (header src);
     raw_rows := raw_rows src |}.

(** The rows with their parsed date, when every date parses. *)
Fixpoint parse_dates (rows : list RawRow) : option (list (RawRow * Timestamp)) :=
  match rows with
  | [] => Some []
  | r :: rest =>
      match to_datetime (Date r), parse_dates rest with
      | Some t, Some l => Some ((r, t) :: l)
      | _, _ => None
      end
  end.

(** The quarter column after the numeric reading, the pattern and the
    fallback from the date. *)
Definition quarter_of (r : RawRow) (t : Timestamp) : option Z :=
  fillna
    (fillna (to_numeric (Quarter r))
            (to_numeric_opt (extract_Q (str_of_cell (Quarter r)))))
    (Some (dt_quarter t)).

Definition month_of (r : RawRow) (t : Timestamp) : option Z :=
  fillna
    (fillna (to_numeric (Month r))
            (to_numeric_opt (extract_M (str_of_cell (Month r)))))
    (Some (dt_month t)).

Definition bad_q (p : RawRow * Timestamp) : bool :=
  is_none (quarter_of (fst p) (snd p)) || negb (between 1 4 (quarter_of (fst p) (snd p))).

Definition bad_m (p : RawRow * Timestamp) : bool :=
  is_none (month_of (fst p) (snd p)) || negb (between 1 12 (month_of (fst p) (snd p))).

Definition bad_money (p : RawRow * Timestamp) : bool :=
  is_none (to_numeric (Revenue (fst p))) || is_none (to_numeric (Cost (fst p))).

(** The coerced columns of one row. *)
Definition coerced (p : RawRow * Timestamp) : SourceRow :=
  let r := fst p in
  {| year := to_numeric (Year r);
     quarter := quarter_of r (snd p);
     month := month_of r (snd p);
     week := to_numeric (Week r);
     date := snd p;
     country := Country r;
     media_category := Media_Category r;
     media_name := Media_Name r;
     communication := Communication r;
     campaign_category := Campaign_Category r;
     product := Product r;
     campaign_name := Campaign_Name r;
     revenue := to_numeric (Revenue r);
     cost := to_numeric (Cost r) |}.

Definition _coerce_types (rows : list RawRow) : Result LoadError (list SourceRow) :=
  match parse_dates rows with
  | None =>
      Raise (InvalidDate
               (firstn 10 (filter (fun r => is_none (to_datetime (Date r))) rows)))
  | Some dated =>
      if existsb bad_q dated || existsb bad_m dated then
        Raise (InvalidQuarterMonth
                 (firstn 15 (map fst (filter (fun p => bad_q p || bad_m p) dated))))
      else if existsb bad_money dated then
        Raise (InvalidRevenueCost (firstn 10 (map fst (filter bad_money dated))))
      else OK (map coerced dated)
  end.

(** [a - b] on a numeric column: NaN when either is. *)
Definition num_sub (a b : option Z) : option Z :=
  match a, b with Some x, Some y => Some (x - y) | _, _ => None end.

Definition _add_derived_metrics (rows : list SourceRow) : list DerivedRow :=
  map (fun r => {| source := r; profit := num_sub (revenue r) (cost r) |}) rows.

(** [str(row[c])], with the date cut to its day when [c] is "date". *)
Definition part_value (c : string) (r : DerivedRow) : Result LoadError string :=
  if String.eqb c "date" then OK (str_of_date (date r))
  else if String.eqb c "year" then OK (str_of_num (year r))
  else if String.eqb c "quarter" then OK (str_of_num (quarter r))
  else if String.eqb c "month" then OK (str_of_num (month r))
  else if String.eqb c "week" then OK (str_of_num (week r))
  else if String.eqb c "country" then OK (str_of_cell (country r))
  else if String.eqb c "media_category" then OK (str_of_cell (media_category r))
  else if String.eqb c "media_name" then OK (str_of_cell (media_name r))
  else if String.eqb c "communication" then OK (str_of_cell (communication r))
  else if String.eqb c "campaign_category" then OK (str_of_cell (campaign_category r))
  else if String.eqb c "product" then OK (str_of_cell (product r))
  else if String.eqb c "campaign_name" then OK (str_of_cell (campaign_name r))
  else if String.eqb c "revenue" then OK (str_of_num (revenue r))
  else if String.eqb c "cost" then OK (str_of_num (cost r))
  else if String.eqb c "profit" then OK (str_of_num (profit r))
  else Raise (UnknownColumn c).

Fixpoint row_parts (cols : list string) (r : DerivedRow)
  : Result LoadError (list string) :=
  match cols with
  | [] => OK []
  | c :: rest =>
      v <- part_value c r ;;
      parts <- row_parts rest r ;;
      OK ((c ++ "=" ++ v)%string :: parts)
  end.

Definition build_row_key (r : DerivedRow) : Result LoadError string :=
  parts <- row_parts (Schema.row_id_hash_columns schema) r ;;
  OK (String.concat "|" parts).

Definition hash_key (key : string) : string :=
  substring 0 16 (sha256_hexdigest key).

Fixpoint apply_rows (rows : list DerivedRow) : Result LoadError DataFrame :=
  match rows with
  | [] => OK []
  | r :: rest =>
      key <- build_row_key r ;;
      out <- apply_rows rest ;;
      OK ({| derived := r; row_id := hash_key key |} :: out)
  end.

Definition _add_row_id (rows : list DerivedRow) : Result LoadError DataFrame :=
  match rows, apply_on_no_rows with
  | [], Some e => Raise e
  | _, _ => apply_rows rows
  end.

Definition load (src : RawFrame) : Result LoadError LoadResult :=
  _ <- _validate_columns src ;;
  let renamed_src := _normalize src in
  rows <- _coerce_types (raw_rows renamed_src) ;;
  let rows := _add_derived_metrics rows in
  table <- _add_row_id rows ;;
  OK {| df := table;
        min_date := dates_min (map (fun r : Row => date r) table);
        max_date := dates_max (map (fun r : Row => date r) table) |}.

(** *** Notions of the statements *)

Definition epoch : Timestamp :=
  {| ts_year := 1970; ts_month := 1; ts_day := 1; ts_time := 0 |}.

(** A row with the date it parses to (the epoch stands for NaT and is
    never used once the date gate is passed). *)
Definition dated (r : RawRow) : RawRow * Timestamp :=
  (r, match to_datetime (Date r) with Some t => t | None => epoch end).

(** A row that passes the three gates. *)
Definition row_ok (r : RawRow) : bool :=
  negb (is_none (to_datetime (Date r))) &&
  negb (bad_q (dated r) || bad_m (dated r)) &&
  negb (bad_money (dated r)).

(** A row the load cannot accept: its date does not parse, or its quarter
    or month, after the numeric reading, the pattern and the fallback from
    the date, is outside [1,4] or [1,12], or its revenue or cost is not a
    number. *)
Definition offending (r : RawRow) : Prop :=
  to_datetime (Date r) = None \/
  (exists t, to_datetime (Date r) = Some t /\
             (between 1 4 (quarter_of r t) = false \/
              between 1 12 (month_of r t) = false)) \/
  to_numeric (Revenue r) = None \/
  to_numeric (Cost r) = None.

(** The text of each hashed value of a row, in the order of
    [ROW_ID_HASH_COLUMNS], the date cut to its day. *)
Definition hashed_values (r : DerivedRow) : list string :=
  [str_of_num (year r); str_of_num (quarter r); str_of_num (month r);
   str_of_num (week r); str_of_date (date r);
   str_of_cell (country r); str_of_cell (media_category r);
   str_of_cell (media_name r); str_of_cell (communication r);
   str_of_cell (campaign_category r); str_of_cell (product r);
   str_of_cell (campaign_name r);
   str_of_num (revenue r); str_of_num (cost r)].

(** The parts "column=value" of the declared columns, joined by "|". *)
Definition row_key (r : DerivedRow) : string :=
  String.concat "|"
    (map (fun cv => (fst cv ++ "=" ++ snd cv)%string)
         (combine Schema.ROW_ID_HASH_COLUMNS (hashed_values r))).

(** Two rows with the same values in the hashed columns, their dates
    compared by calendar day. *)
Definition same_identity (a b : DerivedRow) : Prop :=
  year a = year b /\ quarter a = quarter b /\ month a = month b /\
  week a = week b /\
  (ts_year (date a) = ts_year (date b) /\ ts_month (date a) = ts_month (date b) /\
   ts_day (date a) = ts_day (date b)) /\
  country a = country b /\ media_category a = media_category b /\
  media_name a = media_name b /\ communication a = communication b /\
  campaign_category a = campaign_category b /\ product a = product b /\
  campaign_name a = campaign_name b /\
  revenue a = revenue b /\ cost a = cost b.

Definition identified (r : DerivedRow) : Row :=
  {| derived := r; row_id := hash_key (row_key r) |}.

Definition derived_rows (src : RawFrame) : list DerivedRow :=
  _add_derived_metrics (map (fun r => coerced (dated r)) (raw_rows src)).



(** The columns that the loader, the plans and the row key refer to by
    their normalized names. *)
Definition referenced_columns : list string :=
  Schema.numeric_columns schema ++ [Schema.date_column schema] ++
  Schema.dimensions schema ++ Schema.row_id_hash_columns schema.

(** A row with other cells in its country and media_category columns. *)
Definition with_country_and_category (c m : Cell) (r : DerivedRow) : DerivedRow :=
  {| source :=
       {| year := year r; quarter := quarter r; month := month r;
          week := week r; date := date r;
          country := c; media_category := m;
          media_name := media_name r; communication := communication r;
          campaign_category := campaign_category r; product := product r;
          campaign_name := campaign_name r;
          revenue := revenue r; cost := cost r |};
     profit := profit r |}.

End WithLibraries.

(** *** Sample sources *)

Fixpoint parse_digits (acc : Z) (s : string) : option Z :=
  match s with
  | EmptyString => Some acc
  | String c rest =>
      if is_digit c
      then parse_digits (10 * acc + Z.of_nat (nat_of_ascii c - 48)) rest
      else None
  end.

(** Decimal integers, as a [to_numeric] on strings. *)
Definition decimal_to_numeric (s : string) : option Z :=
  match s with
  | EmptyString => None
  | String c rest =>
      if Ascii.eqb c "-" then
        match rest with
        | EmptyString => None
        | String _ _ => option_map Z.opp (parse_digits 0 rest)
        end
      else parse_digits 0 s
  end.

(** Dates written YYYY-MM-DD, as a [to_datetime]. *)
Definition iso_to_datetime (c : Cell) : option Timestamp :=
  match c with
  | CStr s =>
      if (Nat.eqb (String.length s) 10 && String.eqb (substring 4 1 s) "-" &&
          String.eqb (substring 7 1 s) "-")%bool
      then
        match parse_digits 0 (substring 0 4 s), parse_digits 0 (substring 5 2 s),
              parse_digits 0 (substring 8 2 s) with
        | Some y, Some m, Some d =>
            if ((1 <=? m) && (m <=? 12) && (1 <=? d) && (d <=? 31))%bool
            then Some {| ts_year := y; ts_month := m; ts_day := d; ts_time := 0 |}
            else None
        | _, _, _ => None
        end
      else None
  | _ => None
  end.

(** A stand-in for the digest, to run the loader on samples. *)
Definition plain_digest (s : string) : string := s.

(** The stand-ins above, as the libraries of the samples. *)
Definition sample_libraries : Libraries := {|
  to_datetime := iso_to_datetime;
  to_numeric_str := decimal_to_numeric;
  sha256_hexdigest := plain_digest;
  apply_on_no_rows := None
|}.

Definition sample_load : RawFrame -> Result LoadError LoadResult :=
  load (libraries := sample_libraries).

Definition raw_row (y q m d rev cst : Cell) : RawRow :=
  {| Year := y; Quarter := q; Month := m; Week := CInt 1; Date := d;
     Country := CStr "IT"; Media_Category := CStr "online";
     Media_Name := CStr "search"; Communication := CStr "brand";
     Campaign_Category := CStr "always-on"; Product := CStr "P";
     Campaign_Name := CNaN; Revenue := rev; Cost := cst |}.

Definition source_of (rows : list RawRow) : RawFrame :=
  {| header := Schema.RAW_COLUMNS; raw_rows := rows |}.

Definition good_row : RawRow :=
  raw_row (CInt 2023) (CStr "2023 Q1") (CStr "M01") (CStr "2023-01-05")
          (CInt 100) (CInt 40).

Definition other_row : RawRow :=
  raw_row (CInt 2023) CNaN (CInt 8) (CStr "2023-08-17") (CStr "70") (CInt 90).

End Loader.

(** ** Python text

    A text is the sequence of its code points; the functions that look
    inside a text ([strip], [lower], the patterns of the router) are given
    for code points below 256.  Log lines are not part of the model. *)

Module Text.

(** [str.isspace] of one code point: the ASCII white space, the four
    separators 28..31, NEL and the no-break space. *)
Definition isspace (c : ascii) : bool :=
  let n := nat_of_ascii c in
  (Nat.leb 9 n && Nat.leb n 13) || (Nat.leb 28 n && Nat.leb n 31) ||
  Nat.eqb n 32 || Nat.eqb n 133 || Nat.eqb n 160.

(** [str.lower] of one code point: A..Z, and the capitals 192..222 of
    Latin-1 but the multiplication sign. *)
Definition lower_char (c : ascii) : ascii :=
  let n := nat_of_ascii c in
  if (Nat.leb 65 n && Nat.leb n 90) ||
     (Nat.leb 192 n && Nat.leb n 222 && negb (Nat.eqb n 215))
  then ascii_of_nat (n + 32) else c.

Fixpoint lower (s : string) : string :=
  match s with
  | EmptyString => EmptyString
  | String c rest => String (lower_char c) (lower rest)
  end.

Fixpoint lstrip (s : string) : string :=
  match s with
  | EmptyString => EmptyString
  | String c rest => if isspace c then lstrip rest else s
  end.

Fixpoint rstrip (s : string) : string :=
  match s with
  | EmptyString => EmptyString
  | String c rest =>
      match rstrip rest with
      | EmptyString => if isspace c then EmptyString else String c EmptyString
      | (String _ _) as kept => String c kept
      end
  end.

(** [str.strip()]. *)
Definition strip (s : string) : string := rstrip (lstrip s).

(** [x in words] for a set or tuple of texts. *)
Definition mem (x : string) (words : list string) : bool :=
  existsb (String.eqb x) words.

(** A text of white space only. *)
Fixpoint blank (s : string) : bool :=
  match s with
  | EmptyString => true
  | String c rest => isspace c && blank rest
  end.

(** The line feed. *)
Definition LF : string := String (ascii_of_nat 10) EmptyString.

End Text.

(** ** app/commands.py *)

Module Commands.

Import Text.
Local Open Scope string_scope.

Definition _EXIT_COMMANDS : list string := ["exit"; "quit"; "stop"; "terminate"].

Definition _RESET_COMMANDS : list string := ["reset"; "clear"].

Definition _HELP_COMMANDS : list string := ["help"; "?"].

Definition is_exit_command (text : string) : bool :=
  let t := lower (strip text) in mem t _EXIT_COMMANDS.

Definition is_reset_command (text : string) : bool :=
  let t := lower (strip text) in mem t _RESET_COMMANDS.

Definition is_help_command (text : string) : bool :=
  let t := lower (strip text) in mem t _HELP_COMMANDS.

End Commands.

(** ** app/memory.py *)

Module Memory.

Import Text.
Local Open Scope string_scope.
Local Open Scope list_scope.
Local Open Scope Z_scope.

(** The slice [l[start:]] of Python: a negative [start] counts from the
    end, and stops at the beginning of the list. *)
Definition slice_from {A} (start : Z) (l : list A) : list A :=
  if start <? 0 then skipn (List.length l - Z.to_nat (- start)) l
  else skipn (Z.to_nat start) l.

Record ChatMemory := {
  max_user : Z;
  max_bot : Z;
  user_messages : list string;
  bot_messages : list string;
  _last_plan : option Plan.QueryPlan
}.

(** [ChatMemory(max_user=..., max_bot=...)]; both are 5 by default. *)
Definition new (max_user max_bot : Z) : ChatMemory :=
  {| max_user := max_user; max_bot := max_bot;
     user_messages := []; bot_messages := []; _last_plan := None |}.

(** [buffer.append(text)], then the cut to the last [bound] messages when
    the buffer has grown past [bound]. *)
Definition pushed (bound : Z) (buffer : list string) (text : string) : list string :=
  let buffer := buffer ++ [text] in
  if Z.of_nat (List.length buffer) >? bound then slice_from (- bound) buffer
  else buffer.

Definition push_user (text : string) (m : ChatMemory) : ChatMemory :=
  {| max_user := max_user m; max_bot := max_bot m;
     user_messages := pushed (max_user m) (user_messages m) text;
     bot_messages := bot_messages m; _last_plan := _last_plan m |}.

Definition push_bot (text : string) (m : ChatMemory) : ChatMemory :=
  {| max_user := max_user m; max_bot := max_bot m;
     user_messages := user_messages m;
     bot_messages := pushed (max_bot m) (bot_messages m) text;
     _last_plan := _last_plan m |}.

Definition set_last_plan (plan : Plan.QueryPlan) (m : ChatMemory) : ChatMemory :=
  {| max_user := max_user m; max_bot := max_bot m;
     user_messages := user_messages m; bot_messages := bot_messages m;
     _last_plan := Some plan |}.


(** One paired turn of the history text. *)
Definition paired_turn (p : string * string) : string :=
  "User: " ++ fst p ++ LF ++ "Assistant: " ++ snd p.

(** [history_string(max_turns)]; [max_turns] is 5 by default. *)
Definition history_string (max_turns : Z) (m : ChatMemory) : string :=
  let u := slice_from (- max_turns) (user_messages m) in
  let b := slice_from (- max_turns) (bot_messages m) in
  String.concat (LF ++ LF) (map paired_turn (combine u b)).

(** [last_plan_json()], given pydantic's [model_dump_json(indent=2)]. *)
Definition last_plan_json (model_dump_json : Plan.QueryPlan -> string)
  (m : ChatMemory) : string :=
  match _last_plan m with
  | None => "null"
  | Some plan => model_dump_json plan
  end.

(** *** Notions of the statements *)

(** The last [n] elements of a list. *)
Definition last_n {A} (n : nat) (l : list A) : list A :=
  skipn (List.length l - n) l.

(** The memory after the messages [texts] of the user, pushed in turn. *)
Definition after_user_messages (texts : list string) (m : ChatMemory) : ChatMemory :=
  fold_left (fun m t => push_user t m) texts m.

Definition after_bot_messages (texts : list string) (m : ChatMemory) : ChatMemory :=
  fold_left (fun m t => push_bot t m) texts m.

(** The memory after complete turns: a question, then its answer. *)
Definition after_turns (turns : list (string * string)) (m : ChatMemory) : ChatMemory :=
  fold_left (fun m qa => push_bot (snd qa) (push_user (fst qa) m)) turns m.

(** The turns that [history_string] pairs. *)
Definition history_pairs (max_turns : Z) (m : ChatMemory) : list (string * string) :=
  combine (slice_from (- max_turns) (user_messages m))
          (slice_from (- max_turns) (bot_messages m)).

End Memory.

(** ** src/config.py *)

Module Config.

Import Text.
Local Open Scope string_scope.
Local Open Scope Z_scope.

Record Settings := {
  app_title : string;
  dataset_path : string;
  llm_provider : string;
  bedrock_model_id : string;
  aws_region : string;
  aws_profile : option string;
  max_history_user : Z;
  max_history_bot : Z;
  enable_auth : bool;
  users_file : option string;
  max_render_rows : Z
}.

(** The environment: [os.getenv(name)], [None] when the variable is unset. *)
Definition Environ := string -> option string.

(** [os.getenv(name, default)]. *)
Definition getenv (environ : Environ) (name default : string) : string :=
  match environ name with Some raw => raw | None => default end.

(** Python's [int] on a text; [None] is its ValueError. *)
Class Builtins := {
  int : string -> option Z
}.

Definition truthy_words : list string := ["true"; "1"; "yes"; "y"; "on"].

Section WithBuiltins.

Context {builtins : Builtins}.

Definition _get_int (environ : Environ) (name : string) (default : Z) : Z :=
  match environ name with
  | None => default
  | Some raw =>
      match int raw with
      | Some v => v
      | None => default
      end
  end.

Definition _get_bool (environ : Environ) (name : string) (default : bool) : bool :=
  match environ name with
  | None => default
  | Some raw => mem (lower (strip raw)) truthy_words
  end.

Definition from_env (environ : Environ) : Settings :=
  let provider := lower (strip (getenv environ "LLM_PROVIDER" "bedrock")) in
  {| app_title := getenv environ "APP_TITLE" "Marketing Data Chatbot";
     dataset_path := getenv environ "DATASET_PATH" "marketing_data.csv";
     llm_provider := provider;
     bedrock_model_id :=
       getenv environ "BEDROCK_MODEL_ID" "anthropic.claude-3-5-sonnet-20240620-v1:0";
     aws_region := getenv environ "AWS_REGION" "eu-central-1";
     aws_profile := environ "AWS_PROFILE";
     max_history_user := _get_int environ "MAX_HISTORY_USER" 5;
     max_history_bot := _get_int environ "MAX_HISTORY_BOT" 5;
     enable_auth := _get_bool environ "ENABLE_AUTH" true;
     users_file := Some (getenv environ "USERS_FILE" "users.yaml");
     max_render_rows := _get_int environ "MAX_RENDER_ROWS" 20 |}.

Definition get_settings (environ : Environ) : Settings := from_env environ.

End WithBuiltins.

(** *** Samples *)

(** An environment that sets the listed variables. *)
Fixpoint environ_of (vars : list (string * string)) : Environ :=
  fun name =>
    match vars with
    | [] => None
    | (n, v) :: rest => if String.eqb n name then Some v else environ_of rest name
    end.

(** Decimal integers, as an [int]. *)
Definition sample_builtins : Builtins := {|
  int := fun raw => Loader.decimal_to_numeric (strip raw)
|}.

End Config.

(** ** app/auth.py

    The panels that [login] prints are not part of the model. *)

Module Auth.

Import Text.
Local Open Scope string_scope.
Local Open Scope list_scope.
Local Open Scope Z_scope.

Record AuthConfig := {
  enabled : bool;
  users_file : string;
  max_attempts : Z
}.

(** [AuthConfig(enabled=..., users_file=...)]: three attempts by default. *)
Definition auth_config (enabled : bool) (users_file : string) : AuthConfig :=
  {| enabled := enabled; users_file := users_file; max_attempts := 3 |}.

(** What [yaml.safe_load] yields.  A mapping is held by its entries with a
    text key, each key once (entries under other keys are never read);
    [YOther] is any other scalar, with its truth value and its [str]. *)
#[local] Unset Elimination Schemes.

Inductive Yaml :=
| YNull
| YBool (b : bool)
| YInt (z : Z)
| YStr (s : string)
| YSeq (items : list Yaml)
| YMap (entries : list (string * Yaml))
| YOther (truth : bool) (text : string).

#[local] Set Elimination Schemes.

(** The users file: absent, present but not readable as YAML, or read. *)
Inductive File :=
| Missing
| Unreadable
| Parsed (data : Yaml).

(** What the module takes from Python and bcrypt.
    - [str_of_container]: [str] of a list or of a dict;
    - [checkpw]: [bcrypt.checkpw(password, stored)], [None] when it raises. *)
Class Libraries := {
  str_of_container : Yaml -> string;
  checkpw : string -> string -> option bool
}.

(** The truth value of a Python object. *)
Definition truthy (y : Yaml) : bool :=
  match y with
  | YNull => false
  | YBool b => b
  | YInt z => negb (z =? 0)
  | YStr s => negb (String.eqb s "")
  | YSeq items => match items with [] => false | _ :: _ => true end
  | YMap entries => match entries with [] => false | _ :: _ => true end
  | YOther truth _ => truth
  end.

(** [d.get(key, default)]. *)
Fixpoint get (key : string) (default : Yaml) (entries : list (string * Yaml)) : Yaml :=
  match entries with
  | [] => default
  | (k, v) :: rest => if String.eqb k key then v else get key default rest
  end.

(** A stored user, after [_load_users]. *)
Record User := {
  username : string;
  password_hash : string
}.

(** What a prompt yields: the text typed, or EOFError / KeyboardInterrupt.
    A list of answers that runs out is an input that was closed. *)
Inductive Answer :=
| Typed (text : string)
| Interrupted.

Section WithLibraries.

Context {libraries : Libraries}.

(** [str(x)]. *)
Definition str (y : Yaml) : string :=
  match y with
  | YNull => "None"
  | YBool true => "True"
  | YBool false => "False"
  | YInt z => Loader.str_of_Z z
  | YStr s => s
  | YSeq _ | YMap _ => str_of_container y
  | YOther _ text => text
  end.

(** The loop of [_load_users] over the entries of the list. *)
Fixpoint normalized_users (users : list Yaml) : list User :=
  match users with
  | [] => []
  | u :: rest =>
      match u with
      | YMap entries =>
          let username := strip (str (get "username" (YStr "") entries)) in
          let password_hash := strip (str (get "password_hash" (YStr "") entries)) in
          if negb (String.eqb username "") && negb (String.eqb password_hash "")
          then {| username := username; password_hash := password_hash |}
               :: normalized_users rest
          else normalized_users rest
      | _ => normalized_users rest
      end
  end.

Definition _load_users (file : File) : list User :=
  match file with
  | Missing => []
  | Unreadable => []
  | Parsed loaded =>
      let data := if truthy loaded then loaded else YMap [] in
      match data with
      | YMap entries =>
          match get "users" (YSeq []) entries with
          | YSeq users => normalized_users users
          | _ => []
          end
      | _ => []
      end
  end.

Fixpoint _check_credentials (users : list User) (name password : string) : bool :=
  match users with
  | [] => false
  | u :: rest =>
      if negb (String.eqb (username u) name) then _check_credentials rest name password
      else
        match checkpw password (password_hash u) with
        | Some ok => ok
        | None => false
        end
  end.

(** The loop of [login]: at most [n] attempts on the answers; the result,
    and the answers not read. *)
Fixpoint attempts (n : nat) (users : list User) (answers : list Answer)
  : bool * list Answer :=
  match n with
  | O => (false, answers)
  | S n' =>
      match answers with
      | [] => (false, [])
      | Interrupted :: rest => (false, rest)
      | Typed name :: [] => (false, [])
      | Typed name :: Interrupted :: rest => (false, rest)
      | Typed name :: Typed password :: rest =>
          if _check_credentials users (strip name) password then (true, rest)
          else attempts n' users rest
      end
  end.

(** [LocalAuth(cfg).login()], on the files and the answers at the prompts. *)
Definition login (cfg : AuthConfig) (files : string -> File)
  (answers : list Answer) : bool * list Answer :=
  if negb (enabled cfg) then (true, answers)
  else
    match _load_users (files (users_file cfg)) with
    | [] => (false, answers)
    | (_ :: _) as users => attempts (Z.to_nat (max_attempts cfg)) users answers
    end.

Definition maybe_login (settings : Config.Settings) (files : string -> File)
  (answers : list Answer) : bool * list Answer :=
  let enable_auth := Config.enable_auth settings in
  let users_path :=
    match Config.users_file settings with
    | Some raw => if String.eqb raw "" then "users.yaml" else raw
    | None => "users.yaml"
    end in
  login (auth_config enable_auth users_path) files answers.

(** *** Notions of the statements *)

(** The answers of [pairs] of a name and a password, typed in turn. *)
Definition typed_pairs (pairs : list (string * string)) : list Answer :=
  flat_map (fun p => [Typed (fst p); Typed (snd p)]) pairs.

(** A pair of a name and a password that the stored users accept. *)
Definition accepted (users : list User) (p : string * string) : bool :=
  _check_credentials users (strip (fst p)) (snd p).

(** An entry of the users list that [_load_users] keeps. *)
Definition usable_entry (u : Yaml) : Prop :=
  exists entries,
    u = YMap entries /\
    strip (str (get "username" (YStr "") entries)) <> "" /\
    strip (str (get "password_hash" (YStr "") entries)) <> "".

End WithLibraries.

(** *** Samples *)

(** A stand-in for bcrypt: the stored text is the password. *)
Definition sample_libraries : Libraries := {|
  str_of_container := fun _ => "[...]";
  checkpw := fun password stored => Some (String.eqb password stored)
|}.

Definition sample_users_file : File :=
  Parsed (YMap [("users",
    YSeq [YMap [("username", YStr "demo"); ("password_hash", YStr "open sesame")];
          YMap [("username", YStr "demo"); ("password_hash", YStr "second")];
          YStr "not an entry";
          YMap [("username", YStr "ghost")]])]).

End Auth.

(** ** src/llm/router.py

    The prompts are held by their texts (a prompt that is absent and one
    that is empty are told apart); the model identifier, the region, the
    token limit and the temperature are passed along unchanged and left
    out; [debug_info] is written and never read, and is left out too. *)

Module Router.

Import Text.
Local Open Scope list_scope.
Local Open Scope string_scope.

#[local] Unset Elimination Schemes.

(** What [json.loads] yields; a number is held by its [str], with whether
    it is an int. *)
Inductive Json :=
| JNull
| JBool (b : bool)
| JNumber (integral : bool) (text : string)
| JStr (s : string)
| JList (items : list Json)
| JDict (entries : list (string * Json)).

#[local] Set Elimination Schemes.

(** The exceptions that leave the router: the AttributeError of [.get] on
    a value that is no dict, and whatever else a library raises. *)
Inductive Failure :=
| AttributeError (message : string)
| Raised (message : string).

(** What [client.invoke_model] comes to: no client or no body to read (an
    exception outside the [try]), an exception of the call itself, or the
    body of the response. *)
Inductive Invocation :=
| Unavailable (message : string)
| CallError (message : string)
| Body (body : string).

(** What the router takes from its libraries.
    - [format]: [template.format] with the named fields;
    - [json_loads]: [json.loads], [None] when it raises;
    - [json_dumps]: [json.dumps];
    - [str_of_value]: [str] of a JSON value that is no text;
    - [model_validate]: [QueryPlan.model_validate] on parsed data, [None]
      when it raises;
    - [invoke_model]: the call of the model on a system and a user text. *)
Class Services := {
  format : string -> list (string * string) -> Result Failure string;
  json_loads : string -> option Json;
  json_dumps : Json -> string;
  str_of_value : Json -> string;
  model_validate : Json -> option Plan.QueryPlan;
  invoke_model : string -> string -> Invocation
}.

(** [d.get(key, default)] on the entries of a dict. *)
Fixpoint get (key : string) (default : Json) (entries : list (string * Json)) : Json :=
  match entries with
  | [] => default
  | (k, v) :: rest => if String.eqb k key then v else get key default rest
  end.

(** [type(x).__name__]. *)
Definition type_name (v : Json) : string :=
  match v with
  | JNull => "NoneType"
  | JBool _ => "bool"
  | JNumber true _ => "int"
  | JNumber false _ => "float"
  | JStr _ => "str"
  | JList _ => "list"
  | JDict _ => "dict"
  end.

(** The AttributeError of [x.get] on a value that is no dict. *)
Definition no_get (v : Json) : Failure :=
  AttributeError ("'" ++ type_name v ++ "' object has no attribute 'get'").

(** [str(e)]. *)
Definition message_of (e : Failure) : string :=
  match e with
  | AttributeError message => message
  | Raised message => message
  end.

(** [key in d]. *)
Definition has_key (key : string) (entries : list (string * Json)) : bool :=
  existsb (fun kv => String.eqb (fst kv) key) entries.

(** *** The patterns of [_safe_parse_json] *)

(** [s] after the prefix [p], letters compared without their case. *)
Fixpoint after_prefix (p s : string) : option string :=
  match p with
  | EmptyString => Some s
  | String a p' =>
      match s with
      | EmptyString => None
      | String b s' =>
          if Ascii.eqb (lower_char a) (lower_char b) then after_prefix p' s' else None
      end
  end.

(** [s] before the suffix [p]. *)
Fixpoint before_suffix (p s : string) : option string :=
  if String.eqb s p then Some EmptyString
  else
    match s with
    | EmptyString => None
    | String c rest => option_map (String c) (before_suffix p rest)
    end.

Definition fence : string := "```".

(** [re.sub] of the pattern [^```json\s*], with IGNORECASE, by nothing. *)
Definition without_json_fence (text : string) : string :=
  match after_prefix (fence ++ "json") text with
  | Some rest => lstrip rest
  | None => text
  end.

(** [re.sub] of the pattern [^```\s*] by nothing. *)
Definition without_opening_fence (text : string) : string :=
  match after_prefix fence text with
  | Some rest => lstrip rest
  | None => text
  end.

(** [re.sub] of the pattern [\s*```$] by nothing: [$] is the end of the
    text, or the place before a line feed that ends it. *)
Definition without_closing_fence (text : string) : string :=
  match before_suffix fence text with
  | Some before => rstrip before
  | None =>
      match before_suffix (fence ++ LF) text with
      | Some before => rstrip before ++ LF
      | None => text
      end
  end.

(** The text from its first opening brace on. *)
Fixpoint from_first_brace (s : string) : option string :=
  match s with
  | EmptyString => None
  | String c rest => if Ascii.eqb c "{" then Some s else from_first_brace rest
  end.

(** The text up to its last closing brace. *)
Fixpoint to_last_brace (s : string) : option string :=
  match s with
  | EmptyString => None
  | String c rest =>
      match to_last_brace rest with
      | Some kept => Some (String c kept)
      | None => if Ascii.eqb c "}" then Some (String c EmptyString) else None
      end
  end.

(** [re.search] of the pattern [\{.*\}], with DOTALL: the match, if any. *)
Definition search_block (text : string) : option string :=
  match from_first_brace text with
  | Some (String brace rest) => option_map (String brace) (to_last_brace rest)
  | _ => None
  end.

(** The text that [_safe_parse_json] hands to [json.loads]. *)
Definition cleaned (text : string) : string :=
  without_closing_fence (without_opening_fence (without_json_fence (strip text))).

Section WithServices.

Context {services : Services}.

(** [str(x)]. *)
Definition str (v : Json) : string :=
  match v with
  | JStr s => s
  | _ => str_of_value v
  end.

Definition _safe_parse_json (text : string) : Json :=
  if String.eqb text "" then JDict []
  else
    let text := cleaned text in
    match json_loads text with
    | Some data => data
    | None =>
        match search_block text with
        | None => JDict []
        | Some candidate =>
            match json_loads candidate with
            | Some data => data
            | None => JDict []
            end
        end
    end.

Definition _bedrock_claude_messages (system user : string) : Result Failure string :=
  match invoke_model system user with
  | Unavailable message => Raise (Raised message)
  | CallError message => OK ("LLM call error: " ++ message)
  | Body body =>
      match json_loads body with
      | None => Raise (Raised "json.loads")
      | Some data =>
          match data with
          | JDict entries =>
              match get "content" (JList []) entries with
              | JList (JDict first :: _) =>
                  if has_key "text" first then OK (str (get "text" JNull first))
                  else OK (json_dumps data)
              | _ => OK (json_dumps data)
              end
          | _ => Raise (no_get data)
          end
      end
  end.

Definition _generate_text (system user : string) : Result Failure string :=
  _bedrock_claude_messages system user.

(** A prompt that is there to be used: present and not empty. *)
Definition usable (prompt : option string) : option string :=
  match prompt with
  | Some text => if String.eqb text "" then None else Some text
  | None => None
  end.

Definition routes : list string := ["dataset"; "meta"; "out_of_scope"; "terminate"].

Definition route_question (prompts : string -> option string) (question : string)
  : Result Failure string :=
  match usable (prompts "classifier_system"),
        usable (prompts "classifier_user_template") with
  | Some system, Some user_tmpl =>
      user <- format user_tmpl [("question", question)] ;;
      txt <- _generate_text system user ;;
      match _safe_parse_json txt with
      | JDict entries =>
          let route := lower (strip (str (get "route" (JStr "out_of_scope") entries))) in
          OK (if mem route routes then route else "out_of_scope")
      | data => Raise (no_get data)
      end
  | _, _ => OK "out_of_scope"
  end.

Definition meta_fallback : string :=
  "I can help you explore the marketing dataset. Ask something like: 'Total revenue in 2023?'".

Definition answer_meta (prompts : string -> option string) (question history : string)
  : Result Failure string :=
  match usable (prompts "meta_system"), usable (prompts "meta_user_template") with
  | Some system, Some user_tmpl =>
      user <- format user_tmpl [("history", history); ("question", question)] ;;
      txt <- _generate_text system user ;;
      OK (strip txt)
  | _, _ => OK meta_fallback
  end.

(** [QueryPlan(intent="unknown", ...)], the plan of every fallback. *)
Definition unknown_plan : Plan.QueryPlan :=
  {| Plan.intent := Plan.I_unknown; Plan.metrics := []; Plan.groupby := [];
     Plan.time_range := {| Plan.tr_type := Plan.T_all; Plan.tr_year := None;
                           Plan.tr_quarter := None; Plan.tr_n_years := None |};
     Plan.filters := []; Plan.top_n := None; Plan.sort_by := None |}.

Definition build_plan (prompts : string -> option string)
  (question history last_plan_json : string) : Result Failure Plan.QueryPlan :=
  match usable (prompts "planner_system"), usable (prompts "planner_user_template") with
  | Some system, Some user_tmpl =>
      user <- format user_tmpl [("question", question); ("history", history);
                                ("last_plan_json", last_plan_json)] ;;
      txt <- _generate_text system user ;;
      match model_validate (_safe_parse_json txt) with
      | Some plan => OK plan
      | None => OK unknown_plan
      end
  | _, _ => OK unknown_plan
  end.

End WithServices.

(** *** Notions of the statements *)

(** A text in which the character [c] does not occur. *)
Fixpoint lacks (c : ascii) (s : string) : bool :=
  match s with
  | EmptyString => true
  | String d rest => negb (Ascii.eqb d c) && lacks c rest
  end.

(** *** Samples *)

Definition quoted (s : string) : string :=
  String (ascii_of_nat 34) s ++ String (ascii_of_nat 34) EmptyString.

(** The text of the object with the one key "route". *)
Definition route_object (route : string) : string :=
  "{" ++ quoted "route" ++ ": " ++ quoted route ++ "}".

(** A [json.loads] that reads the objects with the one key "route", for
    the four routes, and the number 42; and a model that answers the
    question itself. *)
Definition sample_services : Services := {|
  format := fun template fields =>
    OK (template ++ String.concat "" (map snd fields));
  json_loads := fun text =>
    if String.eqb text "42" then Some (JNumber true "42")
    else
      match filter (fun r => String.eqb text (route_object r)) routes with
      | r :: _ => Some (JDict [("route", JStr r)])
      | [] => None
      end;
  json_dumps := fun _ => "{}";
  str_of_value := fun _ => "None";
  model_validate := fun _ => None;
  invoke_model := fun system user => CallError user
|}.

End Router.

(** ** app/render.py

    What the functions print on the console is their result here. *)

Module Render.

Import Text.
Local Open Scope list_scope.
Local Open Scope string_scope.
Local Open Scope Z_scope.

(** A table of rich: its title, its columns, its rows and its caption. *)
Record RichTable := {
  title : string;
  header : list string;
  lines : list (list string);
  caption : option string
}.

Inductive Printed :=
| Panel (text title border_style : string)
| Table (table : RichTable).

Definition render_assistant_message (text : string) : list Printed :=
  [Panel text "Assistant" "magenta"].

Definition preferred_cols : list string :=
  ["row_id"; "date"; "year"; "quarter"; "month";
   "country"; "product"; "media_category"; "campaign_name";
   "revenue"; "cost"; "profit"].

Section Frames.

(** The values of the cells, and their [str]. *)
Context {Value : Type} (str : Value -> string).

(** A frame to display: its column labels, each once, and its rows. *)
Record Frame := {
  labels : list string;
  body : list (list Value)
}.

(** [df.head(n)]. *)
Definition head (n : Z) (df : Frame) : Frame :=
  {| labels := labels df;
     body := if 0 <=? n then firstn (Z.to_nat n) (body df)
             else firstn (List.length (body df) - Z.to_nat (- n))%nat (body df) |}.

(** [len(df)]. *)
Definition len (df : Frame) : Z := Z.of_nat (List.length (body df)).

(** The cell of a row under a label. *)
Fixpoint cell_of (label : string) (labels : list string) (row : list Value)
  : option Value :=
  match labels, row with
  | l :: labels', v :: row' =>
      if String.eqb l label then Some v else cell_of label labels' row'
  | _, _ => None
  end.

(** [df[cols]], for labels of the frame. *)
Definition select (cols : list string) (df : Frame) : Frame :=
  {| labels := cols;
     body := map (fun row =>
                    flat_map (fun c => match cell_of c (labels df) row with
                                       | Some v => [v]
                                       | None => []
                                       end) cols)
                 (body df) |}.

Definition _df_to_rich_table (df : Frame) (title : string) (max_rows : Z)
  : RichTable :=
  let safe_df := head max_rows df in
  {| title := title;
     header := labels df;
     lines := map (map str) (body safe_df);
     caption :=
       if len df >? max_rows
       then Some ("Showing first " ++ Loader.str_of_Z max_rows ++ " of " ++
                  Loader.str_of_Z (len df) ++ " rows")
       else None |}.

(** [render_dataframe_table(df, title=..., max_rows=...)]; the title is
    "Result table" and [max_rows] 20 by default. *)
Definition render_dataframe_table (df : option Frame) (title : string)
  (max_rows : Z) : list Printed :=
  match df with
  | None => [Panel "No rows to display." title "yellow"]
  | Some df =>
      if len df =? 0 then [Panel "No rows to display." title "yellow"]
      else [Table (_df_to_rich_table df title max_rows)]
  end.

(** [render_sample_rows_table(df, title=..., max_rows=...)]; the title is
    "Sample rows used (subset)" and [max_rows] 5 by default. *)
Definition render_sample_rows_table (df : option Frame) (title : string)
  (max_rows : Z) : list Printed :=
  match df with
  | None => [Panel "No subset rows to display." title "yellow"]
  | Some df =>
      if len df =? 0 then [Panel "No subset rows to display." title "yellow"]
      else
        let cols := filter (fun c => mem c (labels df)) preferred_cols in
        let view :=
          match cols with
          | [] => head max_rows df
          | _ :: _ => head max_rows (select cols df)
          end in
        [Table (_df_to_rich_table view title max_rows)]
  end.

End Frames.

(** *** A sample *)

Definition sample_frame : Frame (Value := Z) :=
  {| labels := ["year"; "clicks"; "revenue"];
     body := [[2022; 10; 50]; [2023; 20; 30]; [2023; 30; 5]]%Z |}.

End Render.

(** ** app/chat_loop.py

    A session is the list of what is typed at the prompts until the input
    is closed, each with how the libraries and the model behave while it is
    handled.  The console is the list of the calls to the render functions.
    The waving hand that ends the two farewells is held by the bytes of its
    UTF-8 form. *)

Module ChatLoop.

Import Text Memory.
Local Open Scope list_scope.
Local Open Scope string_scope.
Local Open Scope Z_scope.

Inductive Rendered :=
| Assistant_message (text : string)
| Dataframe_table (result_df : Frame) (max_rows : Z)
| Sample_rows_table (subset_df : DataFrame).

Record Turn := {
  typed : string;
  services : Router.Services
}.

(** What the loop takes from elsewhere: pandas, the response builder of
    [src/engine/response.py] ([compute_provenance] and [build_message]
    together; [Raise] carries the text of an exception; the provenance is
    taken to have the field that the log line reads), and pydantic's
    [model_dump_json].  The render functions do not raise. *)
Class Runtime := {
  pandas : Pandas;
  build_message : Plan.QueryPlan -> DataFrame -> Frame -> Result string string;
  model_dump_json : Plan.QueryPlan -> string
}.

(** The parts of [ChatLoopDeps] that do not change: the settings, the
    prompts of the router and the table of the engine. *)
Record ChatLoopDeps := {
  settings : Config.Settings;
  router : string -> option string;
  engine : DataFrame
}.

(** ... and the parts that do: the memory, and the console. *)
Record State := {
  memory : ChatMemory;
  console : list Rendered
}.

(** How the handling of one input ends: the loop goes on, [run] returns,
    or an exception leaves [run]. *)
Inductive Step :=
| Continue (s : State)
| Return (s : State)
| Raises (e : Router.Failure) (s : State).

(** [str(e)] of an exception of the engine. *)
Definition str_of_exception (e : Exception) : string :=
  match e with
  | ValueError msg => msg
  | KeyError label => "'" ++ label ++ "'"
  | TypeError msg => msg
  end.

Definition on_memory (f : ChatMemory -> ChatMemory) (s : State) : State :=
  {| memory := f (memory s); console := console s |}.

Definition render (r : Rendered) (s : State) : State :=
  {| memory := memory s; console := (console s ++ [r])%list |}.

Section WithRuntime.

Context {runtime : Runtime} (deps : ChatLoopDeps).

Definition _safe_route (t : Turn) (user_text : string) : string :=
  match Router.route_question (services := services t) (router deps) user_text with
  | OK route => route
  | Raise _ => "meta"
  end.

Definition _handle_terminate (t : Turn) (user_text history_str : string) (s : State)
  : State :=
  let goodbye :=
    match Router.answer_meta (services := services t) (router deps)
            user_text history_str with
    | OK answer => strip answer
    | Raise _ => "Goodbye 👋"
    end in
  render (Assistant_message goodbye) (on_memory (push_bot goodbye) s).

Definition _handle_meta (t : Turn) (user_text history_str : string) (s : State)
  : State :=
  let answer :=
    match Router.answer_meta (services := services t) (router deps)
            user_text history_str with
    | OK answer => strip answer
    | Raise e => "I couldn't answer that right now: " ++ Router.message_of e
    end in
  render (Assistant_message answer) (on_memory (push_bot answer) s).

(** The [except] branch of [_handle_dataset]. *)
Definition could_not_compute (message : string) (s : State) : State :=
  let bot_text := "I couldn't compute that: " ++ message in
  render (Assistant_message bot_text) (on_memory (push_bot bot_text) s).

Definition _handle_dataset (plan : Plan.QueryPlan) (s : State) : State :=
  match Engine.execute_with_subset (pandas := pandas) (engine deps) plan with
  | Raise e => could_not_compute (str_of_exception e) s
  | OK exec_res =>
      let result_df := Engine.result_df exec_res in
      let subset_df := Engine.subset_df exec_res in
      match build_message plan subset_df result_df with
      | Raise message => could_not_compute message s
      | OK bot_text =>
          let s := on_memory (push_bot bot_text) s in
          let s := render (Assistant_message bot_text) s in
          let s := render (Dataframe_table result_df
                             (Config.max_render_rows (settings deps))) s in
          match subset_df with
          | [] => s
          | _ :: _ => render (Sample_rows_table subset_df) s
          end
      end
  end.

(** One pass of the loop, on what was typed at the prompt. *)
Definition turn (t : Turn) (s : State) : Step :=
  let user_text := strip (typed t) in
  if String.eqb user_text "" then Continue s
  else if Commands.is_exit_command user_text then
    Return (render (Assistant_message "Ok! Session closed. Come back anytime. 👋")
              (on_memory (push_user user_text) s))
  else
    let s := on_memory (push_user user_text) s in
    let history_str := history_string 5 (memory s) in
    let last_plan_json := last_plan_json model_dump_json (memory s) in
    let route := _safe_route t user_text in
    if String.eqb route "terminate" then
      Return (_handle_terminate t user_text history_str s)
    else if mem route ["meta"; "out_of_scope"] then
      Continue (_handle_meta t user_text history_str s)
    else
      match Router.build_plan (services := services t) (router deps)
              user_text history_str last_plan_json with
      | Raise e => Raises e s
      | OK plan =>
          match Plan.intent plan with
          | Plan.I_unknown => Continue (_handle_meta t user_text history_str s)
          | _ => Continue (_handle_dataset plan (on_memory (set_last_plan plan) s))
          end
      end.

(** [run()], on the inputs typed until the input is closed. *)
Fixpoint run (turns : list Turn) (s : State) : Step :=
  match turns with
  | [] => Return (render (Assistant_message "Goodbye 👋") s)
  | t :: rest =>
      match turn t s with
      | Continue s' => run rest s'
      | Return s' => Return s'
      | Raises e s' => Raises e s'
      end
  end.

(** The state in which the router is asked about an input that is neither
    blank nor a local command, and the plan that the planner then gives. *)
Definition asked (t : Turn) (s : State) : State :=
  on_memory (push_user (strip (typed t))) s.

Definition planned (t : Turn) (s : State) : Result Router.Failure Plan.QueryPlan :=
  Router.build_plan (services := services t) (router deps)
    (strip (typed t))
    (history_string 5 (memory (asked t s)))
    (last_plan_json model_dump_json (memory (asked t s))).

End WithRuntime.

(** *** Notions of the statements *)


(** No plan, or a plan with a known intent. *)
Definition known_plan (plan : option Plan.QueryPlan) : Prop :=
  match plan with
  | None => True
  | Some p => Plan.intent p <> Plan.I_unknown
  end.

(** *** A sample *)

(** A model that classifies every question as a dataset question, and a
    planner whose plan is the last two years. *)
Definition dataset_services : Router.Services := {|
  Router.format := fun template fields => OK template;
  Router.json_loads := fun text =>
    if String.eqb text "response" then
      Some (Router.JDict
              [("content",
                Router.JList
                  [Router.JDict
                     [("text", Router.JStr (Router.route_object "dataset"))]])])
    else if String.eqb text (Router.route_object "dataset") then
      Some (Router.JDict [("route", Router.JStr "dataset")])
    else None;
  Router.json_dumps := fun _ => "{}";
  Router.str_of_value := fun _ => "None";
  Router.model_validate := fun _ => Some (Engine.last_years_plan None (Some 2));
  Router.invoke_model := fun system user => Router.Body "response"
|}.

Definition sample_deps : ChatLoopDeps := {|
  settings := Config.from_env (builtins := Config.sample_builtins) (fun _ => None);
  router := fun _ => Some "prompt";
  engine := Engine.sample_df
|}.

End ChatLoop.

(** * Part II: the proofs *)

(** ** Insertion sort: a sorted permutation *)

Section InsertionSort.

Context {A : Type} (R : A -> A -> Prop) (c : A -> A -> bool).
Hypothesis c_true : forall x y, c x y = true -> R x y.
Hypothesis c_false : forall x y, c x y = false -> R y x.

Lemma insert_by_Permutation (x : A) (l : list A) :
  Permutation (insert_by c x l) (x :: l).
Proof.
  induction l as [|y l IH]; simpl.
  - apply Permutation_refl.
  - destruct (c x y).
    + apply Permutation_refl.
    + eapply perm_trans; [apply perm_skip, IH | apply perm_swap].
Qed.

Lemma insertion_sort_Permutation (l : list A) :
  Permutation (insertion_sort c l) l.
Proof.
  induction l as [|x l IH]; simpl.
  - constructor.
  - eapply perm_trans; [apply insert_by_Permutation | now apply perm_skip].
Qed.

Lemma insert_by_HdRel (a x : A) (l : list A) :
  R a x -> HdRel R a l -> HdRel R a (insert_by c x l).
Proof.
  intros Hax Hal.
  destruct l as [|y l]; simpl.
  - now constructor.
  - destruct (c x y); constructor; auto.
    now inversion Hal.
Qed.

Lemma insert_by_Sorted (x : A) (l : list A) :
  Sorted R l -> Sorted R (insert_by c x l).
Proof.
  induction 1 as [|y l Hs IH Hd]; simpl.
  - repeat constructor.
  - destruct (c x y) eqn:E.
    + constructor; [now constructor | constructor; auto].
    + constructor; [exact IH | apply insert_by_HdRel; auto].
Qed.

Lemma insertion_sort_Sorted (l : list A) : Sorted R (insertion_sort c l).
Proof.
  induction l as [|x l IH]; simpl.
  - constructor.
  - now apply insert_by_Sorted.
Qed.

End InsertionSort.

Lemma cell_leb_total (a b : Cell) : cell_leb a b = false -> cell_leb b a = true.
Proof.
  destruct a as [x|x|], b as [y|y|]; simpl; try congruence.
  - intros H. apply Z.leb_gt in H. apply Z.leb_le. lia.
  - intros H. destruct (String.leb_total x y) as [E|E]; congruence.
Qed.

Lemma cell_order_total (ascending : bool) (a b : Cell) :
  cell_order ascending a b = false -> cell_order ascending b a = true.
Proof.
  destruct ascending; simpl.
  - apply cell_leb_total.
  - destruct a as [x|x|], b as [y|y|]; unfold cell_geb_na_last;
      try congruence; apply cell_leb_total.
Qed.

Lemma key_leb_total (a b : list Cell) : key_leb a b = false -> key_leb b a = true.
Proof.
  revert b; induction a as [|x a IH]; intros [|y b]; simpl; try congruence.
  destruct (Cell_eq_dec x y) as [->|Hxy].
  - destruct (Cell_eq_dec y y); [apply IH | congruence].
  - destruct (Cell_eq_dec y x); [congruence | apply cell_leb_total].
Qed.

Lemma stable_sort_Sorted key ascending l :
  Sorted (rows_ordered key ascending) (stable_sort key ascending l).
Proof.
  apply insertion_sort_Sorted; unfold rows_ordered; intros x y H.
  - exact H.
  - now apply cell_order_total.
Qed.


Local Open Scope string_scope.

(** Two instances of [Pandas] to run the engine on samples.  Both refuse
    the frame-level [&] with a TypeError; the first sorts stably, the second
    leaves rows with equal keys in reverse order. *)
Definition pandas_stable : Pandas := {|
  frame_and_series := fun _ _ => Raise (TypeError "unsupported operand type(s) for &");
  quicksort := stable_sort;
  quicksort_Permutation := fun key ascending l => insertion_sort_Permutation _ l;
  quicksort_Sorted := stable_sort_Sorted
|}.


Local Close Scope string_scope.

(** ** The construction boundary of a plan *)

Module PlanTheory.

Import Plan.
Local Open Scope string_scope.

Lemma lookup_literal_names {A} (lits : list (string * A)) (s : string) :
  (exists a, lookup_literal lits s = Some a) <-> In s (literal_names lits).
Proof.
  induction lits as [|[name a] lits IH]; simpl.
  - split; [intros [a H]; discriminate | tauto].
  - destruct (String.eqb name s) eqn:E.
    + apply String.eqb_eq in E. split; [now left | intros _; now exists a].
    + apply String.eqb_neq in E. rewrite IH. tauto.
Qed.

Lemma validate_literal_names {A} (loc : string) (lits : list (string * A))
  (s : string) :
  (exists a, validate_literal loc lits s = OK a) <-> In s (literal_names lits).
Proof.
  rewrite <- lookup_literal_names. unfold validate_literal.
  destruct (lookup_literal lits s) as [a|].
  - split; intros _; now exists a.
  - split; intros [a H]; discriminate.
Qed.

Lemma validate_list_Forall {A B} (f : A -> Result ValidationError B) (l : list A) :
  (exists ys, validate_list f l = OK ys) <->
  Forall (fun x => exists y, f x = OK y) l.
Proof.
  induction l as [|x l IH]; simpl.
  - split; [constructor | intros _; now exists []].
  - split.
    + intros [ys H]. destruct (f x) as [y|e] eqn:Ex; [|discriminate].
      simpl in H. destruct (validate_list f l) as [ys'|e]; [|discriminate].
      constructor; [now exists y | apply IH; now exists ys'].
    + intros H. inversion H as [|? ? [y Hy] Hl]; subst.
      apply IH in Hl. destruct Hl as [ys Hys].
      rewrite Hy. simpl. rewrite Hys. simpl. now eexists.
Qed.

Lemma Forall_iff {A} (P Q : A -> Prop) (l : list A) :
  (forall x, P x <-> Q x) -> Forall P l <-> Forall Q l.
Proof.
  intros H. split; intros HF; eapply Forall_impl; try exact HF; intros x; apply H.
Qed.

Lemma groupable_names (s : string) :
  groupable s <-> In s (literal_names GroupByField_literals).
Proof.
  unfold groupable. simpl. intuition congruence.
Qed.

Lemma filterable_names (s : string) :
  In s Schema.DIMENSIONS <-> In s (literal_names FilterField_literals).
Proof. simpl. tauto. Qed.

Lemma validate_Filter_OK (raw : RawFilter) :
  (exists f, validate_Filter raw = OK f) <->
  In (raw_field raw) Schema.DIMENSIONS /\ raw_op raw = "=".
Proof.
  rewrite filterable_names.
  rewrite <- (validate_literal_names "filters.field").
  unfold validate_Filter. split.
  - intros [f H].
    destruct (validate_literal "filters.field" FilterField_literals (raw_field raw))
      as [x|e]; [|discriminate].
    split; [now exists x|]. simpl in H.
    destruct (validate_literal "filters.op" Op_literals (raw_op raw)) as [o|e] eqn:Eo;
      [|discriminate].
    assert (Hin : In (raw_op raw) (literal_names Op_literals))
      by (apply (validate_literal_names "filters.op"); now exists o).
    simpl in Hin. destruct Hin as [Hin|[]]. now symmetry.
  - intros [[x Hx] Hop]. rewrite Hx, Hop. simpl. now eexists.
Qed.

Lemma validate_SortBy_OK (raw : RawSortBy) :
  (exists sb, validate_SortBy raw = OK sb) <->
  In (raw_sb_field raw) (literal_names Metric_literals) /\
  In (raw_direction raw) (literal_names Direction_literals).
Proof.
  rewrite <- (validate_literal_names "sort_by.field").
  rewrite <- (validate_literal_names "sort_by.direction").
  unfold validate_SortBy. split.
  - intros [sb H].
    destruct (validate_literal "sort_by.field" Metric_literals (raw_sb_field raw))
      as [x|e]; [|discriminate].
    simpl in H.
    destruct (validate_literal "sort_by.direction" Direction_literals
                (raw_direction raw)) as [d|e]; [|discriminate].
    split; eexists; reflexivity.
  - intros [[x Hx] [d Hd]]. rewrite Hx, Hd. simpl. now eexists.
Qed.

(** C3 (amended). A plan is accepted at construction exactly when every
    literal field is legal; in particular every name of [filters[*].field]
    must be one of the registry's dimensions and every such name is
    accepted there, while [groupby] accepts the registry's dimensions other
    than communication and campaign_category and rejects every other
    name. *)
Theorem plan_construction_boundary (raw : RawPlan) :
  (exists plan, model_validate raw = OK plan) <->
  In (raw_intent raw) (literal_names Intent_literals) /\
  Forall (fun s => In s (literal_names Metric_literals)) (raw_metrics raw) /\
  Forall groupable (raw_groupby raw) /\
  In (raw_type (raw_time_range raw)) (literal_names TimeRangeType_literals) /\
  Forall (fun f => In (raw_field f) Schema.DIMENSIONS /\ raw_op f = "=")
         (raw_filters raw) /\
  match raw_sort_by raw with
  | None => True
  | Some s => In (raw_sb_field s) (literal_names Metric_literals) /\
              In (raw_direction s) (literal_names Direction_literals)
  end.
Proof.
  rewrite <- (validate_literal_names "intent").
  rewrite (Forall_iff _ _ _ (fun s =>
             iff_sym (validate_literal_names "metrics" Metric_literals s))).
  rewrite (Forall_iff _ _ _ (fun s => iff_trans (groupable_names s)
             (iff_sym (validate_literal_names "groupby" GroupByField_literals s)))).
  rewrite <- (validate_literal_names "time_range.type").
  rewrite (Forall_iff _ _ _ (fun f => iff_sym (validate_Filter_OK f))).
  rewrite <- !validate_list_Forall.
  unfold model_validate, validate_TimeRange. split.
  - intros [plan H].
    destruct (validate_literal "intent" Intent_literals (raw_intent raw)) as [i|e];
      [|discriminate].
    split; [now exists i|]. simpl in H.
    destruct (validate_list (validate_literal "metrics" Metric_literals)
                (raw_metrics raw)) as [ms|e]; [|discriminate].
    split; [now exists ms|]. simpl in H.
    destruct (validate_list (validate_literal "groupby" GroupByField_literals)
                (raw_groupby raw)) as [gs|e]; [|discriminate].
    split; [now exists gs|]. simpl in H.
    destruct (validate_literal "time_range.type" TimeRangeType_literals
                (raw_type (raw_time_range raw))) as [t|e]; [|discriminate].
    split; [now exists t|]. simpl in H.
    destruct (validate_list validate_Filter (raw_filters raw)) as [fs|e];
      [|discriminate].
    split; [now exists fs|]. simpl in H.
    destruct (raw_sort_by raw) as [s|]; [|exact I].
    apply validate_SortBy_OK.
    destruct (validate_SortBy s) as [sb|e]; [now exists sb | discriminate].
  - intros [[i Hi] [[ms Hms] [[gs Hgs] [[t Ht] [[fs Hfs] Hsb]]]]].
    rewrite Hi, Hms, Hgs, Ht, Hfs. simpl.
    destruct (raw_sort_by raw) as [s|].
    + apply validate_SortBy_OK in Hsb. destruct Hsb as [sb Hsb].
      rewrite Hsb. simpl. now eexists.
    + simpl. now eexists.
Qed.

(** C3 as stated fails: communication is a dimension of the registry, a
    filter on it is accepted, and a plan that groups by it is refused. *)
Lemma groupby_communication_refused :
  In "communication" Schema.DIMENSIONS /\
  is_ok (model_validate (raw_plan_of [] ["communication"])) = true /\
  model_validate (raw_plan_of ["communication"] []) =
    Raise (literal_error "groupby" "communication") /\
  model_validate (raw_plan_of ["campaign_category"] []) =
    Raise (literal_error "groupby" "campaign_category").
Proof.
  split; [simpl; tauto|]. repeat split.
Qed.

Lemma plan_construction_boundary_witness :
  exists plan, model_validate (raw_plan_of ["week"; "product"] ["communication"]) = OK plan.
Proof.
  apply (proj2 (plan_construction_boundary
                  (raw_plan_of ["week"; "product"] ["communication"]))).
  unfold groupable. simpl.
  repeat split; try tauto; repeat constructor; simpl; try tauto; discriminate.
Defined.

End PlanTheory.

(** ** The query engine *)

Module EngineTheory.

Import Plan Engine.
Local Open Scope string_scope.
Local Open Scope list_scope.
Local Open Scope Z_scope.

(** *** The time-range slice *)

Lemma series_max_None (s : list (option Z)) :
  series_max s = None <-> (forall x, In x s -> x = None).
Proof.
  induction s as [|x s IH]; simpl.
  - split; [intros _ x [] | reflexivity].
  - destruct x as [v|].
    + split.
      * destruct (series_max s); discriminate.
      * intros H. specialize (H (Some v) (or_introl eq_refl)). discriminate.
    + rewrite IH. split.
      * intros H x [<-|Hx]; auto.
      * intros H x Hx. apply H. now right.
Qed.

Lemma series_max_Some (s : list (option Z)) (m : Z) :
  series_max s = Some m -> is_maximum s m.
Proof.
  revert m; induction s as [|x s IH]; simpl; intros m; [discriminate|].
  destruct x as [v|].
  - destruct (series_max s) as [m'|] eqn:E.
    + intros [= <-]. destruct (IH m' eq_refl) as [Hin Hle]. split.
      * destruct (Z.max_spec v m') as [[_ ->]|[_ ->]]; [now right | now left].
      * intros w [[= <-]|Hw]; [lia | specialize (Hle w Hw); lia].
    + intros [= <-]. split; [now left|].
      intros w [[= <-]|Hw]; [lia|].
      apply series_max_None with (x := Some w) in E; [discriminate | exact Hw].
  - intros H. destruct (IH m H) as [Hin Hle]. split; [now right|].
    intros w [Hw|Hw]; [discriminate | auto].
Qed.

Lemma is_maximum_unique (s : list (option Z)) (m m' : Z) :
  is_maximum s m -> is_maximum s m' -> m = m'.
Proof.
  intros [H1 H2] [H3 H4]. specialize (H2 _ H3). specialize (H4 _ H1). lia.
Qed.

Lemma num_eq_true (x : option Z) (v : Z) : num_eq x v = true <-> x = Some v.
Proof.
  destruct x as [a|]; simpl; [|split; discriminate].
  rewrite Z.eqb_eq. split; [now intros -> | now intros [= ->]].
Qed.

(** On a normalized table with a row, both lookups of [last_quarter] are
    defined. *)
Lemma last_quarter_lookups (df : DataFrame) :
  df <> [] -> normalized df ->
  exists maxYear maxQ,
    series_max (map (fun r : Row => year r) df) = Some maxYear /\
    series_max (map (fun r : Row => quarter r)
                  (filter (fun r : Row => num_eq (year r) maxYear) df)) = Some maxQ.
Proof.
  intros Hne Hnorm.
  destruct (series_max (map (fun r : Row => year r) df)) as [maxYear|] eqn:Ey.
  - exists maxYear.
    destruct (series_max_Some _ _ Ey) as [Hin _].
    apply in_map_iff in Hin. destruct Hin as [r [Hr Hrin]].
    destruct (series_max (map (fun r : Row => quarter r)
                (filter (fun r : Row => num_eq (year r) maxYear) df))) as [q|] eqn:Eq.
    + now exists q.
    + exfalso. rewrite series_max_None in Eq.
      unfold normalized in Hnorm. rewrite Forall_forall in Hnorm.
      destruct (Hnorm r Hrin) as [_ Hq]. apply Hq.
      apply Eq. apply in_map_iff. exists r. split; [reflexivity|].
      apply filter_In. split; [exact Hrin | now apply num_eq_true].
  - exfalso. rewrite series_max_None in Ey.
    destruct df as [|r df]; [congruence|].
    inversion Hnorm as [|? ? [Hy _] _]; subst.
    apply Hy. apply Ey. now left.
Qed.


Lemma sample_df_normalized : normalized sample_df.
Proof. repeat (constructor; [split; discriminate|]). constructor. Qed.


(** The sample table's last quarter is Q1 2023, so the slice is Q4 2022. *)
Example last_quarter_sample :
  _apply_time_range (pandas := pandas_stable) sample_df
      (plan_of I_aggregate [M_revenue] [] (time_range_of T_last_quarter)) =
    OK [sample_row 2022 4 11 "alpha" 50 20].
Proof. reflexivity. Qed.

(** *** Relative time ranges *)

(** C10. A relative time range ([last_quarter], [last_n_years]) on the
    empty table raises an error instead of returning an empty subset; the
    lookups of the largest year and of the largest quarter within it are
    defined as soon as the normalized table has a row, and then
    [last_quarter] returns a subset and [last_n_years] gets past its
    lookup. *)
Theorem relative_range_needs_rows {pandas : Pandas} (plan : QueryPlan) :
  tr_type (time_range plan) = T_last_quarter \/
  tr_type (time_range plan) = T_last_n_years ->
  (exists e, _apply_time_range [] plan = Raise e /\
             (tr_type (time_range plan) = T_last_quarter \/
              tr_year (time_range plan) <> None -> e = nan_to_int)) /\
  (forall df, df <> [] -> normalized df ->
     exists maxYear maxQ,
       python_int (series_max (map (fun r : Row => year r) df)) = OK maxYear /\
       python_int (series_max (map (fun r : Row => quarter r)
           (filter (fun r : Row => num_eq (year r) maxYear) df))) = OK maxQ /\
       (tr_type (time_range plan) = T_last_quarter ->
          exists subset, _apply_time_range df plan = OK subset) /\
       (tr_type (time_range plan) = T_last_n_years ->
          tr_year (time_range plan) <> None ->
          _apply_time_range df plan =
            frame_and_series
              (filter (fun r : Row =>
                 num_ge (year r) (maxYear - n_years_or_3 (time_range plan) + 1)) df)
              (map (fun r : Row => num_le (year r) maxYear) df))).
Proof.
  intros Ht. split.
  - unfold _apply_time_range.
    destruct Ht as [Ht|Ht]; rewrite Ht.
    + exists nan_to_int. split; [reflexivity | reflexivity].
    + destruct (tr_year (time_range plan)) as [y|].
      * exists nan_to_int. split; reflexivity.
      * exists year_required. split; [reflexivity|].
        intros [H|H]; [congruence | now elim H].
  - intros df Hne Hnorm.
    destruct (last_quarter_lookups df Hne Hnorm) as [maxYear [maxQ [Ey Eq]]].
    exists maxYear, maxQ.
    split; [now rewrite Ey|]. split; [now rewrite Eq|]. split.
    + intros Hq. unfold _apply_time_range, _slice_last_quarter.
      rewrite Hq, Ey. simpl. rewrite Eq. simpl.
      destruct (maxQ =? 1); eexists; reflexivity.
    + intros Hn Hy. unfold _apply_time_range. rewrite Hn.
      destruct (tr_year (time_range plan)); [|congruence].
      rewrite Ey. reflexivity.
Qed.

Lemma relative_range_needs_rows_witness :
  (tr_type (time_range (plan_of I_aggregate [M_revenue] []
                          (time_range_of T_last_quarter))) = T_last_quarter \/
   tr_type (time_range (plan_of I_aggregate [M_revenue] []
                          (time_range_of T_last_quarter))) = T_last_n_years) /\
  _apply_time_range (pandas := pandas_stable) []
    (plan_of I_aggregate [M_revenue] [] (time_range_of T_last_quarter)) =
    Raise nan_to_int /\
  (sample_df <> [] /\ normalized sample_df) /\
  exists subset,
    _apply_time_range (pandas := pandas_stable) sample_df
      (plan_of I_aggregate [M_revenue] [] (time_range_of T_last_quarter)) =
    OK subset.
Proof.
  destruct (relative_range_needs_rows (pandas := pandas_stable)
              (plan_of I_aggregate [M_revenue] [] (time_range_of T_last_quarter))
              (or_introl eq_refl)) as [[e [He Hnan]] Hrows].
  split; [now left|].
  split; [rewrite He; f_equal; apply Hnan; now left|].
  split; [split; [discriminate | exact sample_df_normalized]|].
  destruct (Hrows sample_df ltac:(discriminate) sample_df_normalized)
    as [maxYear [maxQ [_ [_ [Hq _]]]]].
  exact (Hq eq_refl).
Defined.

(** The [last_n_years] branch as written: it raises when
    [time_range.year] is unset.  When it is set, n is [n_years], 3 when that
    is unset or 0; the branch raises on a table without a year; otherwise,
    with maxYear the largest year present, the rows with
    year >= maxYear-n+1 are selected and the comparison year <= maxYear is
    combined with that selection by the frame-level [&] of pandas. *)
Lemma last_n_years_branch {pandas : Pandas}
  (df : DataFrame) (plan : QueryPlan) :
  tr_type (time_range plan) = T_last_n_years ->
  (tr_n_years (time_range plan) = None -> n_years_or_3 (time_range plan) = 3) /\
  (forall n, tr_n_years (time_range plan) = Some n -> n <> 0 ->
     n_years_or_3 (time_range plan) = n) /\
  match tr_year (time_range plan) with
  | None => _apply_time_range df plan = Raise year_required
  | Some _ =>
      match series_max (map (fun r : Row => year r) df) with
      | None => _apply_time_range df plan = Raise nan_to_int
      | Some maxYear =>
          is_maximum (map (fun r : Row => year r) df) maxYear /\
          _apply_time_range df plan =
            frame_and_series
              (filter (fun r : Row =>
                 num_ge (year r) (maxYear - n_years_or_3 (time_range plan) + 1)) df)
              (map (fun r : Row => num_le (year r) maxYear) df)
      end
  end.
Proof.
  intros Ht. unfold n_years_or_3. split; [now intros ->|]. split.
  - intros n -> Hn. destruct (n =? 0) eqn:E; [|reflexivity].
    apply Z.eqb_eq in E. contradiction.
  - unfold _apply_time_range. rewrite Ht.
    destruct (tr_year (time_range plan)); [|reflexivity].
    destruct (series_max (map (fun r : Row => year r) df)) as [m|] eqn:E.
    + split; [now apply series_max_Some | reflexivity].
    + reflexivity.
Qed.

(** C1, on the sample table (years 2022 and 2023, so that the slice of the
    last 2 years is the whole table).  With [n_years = 2] and nothing else
    set the engine raises, whatever pandas does; with [year] set as well it
    hands the rows of year >= 2022 and the mask year <= 2023 to the
    frame-level [&], and returns what that operator makes of them instead of
    the rows of the range. *)
Theorem last_n_years_on_sample :
  (is_maximum (map (fun r : Row => year r) sample_df) 2023 /\
   rows_of_last_years 2 2023 sample_df = sample_df) /\
  (forall pandas : Pandas,
     _apply_time_range (pandas := pandas) sample_df
       (last_years_plan None (Some 2)) = Raise year_required) /\
  (forall pandas : Pandas,
     _apply_time_range (pandas := pandas) sample_df
       (last_years_plan (Some 2023) (Some 2)) =
     frame_and_series sample_df [true; true; true; true]).
Proof.
  split; [split; [|reflexivity]|split; reflexivity].
  split; [simpl; tauto|].
  simpl. intros v H.
  repeat (destruct H as [H|H]; [injection H as <-; lia|]). destruct H.
Qed.

(** *** Filters and the provenance subset *)

Lemma filter_filter {A} (p q : A -> bool) (l : list A) :
  filter p (filter q l) = filter (fun x => q x && p x) l.
Proof.
  induction l as [|x l IH]; simpl; [reflexivity|].
  destruct (q x); simpl; [destruct (p x)|]; now rewrite IH.
Qed.

Lemma fold_filters (fs : list Filter) (df : DataFrame) :
  fold_left
    (fun out f => match f_op f with Op_eq => filter (filter_holds f) out end) fs df =
  filter (fun r => forallb (fun f => filter_holds f r) fs) df.
Proof.
  revert df; induction fs as [|f fs IH]; intros df; simpl.
  - induction df as [|r df IHdf]; simpl; [reflexivity | now rewrite <- IHdf].
  - destruct (f_op f). rewrite IH. apply filter_filter.
Qed.

Lemma _apply_filters_conjunction (df : DataFrame) (plan : QueryPlan) :
  _apply_filters df plan = filter (all_filters_hold plan) df.
Proof. apply fold_filters. Qed.

(** Every time range but [last_n_years] selects rows of the table. *)
Lemma _apply_time_range_selects {pandas : Pandas} (df : DataFrame)
  (plan : QueryPlan) (sliced : DataFrame) :
  tr_type (time_range plan) <> T_last_n_years ->
  _apply_time_range df plan = OK sliced ->
  exists keep, sliced = filter keep df.
Proof.
  unfold _apply_time_range, _slice_last_quarter. intros Ht.
  destruct (tr_type (time_range plan)); try congruence.
  - intros [= <-]. exists (fun _ => true).
    induction df as [|r df IH]; simpl; [reflexivity | now rewrite <- IH].
  - destruct (tr_year (time_range plan)); [|discriminate].
    intros [= <-]. now eexists.
  - destruct (tr_year (time_range plan)), (tr_quarter (time_range plan));
      try discriminate.
    intros [= <-]. now eexists.
  - destruct (python_int (series_max (map (fun r : Row => year r) df)))
      as [max_year|e]; [|discriminate]. simpl.
    match goal with
    | |- bind ?x _ = _ -> _ => destruct x as [max_q|e]; [|discriminate]
    end.
    simpl. destruct (max_q =? 1); intros [= <-]; now eexists.
Qed.

(** C6. Whatever the intent, the subset returned by [execute_with_subset]
    is the time-range slice of the table narrowed by all the equality
    filters together, taken before any aggregation (rows of the table, in
    their order, for every time range but [last_n_years], whose slice is
    what the frame-level [&] returns); and an aggregate plan with no
    grouping and the metric revenue returns, whenever its slice is defined,
    one row whose revenue is the sum of the subset's revenue column. *)
Theorem subset_is_slice_then_filters {pandas : Pandas}
  (df : DataFrame) (plan : QueryPlan) :
  (forall er, execute_with_subset df plan = OK er ->
     exists sliced,
       _apply_time_range df plan = OK sliced /\
       subset_df er = filter (all_filters_hold plan) sliced /\
       (tr_type (time_range plan) <> T_last_n_years ->
        exists keep, subset_df er =
                       filter (fun r => keep r && all_filters_hold plan r) df)) /\
  (forall sliced, _apply_time_range df plan = OK sliced ->
     intent plan = I_aggregate -> groupby plan = [] ->
     metrics plan = [M_revenue] ->
     execute_with_subset df plan =
       OK {| result_df :=
               {| columns := [Met M_revenue];
                  rows := [[CInt (series_sum
                     (map (fun r : Row => revenue r)
                        (filter (all_filters_hold plan) sliced)))]] |};
             subset_df := filter (all_filters_hold plan) sliced |}).
Proof.
  split.
  - intros er H. unfold execute_with_subset in H.
    destruct (_apply_time_range df plan) as [sliced|e] eqn:Es; [|discriminate].
    exists sliced. split; [reflexivity|].
    simpl in H. rewrite _apply_filters_conjunction in H.
    assert (Hsub : subset_df er = filter (all_filters_hold plan) sliced).
    { destruct (intent plan); simpl in H;
        match type of H with
        | bind ?x _ = _ => destruct x; simpl in H; [|discriminate]
        | _ => discriminate
        end; now injection H as <-. }
    split; [exact Hsub|].
    intros Ht. destruct (_apply_time_range_selects df plan sliced Ht Es) as [keep ->].
    exists keep. rewrite Hsub. apply filter_filter.
  - intros sliced Hs Hi Hg Hm. unfold execute_with_subset.
    rewrite Hs. simpl. rewrite Hi, _apply_filters_conjunction.
    unfold _run_aggregate. rewrite Hm, Hg. reflexivity.
Qed.

Lemma subset_is_slice_then_filters_witness :
  _apply_time_range (pandas := pandas_stable) sample_df revenue_2022_alpha =
    OK [sample_row 2022 4 11 "alpha" 50 20; sample_row 2022 3 8 "gamma" 80 30] /\
  execute_with_subset (pandas := pandas_stable) sample_df revenue_2022_alpha =
    OK {| result_df := {| columns := [Met M_revenue]; rows := [[CInt 50]] |};
          subset_df := [sample_row 2022 4 11 "alpha" 50 20] |}.
Proof.
  split; [reflexivity|].
  exact (proj2 (subset_is_slice_then_filters (pandas := pandas_stable)
                  sample_df revenue_2022_alpha)
           _ eq_refl eq_refl eq_refl eq_refl).
Defined.

(** *** Aggregation *)

Lemma agg_map_In (ms : list Metric) (m : Metric) : In m (agg_map ms) <-> In m ms.
Proof.
  induction ms as [|x ms IH]; simpl; [tauto|].
  split.
  - intros [->|H]; [now left|].
    apply in_remove in H. right. apply IH. tauto.
  - intros [->|H]; [now left|].
    destruct (Metric_eq_dec x m) as [->|Hne]; [now left|].
    right. apply in_in_remove; [congruence | now apply IH].
Qed.

Lemma NoDup_remove {A} (dec : forall a b : A, {a = b} + {a <> b})
  (x : A) (l : list A) : NoDup l -> NoDup (remove dec x l).
Proof.
  induction 1 as [|y l Hy Hl IH]; simpl; [constructor|].
  destruct (dec x y); [exact IH|].
  constructor; [|exact IH].
  intros H. apply in_remove in H. tauto.
Qed.

Lemma agg_map_NoDup (ms : list Metric) : NoDup (agg_map ms).
Proof.
  induction ms as [|x ms IH]; simpl; constructor.
  - apply remove_In.
  - now apply NoDup_remove.
Qed.




Lemma duplicated_NoDup (l : list GroupByField) : NoDup l -> duplicated l = None.
Proof.
  induction 1 as [|g l Hg Hl IH]; simpl; [reflexivity|].
  destruct (in_dec GroupByField_eq_dec g l); [contradiction | exact IH].
Qed.

Lemma group_keys_NoDup (df : DataFrame) (group : list GroupByField) :
  NoDup (group_keys df group).
Proof.
  unfold group_keys.
  eapply Permutation_NoDup.
  - apply Permutation_sym, insertion_sort_Permutation.
  - apply NoDup_nodup.
Qed.

Lemma group_keys_In (df : DataFrame) (group : list GroupByField) (k : list Cell) :
  In k (group_keys df group) <-> exists r, In r df /\ group_key group r = k.
Proof.
  unfold group_keys. split.
  - intros H.
    apply (Permutation_in _ (insertion_sort_Permutation key_leb _)) in H.
    apply nodup_In, in_map_iff in H. destruct H as [r [Hr Hin]]. now exists r.
  - intros [r [Hin Hr]].
    apply (Permutation_in _ (Permutation_sym (insertion_sort_Permutation key_leb _))).
    apply nodup_In, in_map_iff. now exists r.
Qed.

Lemma group_keys_length (df : DataFrame) (group : list GroupByField) (k : list Cell) :
  In k (group_keys df group) -> List.length k = List.length group.
Proof.
  intros H. apply group_keys_In in H. destruct H as [r [_ <-]].
  unfold group_key. apply length_map.
Qed.

Lemma groupby_agg_NoDup (df : DataFrame) (group : list GroupByField)
  (keys : list Metric) :
  NoDup group ->
  groupby_agg df group keys =
    OK {| columns := map Dim group ++ map Met keys;
          rows := map (group_row df group keys) (group_keys df group) |}.
Proof. intros H. unfold groupby_agg. now rewrite duplicated_NoDup. Qed.



(** The grouped sums of the sample table, in key order. *)
Example aggregate_by_campaign_sample :
  _run_aggregate sample_df revenue_by_campaign =
    OK {| columns := [Dim G_campaign_name; Met M_revenue; Met M_profit];
          rows := [[CStr "alpha"; CInt 55; CInt 34];
                   [CStr "beta"; CInt 30; CInt 20];
                   [CStr "gamma"; CInt 80; CInt 50]] |}.
Proof. reflexivity. Qed.

(** A year without rows: one row, revenue 0. *)
Example aggregate_empty_year_sample :
  execute (pandas := pandas_stable) sample_df
    (plan_of I_aggregate [M_revenue] []
       {| tr_type := T_year; tr_year := Some 2021; tr_quarter := None;
          tr_n_years := None |}) =
    OK {| columns := [Met M_revenue]; rows := [[CInt 0]] |}.
Proof. reflexivity. Qed.

(** A grouping that names a dimension twice does not get through
    [reset_index]. *)
Example aggregate_repeated_dimension_sample :
  _run_aggregate sample_df
    (plan_of I_aggregate [M_revenue] [G_year; G_year] (time_range_of T_all)) =
    Raise (ValueError "cannot insert year, already exists").
Proof. reflexivity. Qed.

(** *** Sorting a result frame *)

Lemma Sorted_impl {A} (R R' : A -> A -> Prop) (l : list A) :
  (forall a b, R a b -> R' a b) -> Sorted R l -> Sorted R' l.
Proof.
  intros H. induction 1 as [|x l Hs IH Hd]; constructor; auto.
  destruct Hd; constructor; auto.
Qed.


Lemma column_index_In (c : Column) (cols : list Column) :
  In c cols -> exists i, column_index c cols = Some i.
Proof.
  induction cols as [|c' cols IH]; simpl; [tauto|].
  intros H. destruct (Column_eq_dec c c') as [E|E]; [now exists O|].
  destruct IH as [i Hi]; [destruct H; congruence|].
  exists (S i). now rewrite Hi.
Qed.

Lemma column_indices_ok (by_ cols : list Column) :
  (forall c, In c by_ -> In c cols) ->
  exists idxs, column_indices by_ cols = OK idxs /\
               List.length idxs = List.length by_ /\
               forall row, cells_at idxs row = row_cells cols by_ row.
Proof.
  induction by_ as [|c by_ IH]; intros H; simpl.
  - exists []. repeat split.
  - destruct (column_index_In c cols) as [i Hi]; [apply H; now left|].
    destruct IH as [idxs [Hidx [Hlen Hcells]]]; [intros; apply H; now right|].
    rewrite Hi, Hidx. simpl. exists (i :: idxs).
    split; [reflexivity|]. split; [simpl; now rewrite Hlen|].
    intros row. unfold cells_at, row_cells in *. simpl.
    unfold row_cell at 1. rewrite Hi. now rewrite Hcells.
Qed.

Lemma key_leb_single (x y : Cell) : cell_leb x y = true -> key_leb [x] [y] = true.
Proof. simpl. now destruct (Cell_eq_dec x y). Qed.

(** [sort_values] on labels of the frame: a permutation of the rows, in
    the order of these columns. *)
Lemma sort_values_sorted {pandas : Pandas} (by_ : list Column) (f : Frame) :
  by_ <> [] -> (forall c, In c by_ -> In c (columns f)) ->
  exists f',
    sort_values by_ f = OK f' /\
    columns f' = columns f /\
    Permutation (rows f') (rows f) /\
    Sorted (ordered_by (columns f) by_) (rows f').
Proof.
  intros Hne Hin.
  destruct (column_indices_ok by_ (columns f) Hin) as [idxs [Hidx [Hlen Hcells]]].
  unfold sort_values. rewrite Hidx. simpl.
  destruct idxs as [|i [|j idxs]].
  - destruct by_; [congruence | discriminate].
  - eexists. split; [reflexivity|]. split; [reflexivity|]. simpl.
    split; [apply quicksort_Permutation|].
    eapply Sorted_impl; [|apply quicksort_Sorted].
    intros a b Hab. unfold ordered_by. rewrite <- !Hcells.
    apply key_leb_single. exact Hab.
  - eexists. split; [reflexivity|]. split; [reflexivity|]. simpl.
    split; [apply insertion_sort_Permutation|].
    apply insertion_sort_Sorted; unfold ordered_by; intros a b Hab.
    + now rewrite <- !Hcells.
    + rewrite <- !Hcells. now apply key_leb_total.
Qed.

(** [sort_values] on one label, in a direction. *)
Lemma sort_values_by_sorted {pandas : Pandas}
  (c : Column) (ascending : bool) (f : Frame) :
  In c (columns f) ->
  sort_values_by c ascending f =
    OK {| columns := columns f;
          rows := quicksort (row_cell (columns f) c) ascending (rows f) |}.
Proof.
  intros Hin. destruct (column_index_In c _ Hin) as [i Hi].
  unfold sort_values_by, row_cell. now rewrite Hi.
Qed.

(** *** Trend *)

Lemma trend_group_NoDup (plan : QueryPlan) :
  NoDup (groupby plan) -> NoDup (trend_group plan).
Proof.
  unfold trend_group. destruct (groupby plan); [intros _ | auto].
  constructor; [intros [H|[]]; discriminate | constructor; [intros [] | constructor]].
Qed.



(** The defaults at work on the sample table. *)
Example trend_sample :
  _run_trend (pandas := pandas_stable) sample_df
    (plan_of I_trend [] [] (time_range_of T_all)) =
    OK {| columns := [Dim G_year; Dim G_month; Met M_revenue; Met M_cost];
          rows := [[CInt 2022; CInt 8; CInt 80; CInt 30];
                   [CInt 2022; CInt 11; CInt 50; CInt 20];
                   [CInt 2023; CInt 1; CInt 30; CInt 10];
                   [CInt 2023; CInt 2; CInt 5; CInt 1]] |}.
Proof. reflexivity. Qed.

(** *** Top-N *)



(** Three campaigns with revenues 55, 30 and 80: the top two are 80, 55. *)
Example top_n_sample :
  _run_top_n (pandas := pandas_stable) sample_df
    (top_n_plan [M_revenue] 2 M_revenue desc) =
    OK {| columns := [Dim G_campaign_name; Met M_revenue];
          rows := [[CStr "gamma"; CInt 80]; [CStr "alpha"; CInt 55]] |}.
Proof. reflexivity. Qed.


(** *** Totals of the grouped rows *)








(** The grouped frame of a trend plan, before any property of its order. *)
Lemma _run_trend_rows {pandas : Pandas} (subset : DataFrame) (plan : QueryPlan) :
  NoDup (groupby plan) ->
  exists frame,
    _run_trend subset plan = OK frame /\
    columns frame =
      map Dim (trend_group plan) ++ map Met (agg_map (trend_metrics plan)) /\
    Permutation (rows frame)
      (map (group_row subset (trend_group plan) (agg_map (trend_metrics plan)))
           (group_keys subset (trend_group plan))).
Proof.
  intros Hnd. unfold _run_trend.
  rewrite groupby_agg_NoDup by (now apply trend_group_NoDup). simpl.
  set (grouped := {| columns := _; rows := _ |}).
  assert (Hdim : forall g, In g (trend_group plan) -> In (Dim g) (columns grouped)).
  { intros g Hg. simpl. apply in_or_app. left. now apply in_map. }
  assert (Hne : trend_group plan <> []).
  { unfold trend_group. destruct (groupby plan); discriminate. }
  assert (Hall : exists f', sort_values (map Dim (trend_group plan)) grouped = OK f' /\
                   columns f' = columns grouped /\
                   Permutation (rows f') (rows grouped)).
  { destruct (sort_values_sorted (map Dim (trend_group plan)) grouped)
      as [f' [Hs [Hc [Hp _]]]].
    - destruct (trend_group plan); [congruence | discriminate].
    - intros c Hc. apply in_map_iff in Hc. destruct Hc as [g [<- Hg]]. auto.
    - now exists f'. }
  unfold mem_group.
  destruct (in_dec GroupByField_eq_dec G_year (trend_group plan)) as [Hy|Hy];
    [destruct (in_dec GroupByField_eq_dec G_month (trend_group plan)) as [Hm|Hm]|];
    simpl; try exact Hall.
  destruct (sort_values_sorted [Dim G_year; Dim G_month] grouped)
    as [f' [Hs [Hc [Hp _]]]]; [discriminate| |now exists f'].
  intros c [<-|[<-|[]]]; auto.
Qed.



(** *** Order of the grouped rows *)

Lemma column_index_Dim_at (pre : list GroupByField) (g : GroupByField)
  (tail : list Column) :
  ~ In g pre ->
  column_index (Dim g) (map Dim pre ++ Dim g :: tail) = Some (List.length pre).
Proof.
  induction pre as [|p pre IH]; simpl; intros H.
  - destruct (Column_eq_dec (Dim g) (Dim g)); [reflexivity | congruence].
  - destruct (Column_eq_dec (Dim g) (Dim p)) as [E|_].
    + injection E as ->. exfalso. apply H. now left.
    + rewrite IH by tauto. reflexivity.
Qed.

(** The cells of a grouped row under the grouping labels are its key. *)
Lemma row_cells_key (group pre : list GroupByField) (tail : list Column)
  (kpre k rest : list Cell) :
  NoDup (pre ++ group) ->
  List.length kpre = List.length pre -> List.length k = List.length group ->
  row_cells (map Dim pre ++ map Dim group ++ tail) (map Dim group)
            (kpre ++ k ++ rest) = k.
Proof.
  revert pre kpre k. induction group as [|g group IH]; intros pre kpre k Hnd Hpre Hk.
  - destruct k; [reflexivity | discriminate].
  - destruct k as [|c k]; [discriminate|].
    cbn [map row_cells]. f_equal.
    + unfold row_cell. cbn [app].
      rewrite column_index_Dim_at.
      * unfold cell_at. rewrite <- Hpre. apply nth_middle.
      * apply NoDup_remove_2 in Hnd. intros H. apply Hnd.
        apply in_or_app. now left.
    + replace (map Dim pre ++ (Dim g :: map Dim group) ++ tail)
        with (map Dim (pre ++ [g]) ++ map Dim group ++ tail)
        by (now rewrite map_app, <- app_assoc).
      replace (kpre ++ (c :: k) ++ rest) with ((kpre ++ [c]) ++ k ++ rest)
        by (now rewrite <- app_assoc).
      apply IH.
      * now rewrite <- app_assoc.
      * rewrite !length_app. simpl. lia.
      * now injection Hk.
Qed.

Lemma Sorted_map_In {A B} (R : A -> A -> Prop) (R' : B -> B -> Prop)
  (f : A -> B) (l : list A) :
  (forall a b, In a l -> In b l -> R a b -> R' (f a) (f b)) ->
  Sorted R l -> Sorted R' (map f l).
Proof.
  intros H Hs. induction Hs as [|x l Hs IH Hd]; simpl; constructor.
  - apply IH. intros a b Ha Hb. apply H; now right.
  - destruct Hd as [|y l Hxy]; simpl; constructor.
    apply H; [now left | right; now left | exact Hxy].
Qed.

(** The rows of a grouped aggregate come out in ascending order of the
    grouping key (lexicographic over the grouping columns, NaN last), one
    row per key. *)
Theorem aggregate_rows_in_key_order (subset : DataFrame) (plan : QueryPlan) :
  metrics plan <> [] -> groupby plan <> [] -> NoDup (groupby plan) ->
  exists frame,
    _run_aggregate subset plan = OK frame /\
    Sorted (ordered_by (columns frame) (map Dim (groupby plan))) (rows frame) /\
    NoDup (map (row_cells (columns frame) (map Dim (groupby plan))) (rows frame)).
Proof.
  intros Hm Hg Hnd. unfold _run_aggregate.
  destruct (metrics plan) as [|m0 ms] eqn:E; [congruence|]. rewrite <- E.
  destruct (groupby plan) as [|g0 gs] eqn:Eg; [congruence|]. rewrite <- Eg in *.
  rewrite groupby_agg_NoDup by exact Hnd.
  eexists. split; [reflexivity|]. simpl.
  assert (Hkey : forall k, In k (group_keys subset (groupby plan)) ->
            row_cells (map Dim (groupby plan) ++ map Met (agg_map (metrics plan)))
                      (map Dim (groupby plan))
                      (group_row subset (groupby plan) (agg_map (metrics plan)) k) = k).
  { intros k Hk.
    apply (row_cells_key (groupby plan) [] _ [] k); [exact Hnd | reflexivity |].
    now apply group_keys_length with (df := subset). }
  split.
  - apply Sorted_map_In with (R := fun a b => key_leb a b = true).
    + intros a b Ha Hb Hab. unfold ordered_by. now rewrite !Hkey.
    + unfold group_keys. apply insertion_sort_Sorted; [auto | apply key_leb_total].
  - rewrite map_map.
    rewrite (map_ext_in _ (fun k => k) _ Hkey), map_id.
    apply group_keys_NoDup.
Qed.

Lemma aggregate_rows_in_key_order_witness :
  exists frame,
    _run_aggregate sample_df revenue_by_campaign = OK frame /\
    Sorted (ordered_by (columns frame) (map Dim (groupby revenue_by_campaign)))
           (rows frame) /\
    NoDup (map (row_cells (columns frame) (map Dim (groupby revenue_by_campaign)))
               (rows frame)).
Proof.
  apply (aggregate_rows_in_key_order sample_df revenue_by_campaign);
    [discriminate | discriminate |].
  simpl. constructor; [intros [] | constructor].
Defined.

(** *** Which plans the three runs accept *)

Lemma duplicated_None_iff (l : list GroupByField) : duplicated l = None <-> NoDup l.
Proof.
  split; [|apply duplicated_NoDup].
  induction l as [|g l IH]; simpl; [constructor|].
  destruct (in_dec GroupByField_eq_dec g l) as [H|H]; [discriminate|].
  intros E. constructor; auto.
Qed.

Lemma groupby_agg_ok_iff (df : DataFrame) (group : list GroupByField)
  (keys : list Metric) :
  is_ok (groupby_agg df group keys) = true <-> NoDup group.
Proof.
  unfold groupby_agg. rewrite <- duplicated_None_iff.
  destruct (duplicated group); simpl; split; congruence.
Qed.

Lemma column_index_Some_In (c : Column) (cols : list Column) (i : nat) :
  column_index c cols = Some i -> In c cols.
Proof.
  revert i. induction cols as [|c' cols IH]; simpl; intros i; [discriminate|].
  destruct (Column_eq_dec c c') as [->|_]; [now left|].
  destruct (column_index c cols) as [j|]; [|discriminate].
  intros _. right. now apply (IH j).
Qed.

Lemma In_Met_grouped (m : Metric) (group : list GroupByField) (keys : list Metric) :
  In (Met m) (map Dim group ++ map Met keys) <-> In m keys.
Proof.
  split.
  - intros H. apply in_app_or in H. destruct H as [H|H];
      apply in_map_iff in H; destruct H as [x [E Hx]]; [discriminate|].
    now injection E as <-.
  - intros H. apply in_or_app. right. now apply in_map.
Qed.

Lemma trend_group_NoDup_iff (plan : QueryPlan) :
  NoDup (trend_group plan) <-> NoDup (groupby plan).
Proof.
  split; [|apply trend_group_NoDup].
  unfold trend_group. destruct (groupby plan); [constructor | auto].
Qed.

(** The grouped and sorted frame behind a top_n plan that the run accepts. *)
Lemma _run_top_n_rows {pandas : Pandas} (subset : DataFrame) (plan : QueryPlan)
  (frame : Frame) :
  _run_top_n subset plan = OK frame ->
  exists n sb,
    top_n plan = Some n /\ sort_by plan = Some sb /\
    groupby plan <> [] /\ NoDup (groupby plan) /\
    In (sb_field sb) (top_n_metrics plan) /\
    frame = head n
      {| columns := map Dim (groupby plan) ++ map Met (agg_map (top_n_metrics plan));
         rows := quicksort
                   (row_cell (map Dim (groupby plan) ++
                              map Met (agg_map (top_n_metrics plan)))
                             (Met (sb_field sb)))
                   (is_asc (sb_direction sb))
                   (map (group_row subset (groupby plan) (agg_map (top_n_metrics plan)))
                        (group_keys subset (groupby plan))) |}.
Proof.
  unfold _run_top_n.
  destruct (groupby plan) as [|g0 gs] eqn:Eg; [discriminate|]. rewrite <- Eg.
  destruct (top_n plan) as [n|]; [|discriminate].
  destruct (sort_by plan) as [sb|]; [|discriminate].
  pose proof (groupby_agg_ok_iff subset (groupby plan) (agg_map (top_n_metrics plan)))
    as Hiff.
  destruct (groupby_agg subset (groupby plan) (agg_map (top_n_metrics plan)))
    as [grouped|e] eqn:Ea; [|discriminate].
  assert (Hnd : NoDup (groupby plan)) by (now apply Hiff).
  rewrite groupby_agg_NoDup in Ea by exact Hnd. injection Ea as <-.
  cbn [bind]. unfold sort_values_by. cbn [columns rows].
  destruct (column_index (Met (sb_field sb)) _) as [i|] eqn:Ei; [|discriminate].
  cbn [bind]. intros [= <-].
  exists n, sb. repeat split; try congruence.
  - apply column_index_Some_In in Ei.
    now apply (proj1 (In_Met_grouped _ _ _)), (proj1 (agg_map_In _ _)) in Ei.
  - unfold row_cell. now rewrite Ei.
Qed.

(** Whether a run fails is decided by the plan alone, never by the rows:
    an aggregate needs a metric, top_n needs a grouping, [top_n], [sort_by]
    and a sort field among the summed metrics, and each of the three needs
    a grouping that names no dimension twice. *)
Theorem runs_fail_on_the_plan_alone {pandas : Pandas}
  (subset : DataFrame) (plan : QueryPlan) :
  (is_ok (_run_aggregate subset plan) = true <->
     metrics plan <> [] /\ NoDup (groupby plan)) /\
  (is_ok (_run_top_n subset plan) = true <->
     groupby plan <> [] /\ NoDup (groupby plan) /\
     exists n sb, top_n plan = Some n /\ sort_by plan = Some sb /\
                  In (sb_field sb) (top_n_metrics plan)) /\
  (is_ok (_run_trend subset plan) = true <-> NoDup (groupby plan)).
Proof.
  split; [|split].
  - unfold _run_aggregate.
    destruct (metrics plan) as [|m0 ms].
    + simpl. split; [discriminate | intros [H _]; congruence].
    + destruct (groupby plan) as [|g0 gs] eqn:Eg.
      * simpl. split; [intros _; split; [discriminate | constructor] | reflexivity].
      * rewrite groupby_agg_ok_iff.
        split; [intros H; split; [discriminate | exact H] | now intros [_ H]].
  - split.
    + intros H. destruct (_run_top_n subset plan) as [frame|e] eqn:E; [|discriminate].
      destruct (_run_top_n_rows subset plan frame E)
        as [n [sb [Hn [Hsb [Hg [Hnd [Hin _]]]]]]].
      split; [exact Hg|]. split; [exact Hnd|]. now exists n, sb.
    + intros [Hg [Hnd [n [sb [Hn [Hsb Hin]]]]]]. unfold _run_top_n.
      destruct (groupby plan) as [|g0 gs] eqn:Eg; [congruence|]. rewrite <- Eg in *.
      rewrite Hn, Hsb, groupby_agg_NoDup by exact Hnd. cbn [bind].
      rewrite sort_values_by_sorted; [reflexivity|].
      cbn [columns]. now apply In_Met_grouped, agg_map_In.
  - rewrite <- trend_group_NoDup_iff. split.
    + unfold _run_trend. intros H.
      apply (groupby_agg_ok_iff subset (trend_group plan) (agg_map (trend_metrics plan))).
      destruct (groupby_agg subset (trend_group plan) (agg_map (trend_metrics plan)));
        [reflexivity | discriminate].
    + intros Hnd. apply trend_group_NoDup_iff in Hnd.
      destruct (_run_trend_rows subset plan Hnd) as [frame [Hrun _]].
      now rewrite Hrun.
Qed.

(** *** The number of rows of a top_n result *)

Lemma group_keys_count (df : DataFrame) (group : list GroupByField) :
  Z.of_nat (List.length (group_keys df group)) = group_count df group.
Proof.
  unfold group_keys, group_count. f_equal.
  apply Permutation_length, insertion_sort_Permutation.
Qed.

Lemma group_count_le (df : DataFrame) (group : list GroupByField) :
  group_count df group <= Z.of_nat (List.length df).
Proof.
  unfold group_count. apply inj_le.
  rewrite <- (length_map (group_key group) df).
  apply NoDup_incl_length; [apply NoDup_nodup|].
  intros k Hk. now apply nodup_In in Hk.
Qed.

(** A top_n result has exactly min(top_n, number of groups) rows, the
    groups being the distinct grouping keys of the subset (at most one per
    row of it); a negative [top_n] = -k leaves all the groups but k. *)
Theorem top_n_row_count {pandas : Pandas}
  (subset : DataFrame) (plan : QueryPlan) (n : Z) (frame : Frame) :
  top_n plan = Some n -> _run_top_n subset plan = OK frame ->
  Z.of_nat (List.length (rows frame)) =
    (if 0 <=? n then Z.min n (group_count subset (groupby plan))
     else Z.max 0 (group_count subset (groupby plan) + n)) /\
  group_count subset (groupby plan) <= Z.of_nat (List.length subset).
Proof.
  intros Hn Hrun. split; [|apply group_count_le].
  destruct (_run_top_n_rows subset plan frame Hrun)
    as [n' [sb [Hn' [_ [_ [_ [_ ->]]]]]]].
  assert (n' = n) as -> by congruence.
  unfold head. cbn [rows].
  set (grouped := map _ (group_keys subset (groupby plan))).
  assert (Hg : Z.of_nat (List.length grouped) = group_count subset (groupby plan)).
  { subst grouped. rewrite length_map. apply group_keys_count. }
  pose proof (Permutation_length
                (quicksort_Permutation
                   (row_cell (map Dim (groupby plan) ++
                              map Met (agg_map (top_n_metrics plan)))
                             (Met (sb_field sb)))
                   (is_asc (sb_direction sb)) grouped)) as Hlen.
  destruct (0 <=? n) eqn:E; rewrite length_firstn, Hlen.
  - apply Z.leb_le in E. lia.
  - apply Z.leb_gt in E. lia.
Qed.

Lemma top_n_row_count_witness :
  exists frame,
    _run_top_n (pandas := pandas_stable) sample_df
      (top_n_plan [M_revenue] 2 M_revenue desc) = OK frame /\
    Z.of_nat (List.length (rows frame)) = 2 /\
    group_count sample_df [G_campaign_name] = 3.
Proof.
  eexists. split; [reflexivity|].
  split; [|reflexivity].
  exact (proj1 (top_n_row_count (pandas := pandas_stable) sample_df
                  (top_n_plan [M_revenue] 2 M_revenue desc) 2 _ eq_refl eq_refl)).
Defined.

(** *** More on the equality filters *)

Lemma filter_false {A} (p : A -> bool) (l : list A) :
  (forall x, In x l -> p x = false) -> filter p l = [].
Proof.
  induction l as [|x l IH]; simpl; intros H; [reflexivity|].
  rewrite (H x) by now left. apply IH. intros y Hy. apply H. now right.
Qed.

Lemma forallb_Permutation_eq {A} (p : A -> bool) (l l' : list A) :
  Permutation l l' -> forallb p l = forallb p l'.
Proof.
  induction 1 as [|x l l' _ IH|x y l|l l' l'' _ IH1 _ IH2]; simpl.
  - reflexivity.
  - now rewrite IH.
  - destruct (p x), (p y); reflexivity.
  - now rewrite IH1.
Qed.

(** The filters of a plan act as a set of conditions: the subset does not
    depend on the order in which they are listed, applying them again
    changes nothing, and a row is kept exactly when it is a row of the
    table whose cell equals the value of every filter. *)
Theorem filters_act_as_a_set (df : DataFrame) (plan plan' : QueryPlan) :
  (Permutation (filters plan) (filters plan') ->
     _apply_filters df plan = _apply_filters df plan') /\
  _apply_filters (_apply_filters df plan) plan = _apply_filters df plan /\
  (forall r, In r (_apply_filters df plan) <->
     In r df /\
     forall f, In f (filters plan) ->
       cell_eq (filter_column (f_field f) r) (f_value f) = true).
Proof.
  rewrite !_apply_filters_conjunction. split; [|split].
  - intros Hp. apply filter_ext. intros r. unfold all_filters_hold.
    now apply forallb_Permutation_eq.
  - rewrite filter_filter. apply filter_ext. intros r. apply andb_diag.
  - intros r. rewrite filter_In. unfold all_filters_hold.
    rewrite forallb_forall. reflexivity.
Qed.

(** A filter that can match no cell empties the subset, without any error:
    a value that is NaN (or None), and a text value on one of the numeric
    dimensions year, quarter, month and week. *)
Theorem mistyped_filter_selects_nothing
  (df : DataFrame) (plan : QueryPlan) (f : Filter) :
  In f (filters plan) ->
  f_value f = CNaN \/
  (numeric_field (f_field f) = true /\ exists s, f_value f = CStr s) ->
  _apply_filters df plan = [].
Proof.
  intros Hin Hbad. rewrite _apply_filters_conjunction.
  apply filter_false. intros r _. unfold all_filters_hold.
  destruct (forallb (fun f => filter_holds f r) (filters plan)) eqn:E; [|reflexivity].
  rewrite forallb_forall in E. specialize (E f Hin).
  unfold filter_holds in E. destruct Hbad as [Hv|[Hnum [s Hv]]]; rewrite Hv in E.
  - destruct (filter_column (f_field f) r); discriminate.
  - destruct (f_field f); try discriminate; simpl in E;
      match type of E with
      | cell_eq (num_cell ?x) _ = _ => destruct x; discriminate
      end.
Qed.

Lemma mistyped_filter_selects_nothing_witness :
  _apply_filters sample_df
    {| intent := I_aggregate; metrics := [M_revenue]; groupby := [];
       time_range := time_range_of T_all;
       filters := [filter_of F_year (CStr "2023")];
       top_n := None; sort_by := None |} = [] /\
  _apply_filters sample_df
    {| intent := I_aggregate; metrics := [M_revenue]; groupby := [];
       time_range := time_range_of T_all;
       filters := [filter_of F_year (CInt 2023)];
       top_n := None; sort_by := None |} =
    [sample_row 2023 1 1 "beta" 30 10; sample_row 2023 1 2 "alpha" 5 1].
Proof.
  split; [|reflexivity].
  apply (mistyped_filter_selects_nothing sample_df _ (filter_of F_year (CStr "2023")));
    [now left|].
  right. split; [reflexivity | now exists "2023"].
Defined.

End EngineTheory.

(** ** The loader *)

Module LoaderTheory.

Import Loader.
Local Open Scope string_scope.
Local Open Scope list_scope.
Local Open Scope Z_scope.

(** *** The gates of [_coerce_types] *)

Lemma parse_dates_ok {libraries : Libraries} (rows : list RawRow) :
  forallb row_ok rows = true ->
  parse_dates rows = Some (map dated rows) /\
  existsb bad_q (map dated rows) = false /\
  existsb bad_m (map dated rows) = false /\
  existsb bad_money (map dated rows) = false.
Proof.
  induction rows as [|r rows IH]; simpl; [auto|].
  intros H. apply andb_prop in H. destruct H as [Hr Hrows].
  destruct (IH Hrows) as [Hp [Hq [Hm Hc]]].
  unfold row_ok in Hr.
  apply andb_prop in Hr. destruct Hr as [Hr Hmoney].
  apply andb_prop in Hr. destruct Hr as [Hdate Hqm].
  apply negb_true_iff in Hmoney, Hqm. apply orb_false_elim in Hqm.
  destruct Hqm as [Hbq Hbm].
  rewrite Hp, Hq, Hm, Hc, Hbq, Hbm, Hmoney.
  repeat split.
  unfold dated.
  destruct (to_datetime (Date r)); [reflexivity | discriminate Hdate].
Qed.

Lemma parse_dates_dated {libraries : Libraries}
  (rows : list RawRow) (l : list (RawRow * Timestamp)) :
  parse_dates rows = Some l ->
  l = map dated rows /\
  forallb (fun r => negb (is_none (to_datetime (Date r)))) rows = true.
Proof.
  revert l; induction rows as [|r rows IH]; simpl; intros l.
  - intros [= <-]. auto.
  - unfold dated at 1.
    destruct (to_datetime (Date r)) as [t|]; [|discriminate].
    destruct (parse_dates rows) as [l'|]; [|discriminate].
    intros [= <-]. destruct (IH l' eq_refl) as [-> H]. now rewrite H.
Qed.

Lemma gates_catch {libraries : Libraries} (rows : list RawRow) :
  forallb (fun r => negb (is_none (to_datetime (Date r)))) rows = true ->
  forallb row_ok rows = false ->
  (existsb bad_q (map dated rows) || existsb bad_m (map dated rows)) ||
  existsb bad_money (map dated rows) = true.
Proof.
  induction rows as [|r rows IH]; simpl; [discriminate|].
  intros Hd H. apply andb_prop in Hd. destruct Hd as [Hdr Hd].
  specialize (IH Hd). unfold row_ok in H. rewrite Hdr in H.
  destruct (bad_q (dated r)), (bad_m (dated r)), (bad_money (dated r)),
    (existsb bad_q (map dated rows)), (existsb bad_m (map dated rows)),
    (existsb bad_money (map dated rows));
    simpl in *; try reflexivity; auto.
Qed.

(** [_coerce_types] returns exactly when every row passes the gates, and
    then each row is coerced on its own. *)
Lemma _coerce_types_ok {libraries : Libraries} (rows : list RawRow) :
  forallb row_ok rows = true ->
  _coerce_types rows = OK (map (fun r => coerced (dated r)) rows).
Proof.
  intros H. destruct (parse_dates_ok rows H) as [Hp [Hq [Hm Hc]]].
  unfold _coerce_types. rewrite Hp, Hq, Hm, Hc. simpl.
  now rewrite map_map.
Qed.

Lemma _coerce_types_raises {libraries : Libraries} (rows : list RawRow) :
  forallb row_ok rows = false -> exists e, _coerce_types rows = Raise e.
Proof.
  intros H. unfold _coerce_types.
  destruct (parse_dates rows) as [l|] eqn:E; [|eexists; reflexivity].
  destruct (parse_dates_dated rows l E) as [-> Hd].
  pose proof (gates_catch rows Hd H) as Hg.
  destruct (existsb bad_q (map dated rows) || existsb bad_m (map dated rows));
    [eexists; reflexivity|].
  simpl in Hg. rewrite Hg. eexists; reflexivity.
Qed.

Lemma offending_not_ok {libraries : Libraries}
  (r : RawRow) : offending r -> row_ok r = false.
Proof.
  unfold offending, row_ok, dated, bad_q, bad_m, bad_money. simpl.
  intros [H|[[t [Ht [H|H]]]|[H|H]]].
  - now rewrite H.
  - rewrite Ht. simpl. rewrite H. simpl. now rewrite orb_true_r.
  - rewrite Ht. simpl. rewrite H. simpl. now rewrite !orb_true_r.
  - rewrite H. simpl. now rewrite andb_false_r.
  - rewrite H. simpl. now rewrite orb_true_r, andb_false_r.
Qed.

(** C5. A source with a row whose date does not parse, or whose quarter or
    month is outside its range after coercion, or whose revenue or cost is
    null after numeric coercion, makes [load] fail: it raises, and returns
    no table. *)
Theorem load_fails_fast {libraries : Libraries} (src : RawFrame) (r : RawRow) :
  In r (raw_rows src) -> offending r ->
  exists e, load src = Raise e.
Proof.
  intros Hin Hbad. unfold load.
  destruct (_validate_columns src) as [[]|e]; [|eexists; reflexivity].
  simpl.
  assert (H : forallb row_ok (raw_rows src) = false).
  { destruct (forallb row_ok (raw_rows src)) eqn:E; [|reflexivity].
    rewrite forallb_forall in E. specialize (E r Hin).
    rewrite (offending_not_ok r Hbad) in E. discriminate. }
  destruct (_coerce_types_raises _ H) as [e He].
  rewrite He. eexists; reflexivity.
Qed.

Lemma load_fails_fast_witness :
  (In (raw_row (CInt 2023) (CInt 5) (CInt 1) (CStr "2023-01-05") (CInt 1) (CInt 1))
      (raw_rows (source_of [good_row;
         raw_row (CInt 2023) (CInt 5) (CInt 1) (CStr "2023-01-05") (CInt 1) (CInt 1)])) /\
   offending (libraries := sample_libraries)
     (raw_row (CInt 2023) (CInt 5) (CInt 1) (CStr "2023-01-05") (CInt 1) (CInt 1))) /\
  exists e,
    sample_load (source_of [good_row;
      raw_row (CInt 2023) (CInt 5) (CInt 1) (CStr "2023-01-05") (CInt 1) (CInt 1)]) =
    Raise e.
Proof.
  assert (Hin : In (raw_row (CInt 2023) (CInt 5) (CInt 1) (CStr "2023-01-05")
                      (CInt 1) (CInt 1))
                   (raw_rows (source_of [good_row;
                      raw_row (CInt 2023) (CInt 5) (CInt 1) (CStr "2023-01-05")
                        (CInt 1) (CInt 1)]))) by (simpl; tauto).
  assert (Hbad : offending (libraries := sample_libraries)
                   (raw_row (CInt 2023) (CInt 5) (CInt 1) (CStr "2023-01-05")
                      (CInt 1) (CInt 1))).
  { right. left. eexists. split; [reflexivity|]. left. reflexivity. }
  split; [split; assumption|].
  exact (load_fails_fast (libraries := sample_libraries)
           _ _ Hin Hbad).
Defined.

(** Quarter 5, month 13, a date that does not parse, a missing revenue:
    each fails the load at its gate.  A quarter written "Q5" matches no
    pattern and falls back to the date. *)
Example load_gates :
  sample_load (source_of [good_row;
      raw_row (CInt 2023) (CInt 5) (CInt 1) (CStr "2023-01-05") (CInt 1) (CInt 1)]) =
    Raise (InvalidQuarterMonth
      [raw_row (CInt 2023) (CInt 5) (CInt 1) (CStr "2023-01-05") (CInt 1) (CInt 1)]) /\
  sample_load (source_of
     [raw_row (CInt 2023) (CInt 1) (CStr "M13") (CStr "2023-01-05") (CInt 1) (CInt 1)]) =
    Raise (InvalidQuarterMonth
      [raw_row (CInt 2023) (CInt 1) (CStr "M13") (CStr "2023-01-05") (CInt 1) (CInt 1)]) /\
  sample_load (source_of
     [raw_row (CInt 2023) (CInt 1) (CInt 1) (CStr "yesterday") (CInt 1) (CInt 1)]) =
    Raise (InvalidDate
      [raw_row (CInt 2023) (CInt 1) (CInt 1) (CStr "yesterday") (CInt 1) (CInt 1)]) /\
  sample_load (source_of
     [raw_row (CInt 2023) (CInt 1) (CInt 1) (CStr "2023-01-05") CNaN (CInt 1)]) =
    Raise (InvalidRevenueCost
      [raw_row (CInt 2023) (CInt 1) (CInt 1) (CStr "2023-01-05") CNaN (CInt 1)]) /\
  is_ok (sample_load (source_of
     [raw_row (CInt 2023) (CStr "Q5") (CInt 1) (CStr "2023-01-05") (CInt 1) (CInt 1)])) =
    true.
Proof. repeat split. Qed.

(** *** Row identity *)

Lemma build_row_key_eq (r : DerivedRow) : build_row_key r = OK (row_key r).
Proof. reflexivity. Qed.

Lemma apply_rows_eq {libraries : Libraries} (rows : list DerivedRow) :
  apply_rows rows = OK (map identified rows).
Proof.
  induction rows as [|r rows IH]; [reflexivity|].
  cbn [apply_rows]. rewrite build_row_key_eq, IH. reflexivity.
Qed.

Lemma _add_row_id_rows {libraries : Libraries}
  (rows : list DerivedRow) (table : DataFrame) :
  _add_row_id rows = OK table -> table = map identified rows.
Proof.
  unfold _add_row_id.
  destruct rows as [|r rows].
  - destruct apply_on_no_rows; [discriminate | now intros [= <-]].
  - rewrite apply_rows_eq. now intros [= <-].
Qed.



Lemma load_rows {libraries : Libraries} (src : RawFrame) (res : LoadResult) :
  load src = OK res ->
  _validate_columns src = OK tt /\
  forallb row_ok (raw_rows src) = true /\
  _add_row_id (derived_rows src) = OK (df res).
Proof.
  unfold load. intros H.
  destruct (_validate_columns src) as [[]|e]; [|discriminate].
  split; [reflexivity|]. simpl in H.
  destruct (forallb row_ok (raw_rows src)) eqn:E.
  - split; [reflexivity|].
    rewrite (_coerce_types_ok _ E) in H. simpl in H.
    fold (derived_rows src) in H.
    destruct (_add_row_id (derived_rows src)) as [table|e]; [|discriminate].
    simpl in H. now injection H as <-.
  - destruct (_coerce_types_raises _ E) as [e He]. rewrite He in H. discriminate.
Qed.

Lemma load_from_rows {libraries : Libraries}
  (src : RawFrame) (table : DataFrame) :
  _validate_columns src = OK tt ->
  forallb row_ok (raw_rows src) = true ->
  _add_row_id (derived_rows src) = OK table ->
  load src =
    OK {| df := table;
          min_date := dates_min (map (fun r : Row => date r) table);
          max_date := dates_max (map (fun r : Row => date r) table) |}.
Proof.
  intros Hv Hok Hid. unfold load. rewrite Hv. simpl.
  rewrite (_coerce_types_ok _ Hok). simpl.
  fold (derived_rows src). now rewrite Hid.
Qed.




(** One row: quarter and month read off their patterns, profit 60, and the
    key the identifier is the digest of. *)
Example load_good_row :
  exists r id,
    sample_load (source_of [good_row]) =
      OK {| df := [{| derived := r; row_id := id |}];
            min_date := Some (date r); max_date := Some (date r) |} /\
    quarter r = Some 1 /\ month r = Some 1 /\ profit r = Some 60 /\
    row_key r =
      "year=2023|quarter=1|month=1|week=1|date=2023-01-05|country=IT|media_category=online|media_name=search|communication=brand|campaign_category=always-on|product=P|campaign_name=nan|revenue=100|cost=40".
Proof. eexists. eexists. repeat split. Qed.

(** *** The column check *)

Lemma existsb_eqb_In (c : string) (l : list string) :
  existsb (String.eqb c) l = true <-> In c l.
Proof.
  rewrite existsb_exists. split.
  - intros [x [Hx E]]. apply String.eqb_eq in E. now subst.
  - intros H. exists c. split; [exact H | apply String.eqb_refl].
Qed.

Lemma missing_In (src : RawFrame) (c : string) :
  In c (filter (fun c => negb (existsb (String.eqb c) (header src)))
               (Schema.raw_columns schema)) <->
  In c Schema.RAW_COLUMNS /\ ~ In c (header src).
Proof.
  rewrite filter_In, negb_true_iff, <- not_true_iff_false, existsb_eqb_In.
  reflexivity.
Qed.

(** [_validate_columns] passes exactly when every raw column of the schema
    is a column of the source (other columns are let through); when one is
    absent, [load] fails with the list of the absent ones, whatever the rows
    hold. *)
Theorem missing_columns_stop_the_load {libraries : Libraries} (src : RawFrame) :
  (_validate_columns src = OK tt <-> incl Schema.RAW_COLUMNS (header src)) /\
  (~ incl Schema.RAW_COLUMNS (header src) ->
     exists missing,
       load src = Raise (MissingColumns missing) /\
       missing <> [] /\
       forall c, In c missing <-> In c Schema.RAW_COLUMNS /\ ~ In c (header src)).
Proof.
  assert (Hiff : _validate_columns src = OK tt <->
                 incl Schema.RAW_COLUMNS (header src)).
  { unfold _validate_columns.
    destruct (filter _ (Schema.raw_columns schema)) as [|c0 missing] eqn:E.
    - split; [intros _ | reflexivity].
      intros c Hc. destruct (in_dec string_dec c (header src)) as [H|H]; [exact H|].
      assert (Hin : In c []) by (rewrite <- E; now apply missing_In).
      destruct Hin.
    - split; [discriminate|].
      intros H. exfalso.
      assert (Hin : In c0 (c0 :: missing)) by now left.
      rewrite <- E in Hin. apply missing_In in Hin.
      destruct Hin as [Hc Hn]. apply Hn, H, Hc. }
  split; [exact Hiff|].
  intros Hn. unfold load.
  destruct (_validate_columns src) as [[]|e] eqn:E.
  - exfalso. now apply Hn, Hiff.
  - unfold _validate_columns in E.
    destruct (filter _ (Schema.raw_columns schema)) as [|c0 missing] eqn:Em;
      [discriminate|].
    injection E as <-. exists (c0 :: missing).
    split; [reflexivity|]. split; [discriminate|].
    intros c. rewrite <- Em. apply missing_In.
Qed.

Lemma missing_columns_stop_the_load_witness :
  ~ incl Schema.RAW_COLUMNS ["Year"; "Date"; "Revenue"; "Clicks"] /\
  exists missing,
    sample_load {| header := ["Year"; "Date"; "Revenue"; "Clicks"];
                   raw_rows := [good_row] |} = Raise (MissingColumns missing) /\
    missing <> [] /\
    forall c, In c missing <->
      In c Schema.RAW_COLUMNS /\ ~ In c ["Year"; "Date"; "Revenue"; "Clicks"].
Proof.
  assert (Hn : ~ incl Schema.RAW_COLUMNS ["Year"; "Date"; "Revenue"; "Clicks"]).
  { intros H. specialize (H "Cost"%string).
    assert (Hc : In "Cost"%string Schema.RAW_COLUMNS) by (simpl; tauto).
    apply H in Hc. simpl in Hc.
    repeat (destruct Hc as [Hc|Hc]; [discriminate|]). exact Hc. }
  split; [exact Hn|].
  exact (proj2 (missing_columns_stop_the_load (libraries := sample_libraries)
                  {| header := ["Year"; "Date"; "Revenue"; "Clicks"];
                     raw_rows := [good_row] |}) Hn).
Defined.

(** Once the column check has passed, the renamed frame has every column
    that the loader, the plans and the row key refer to by its normalized
    name: the numeric columns, the date column, the dimensions and the
    hashed columns. *)
Theorem renamed_header_has_the_schema_columns (src : RawFrame) (c : string) :
  _validate_columns src = OK tt ->
  In c referenced_columns ->
  In c (header (_normalize src)).
Proof.
  intros Hv Hc.
  assert (Hincl : incl Schema.RAW_COLUMNS (header src)).
  { unfold _validate_columns in Hv.
    destruct (filter _ (Schema.raw_columns schema)) as [|c0 missing] eqn:E;
      [|discriminate].
    intros x Hx. destruct (in_dec string_dec x (header src)) as [H|H]; [exact H|].
    assert (Hin : In x []) by (rewrite <- E; now apply missing_In).
    destruct Hin. }
  assert (Hraw : In c (map (renamed (Schema.rename_map schema)) Schema.RAW_COLUMNS)).
  { unfold referenced_columns in Hc. cbn in Hc. cbn.
    repeat (destruct Hc as [<-|Hc]; [repeat first [left; reflexivity | right]|]).
    destruct Hc. }
  apply in_map_iff in Hraw. destruct Hraw as [raw [<- Hraw]].
  unfold _normalize. cbn [header]. apply in_map. now apply Hincl.
Qed.

Lemma renamed_header_has_the_schema_columns_witness :
  In "campaign_category"%string
     (header (_normalize (source_of [good_row]))).
Proof.
  apply (renamed_header_has_the_schema_columns (source_of [good_row]));
    [reflexivity | cbn; repeat first [left; reflexivity | right]].
Defined.

(** *** What a loaded table holds *)

Lemma load_table {libraries : Libraries} (src : RawFrame) (res : LoadResult) :
  load src = OK res ->
  forallb row_ok (raw_rows src) = true /\
  df res = map (fun r => identified
                  {| source := coerced (dated r);
                     profit := num_sub (to_numeric (Revenue r))
                                       (to_numeric (Cost r)) |})
               (raw_rows src) /\
  min_date res = dates_min (map (fun r : Row => date r) (df res)) /\
  max_date res = dates_max (map (fun r : Row => date r) (df res)).
Proof.
  intros H. destruct (load_rows src res H) as [Hv [Hok Hid]].
  split; [exact Hok|].
  apply _add_row_id_rows in Hid. split.
  - rewrite Hid. unfold derived_rows, _add_derived_metrics.
    rewrite !map_map. reflexivity.
  - rewrite (load_from_rows src (df res) Hv Hok) in H.
    + now injection H as <-.
    + destruct (load_rows src res H) as [_ [_ Hid']]. exact Hid'.
Qed.

Lemma between_Some (lo hi : Z) (x : option Z) :
  between lo hi x = true -> exists v, x = Some v /\ lo <= v <= hi.
Proof.
  destruct x as [v|]; [|discriminate]. simpl. intros H.
  apply andb_prop in H. destruct H as [H1 H2].
  apply Z.leb_le in H1, H2. exists v. split; [reflexivity | lia].
Qed.

Lemma row_ok_gates {libraries : Libraries} (r : RawRow) :
  row_ok r = true ->
  between 1 4 (quarter_of r (snd (dated r))) = true /\
  between 1 12 (month_of r (snd (dated r))) = true /\
  exists v c, to_numeric (Revenue r) = Some v /\ to_numeric (Cost r) = Some c.
Proof.
  unfold row_ok, bad_q, bad_m, bad_money, dated. cbn [fst snd]. intros H.
  apply andb_prop in H. destruct H as [H Hmoney].
  apply andb_prop in H. destruct H as [_ Hqm].
  apply negb_true_iff, orb_false_elim in Hqm. destruct Hqm as [Hq Hm].
  apply orb_false_elim in Hq, Hm.
  destruct Hq as [_ Hq], Hm as [_ Hm].
  apply negb_false_iff in Hq, Hm.
  apply negb_true_iff, orb_false_elim in Hmoney. destruct Hmoney as [Hr Hc].
  split; [exact Hq|]. split; [exact Hm|].
  destruct (to_numeric (Revenue r)) as [v|]; [|simpl in Hr; discriminate].
  destruct (to_numeric (Cost r)) as [c|]; [|simpl in Hc; discriminate].
  now exists v, c.
Qed.



(** *** The date bounds *)

Lemma ts_leb_refl (a : Timestamp) : ts_leb a a = true.
Proof. unfold ts_leb. rewrite !Z.eqb_refl. apply Z.leb_refl. Qed.

Lemma ts_leb_total (a b : Timestamp) : ts_leb a b = false -> ts_leb b a = true.
Proof.
  unfold ts_leb.
  destruct (Z.eqb_spec (ts_year a) (ts_year b)), (Z.eqb_spec (ts_year b) (ts_year a)),
    (Z.eqb_spec (ts_month a) (ts_month b)), (Z.eqb_spec (ts_month b) (ts_month a)),
    (Z.eqb_spec (ts_day a) (ts_day b)), (Z.eqb_spec (ts_day b) (ts_day a));
    lia.
Qed.

Lemma ts_leb_trans (a b c : Timestamp) :
  ts_leb a b = true -> ts_leb b c = true -> ts_leb a c = true.
Proof.
  unfold ts_leb.
  destruct (Z.eqb_spec (ts_year a) (ts_year b)), (Z.eqb_spec (ts_year b) (ts_year c)),
    (Z.eqb_spec (ts_year a) (ts_year c)),
    (Z.eqb_spec (ts_month a) (ts_month b)), (Z.eqb_spec (ts_month b) (ts_month c)),
    (Z.eqb_spec (ts_month a) (ts_month c)),
    (Z.eqb_spec (ts_day a) (ts_day b)), (Z.eqb_spec (ts_day b) (ts_day c)),
    (Z.eqb_spec (ts_day a) (ts_day c));
    lia.
Qed.

Lemma dates_min_spec (l : list Timestamp) (m : Timestamp) :
  dates_min l = Some m ->
  In m l /\ forall d, In d l -> ts_leb m d = true.
Proof.
  revert m. induction l as [|t l IH]; simpl; intros m; [discriminate|].
  destruct (dates_min l) as [m'|] eqn:E.
  - destruct (IH m' eq_refl) as [Hin Hle]. intros [= <-].
    destruct (ts_leb t m') eqn:Et.
    + split; [now left|]. intros d [<-|Hd]; [apply ts_leb_refl|].
      eapply ts_leb_trans; [exact Et | now apply Hle].
    + split; [now right|]. intros d [<-|Hd]; [now apply ts_leb_total | now apply Hle].
  - intros [= <-]. destruct l; [|simpl in E; destruct (dates_min l); discriminate].
    split; [now left|]. intros d [<-|[]]. apply ts_leb_refl.
Qed.

Lemma dates_max_spec (l : list Timestamp) (m : Timestamp) :
  dates_max l = Some m ->
  In m l /\ forall d, In d l -> ts_leb d m = true.
Proof.
  revert m. induction l as [|t l IH]; simpl; intros m; [discriminate|].
  destruct (dates_max l) as [m'|] eqn:E.
  - destruct (IH m' eq_refl) as [Hin Hle]. intros [= <-].
    destruct (ts_leb m' t) eqn:Et.
    + split; [now left|]. intros d [<-|Hd]; [apply ts_leb_refl|].
      eapply ts_leb_trans; [now apply Hle | exact Et].
    + split; [now right|]. intros d [<-|Hd]; [now apply ts_leb_total | now apply Hle].
  - intros [= <-]. destruct l; [|simpl in E; destruct (dates_max l); discriminate].
    split; [now left|]. intros d [<-|[]]. apply ts_leb_refl.
Qed.

(** The bounds that [load] returns with a table that has rows are dates
    of the table, and every date of the table lies between them; with a
    table without rows both are NaT. *)
Theorem date_bounds_enclose_the_table {libraries : Libraries}
  (src : RawFrame) (res : LoadResult) :
  load src = OK res ->
  match min_date res, max_date res with
  | Some lo, Some hi =>
      In lo (map (fun r : Row => date r) (df res)) /\
      In hi (map (fun r : Row => date r) (df res)) /\
      forall r, In r (df res) ->
        ts_leb lo (date r) = true /\ ts_leb (date r) hi = true
  | None, None => df res = [] /\ raw_rows src = []
  | _, _ => False
  end.
Proof.
  intros H. destruct (load_table src res H) as [_ [Hdf [Hmin Hmax]]].
  rewrite Hmin, Hmax.
  destruct (df res) as [|r0 table] eqn:E.
  - simpl. split; [reflexivity|].
    destruct (raw_rows src); [reflexivity | discriminate].
  - destruct (dates_min (map (fun r : Row => date r) (r0 :: table))) as [lo|] eqn:Elo.
    2:{ simpl in Elo. destruct (dates_min _); discriminate. }
    destruct (dates_max (map (fun r : Row => date r) (r0 :: table))) as [hi|] eqn:Ehi.
    2:{ simpl in Ehi. destruct (dates_max _); discriminate. }
    destruct (dates_min_spec _ _ Elo) as [Hlo Hle].
    destruct (dates_max_spec _ _ Ehi) as [Hhi Hge].
    split; [exact Hlo|]. split; [exact Hhi|].
    intros r Hr. split; [apply Hle | apply Hge];
      apply in_map_iff; now exists r.
Qed.

Lemma date_bounds_enclose_the_table_witness :
  exists res,
    sample_load (source_of [other_row; good_row]) = OK res /\
    min_date res = Some {| ts_year := 2023; ts_month := 1; ts_day := 5; ts_time := 0 |} /\
    max_date res = Some {| ts_year := 2023; ts_month := 8; ts_day := 17; ts_time := 0 |} /\
    forall r, In r (df res) ->
      ts_leb {| ts_year := 2023; ts_month := 1; ts_day := 5; ts_time := 0 |}
             (date r) = true /\
      ts_leb (date r)
             {| ts_year := 2023; ts_month := 8; ts_day := 17; ts_time := 0 |} = true.
Proof.
  eexists. split; [reflexivity|].
  split; [reflexivity|]. split; [reflexivity|].
  exact (proj2 (proj2 (date_bounds_enclose_the_table (libraries := sample_libraries)
                         (source_of [other_row; good_row]) _ eq_refl))).
Defined.

(** *** Quarter and month: the cell first, the date last *)

Lemma dt_quarter_range (t : Timestamp) :
  1 <= ts_month t <= 12 -> 1 <= dt_quarter t <= 4.
Proof.
  intros H. unfold dt_quarter.
  assert (0 <= (ts_month t - 1) / 3) by (apply Z.div_pos; lia).
  assert ((ts_month t - 1) / 3 < 4) by (apply Z.div_lt_upper_bound; lia).
  lia.
Qed.

(** A quarter or month cell that reads as a number is taken as it is,
    whatever the date says; an empty cell is filled from the date, and then
    it passes the range gate as soon as the date's month is in 1..12. *)
Theorem quarter_and_month_reading {libraries : Libraries}
  (r : RawRow) (t : Timestamp) :
  (forall q, to_numeric (Quarter r) = Some q -> quarter_of r t = Some q) /\
  (forall m, to_numeric (Month r) = Some m -> month_of r t = Some m) /\
  (Quarter r = CNaN -> quarter_of r t = Some ((ts_month t - 1) / 3 + 1)) /\
  (Month r = CNaN -> month_of r t = Some (ts_month t)) /\
  (1 <= ts_month t <= 12 -> Quarter r = CNaN -> Month r = CNaN ->
     bad_q (r, t) = false /\ bad_m (r, t) = false).
Proof.
  assert (Hq : Quarter r = CNaN -> quarter_of r t = Some (dt_quarter t)).
  { intros H. unfold quarter_of. now rewrite H. }
  assert (Hm : Month r = CNaN -> month_of r t = Some (ts_month t)).
  { intros H. unfold month_of. now rewrite H. }
  split; [intros q H; unfold quarter_of; now rewrite H|].
  split; [intros m H; unfold month_of; now rewrite H|].
  split; [exact Hq|]. split; [exact Hm|].
  intros Hrange HQ HM. unfold bad_q, bad_m. cbn [fst snd].
  rewrite (Hq HQ), (Hm HM). simpl.
  pose proof (dt_quarter_range t Hrange) as Hd.
  rewrite !negb_false_iff, !andb_true_iff, !Z.leb_le. lia.
Qed.

(** *** The row key and its separator *)

Lemma append_assoc (a b c : string) : ((a ++ b) ++ c)%string = (a ++ b ++ c)%string.
Proof. induction a as [|x a IH]; simpl; [reflexivity | now rewrite IH]. Qed.

Lemma length_append (a b : string) :
  String.length (a ++ b) = (String.length a + String.length b)%nat.
Proof. induction a as [|x a IH]; simpl; [reflexivity | now rewrite IH]. Qed.

(** The row key does not escape its separator.  Two rows that differ in
    their country and media_category cells, and agree elsewhere, get the
    same key, hence the same row_id, when one country cell continues after
    the other's text with "|media_category=" and what the other row has in
    front of that same text in its media_category cell. *)
Theorem row_key_does_not_escape_the_separator {libraries : Libraries}
  (r : DerivedRow) (x y z : string) :
  let a := with_country_and_category
             (CStr (x ++ "|media_category=" ++ y)) (CStr z) r in
  let b := with_country_and_category
             (CStr x) (CStr (y ++ "|media_category=" ++ z)) r in
  ~ same_identity a b /\
  row_key a = row_key b /\
  row_id (identified a) = row_id (identified b).
Proof.
  intros a b.
  assert (Hkey : row_key a = row_key b).
  { unfold row_key, hashed_values. subst a b. cbn.
    rewrite !append_assoc. cbn. reflexivity. }
  split; [|split; [exact Hkey|]].
  - intros [_ [_ [_ [_ [_ [Hc _]]]]]]. subst a b. cbn in Hc.
    injection Hc as Hc.
    apply (f_equal String.length) in Hc. rewrite length_append in Hc.
    simpl in Hc. lia.
  - unfold identified. cbn [row_id]. now rewrite Hkey.
Qed.

End LoaderTheory.
(** ** The engine on a loaded table *)

Module PipelineTheory.

Import Plan Engine Loader.
Local Open Scope string_scope.
Local Open Scope list_scope.
Local Open Scope Z_scope.


Lemma loaded_quarter {libraries : Libraries} (src : RawFrame) (res : LoadResult)
  (r : Row) :
  load src = OK res -> In r (df res) -> exists q, quarter r = Some q /\ 1 <= q <= 4.
Proof.
  intros H Hr. destruct (LoaderTheory.load_table src res H) as [Hok [Hdf _]].
  rewrite Hdf in Hr. apply in_map_iff in Hr. destruct Hr as [raw [<- Hraw]].
  rewrite forallb_forall in Hok.
  destruct (LoaderTheory.row_ok_gates raw (Hok raw Hraw)) as [Hq _].
  now apply LoaderTheory.between_Some.
Qed.



(** The quarter of a plan is not checked against 1..4: on a table that
    [load] returned, a [quarter] time range with a quarter outside 1..4 is
    not an error, it selects no row. *)
Theorem quarter_outside_range_selects_nothing
  {libraries : Libraries} {pandas : Pandas}
  (src : RawFrame) (res : LoadResult) (plan : QueryPlan) (y q : Z) :
  load src = OK res ->
  tr_type (time_range plan) = T_quarter ->
  tr_year (time_range plan) = Some y ->
  tr_quarter (time_range plan) = Some q ->
  q < 1 \/ 4 < q ->
  _apply_time_range (df res) plan = OK [].
Proof.
  intros H Ht Hy Hq Hout. unfold _apply_time_range. rewrite Ht, Hy, Hq.
  f_equal. apply EngineTheory.filter_false. intros r Hr.
  destruct (loaded_quarter src res r H Hr) as [q' [Hq' Hrange]].
  rewrite Hq'. simpl.
  destruct (Z.eqb_spec q' q); [lia|]. apply andb_false_r.
Qed.

Lemma quarter_outside_range_selects_nothing_witness :
  exists res,
    sample_load (source_of [good_row; other_row]) = OK res /\
    _apply_time_range (pandas := pandas_stable) (df res)
      (plan_of I_aggregate [M_revenue] []
         {| tr_type := T_quarter; tr_year := Some 2023; tr_quarter := Some 7;
            tr_n_years := None |}) = OK [].
Proof.
  eexists. split; [reflexivity|].
  apply (quarter_outside_range_selects_nothing (libraries := sample_libraries)
           (pandas := pandas_stable) (source_of [good_row; other_row]) _
           (plan_of I_aggregate [M_revenue] []
              {| tr_type := T_quarter; tr_year := Some 2023; tr_quarter := Some 7;
                 tr_n_years := None |})
           2023 7 eq_refl eq_refl eq_refl eq_refl).
  right. lia.
Defined.

End PipelineTheory.
(** ** Python text: strip and lower *)

Module TextTheory.

Import Text.
Local Open Scope string_scope.

Lemma mem_In (x : string) (words : list string) : mem x words = true <-> In x words.
Proof.
  unfold mem. rewrite existsb_exists. split.
  - intros [y [Hy E]]. apply String.eqb_eq in E. now subst.
  - intros H. exists x. split; [exact H | apply String.eqb_refl].
Qed.

Lemma isspace_lower_char (c : ascii) : isspace (lower_char c) = isspace c.
Proof.
  destruct c as [b0 b1 b2 b3 b4 b5 b6 b7].
  destruct b0, b1, b2, b3, b4, b5, b6, b7; reflexivity.
Qed.

Lemma lower_append (a b : string) : lower (a ++ b) = lower a ++ lower b.
Proof. induction a as [|c a IH]; simpl; [reflexivity | now rewrite IH]. Qed.

Lemma blank_lower (s : string) : blank (lower s) = blank s.
Proof.
  induction s as [|c s IH]; simpl; [reflexivity|].
  now rewrite isspace_lower_char, IH.
Qed.

Lemma lower_lstrip (s : string) : lower (lstrip s) = lstrip (lower s).
Proof.
  induction s as [|c s IH]; simpl; [reflexivity|].
  rewrite isspace_lower_char. now destruct (isspace c).
Qed.

Lemma lower_rstrip (s : string) : lower (rstrip s) = rstrip (lower s).
Proof.
  induction s as [|c s IH]; simpl; [reflexivity|].
  rewrite <- IH, isspace_lower_char.
  destruct (rstrip s); simpl; [now destruct (isspace c) | reflexivity].
Qed.

Lemma lower_strip (s : string) : lower (strip s) = strip (lower s).
Proof. unfold strip. now rewrite lower_rstrip, lower_lstrip. Qed.

Lemma lstrip_blank_app (pre s : string) :
  blank pre = true -> lstrip (pre ++ s) = lstrip s.
Proof.
  induction pre as [|c pre IH]; simpl; [reflexivity|].
  intros H. apply andb_prop in H. destruct H as [Hc Hpre].
  rewrite Hc. now apply IH.
Qed.

Lemma rstrip_blank (s : string) : blank s = true -> rstrip s = "".
Proof.
  induction s as [|c s IH]; simpl; [reflexivity|].
  intros H. apply andb_prop in H. destruct H as [Hc Hs].
  now rewrite (IH Hs), Hc.
Qed.

Lemma rstrip_app_blank (s post : string) :
  blank post = true -> rstrip (s ++ post) = rstrip s.
Proof.
  intros H. induction s as [|c s IH]; simpl; [now apply rstrip_blank|].
  now rewrite IH.
Qed.

Lemma lstrip_decompose (s : string) :
  exists pre, blank pre = true /\ s = pre ++ lstrip s.
Proof.
  induction s as [|c s [pre [Hpre IH]]]; simpl.
  - now exists "".
  - destruct (isspace c) eqn:E.
    + exists (String c pre). simpl. rewrite E, Hpre. split; [reflexivity|].
      now rewrite <- IH.
    + now exists "".
Qed.

Lemma rstrip_decompose (s : string) :
  exists post, blank post = true /\ s = rstrip s ++ post.
Proof.
  induction s as [|c s [post [Hpost IH]]]; simpl.
  - now exists "".
  - destruct (rstrip s) as [|d kept] eqn:E.
    + simpl in IH. destruct (isspace c) eqn:Ec.
      * exists (String c post). simpl. rewrite Ec, Hpost.
        split; [reflexivity | now rewrite <- IH].
      * exists post. split; [exact Hpost | simpl; now rewrite <- IH].
    + exists post. split; [exact Hpost | simpl in IH |- *; now rewrite <- IH].
Qed.

Lemma strip_decompose (s : string) :
  exists pre post,
    blank pre = true /\ blank post = true /\ s = pre ++ strip s ++ post.
Proof.
  destruct (lstrip_decompose s) as [pre [Hpre Hs]].
  destruct (rstrip_decompose (lstrip s)) as [post [Hpost Hl]].
  exists pre, post. split; [exact Hpre|]. split; [exact Hpost|].
  unfold strip. now rewrite <- Hl.
Qed.

End TextTheory.

(** ** The local commands *)

Module CommandsTheory.

Import Text Commands.
Local Open Scope string_scope.

(** The word of a padded command, put back by [strip] and [lower]. *)
Lemma padded_word (pre word post : string) :
  blank pre = true -> blank post = true ->
  lower (strip (pre ++ word ++ post)) =
  rstrip (lstrip (lower word ++ lower post)).
Proof.
  intros Hpre Hpost.
  rewrite TextTheory.lower_strip, !TextTheory.lower_append. unfold strip.
  rewrite TextTheory.lstrip_blank_app; [reflexivity|].
  now rewrite TextTheory.blank_lower.
Qed.

(** [is_exit_command] holds exactly for one of the four exit words, in any
    letter case, with any white space before and after it; and a text that
    is an exit command is neither a reset nor a help command. *)
Theorem exit_command_up_to_padding_and_case (text : string) :
  (is_exit_command text = true <->
   exists pre word post,
     text = pre ++ word ++ post /\ blank pre = true /\ blank post = true /\
     In (lower word) _EXIT_COMMANDS) /\
  (is_exit_command text = true ->
   is_reset_command text = false /\ is_help_command text = false).
Proof.
  unfold is_exit_command, is_reset_command, is_help_command.
  split; [split|].
  - intros H. apply TextTheory.mem_In in H.
    destruct (TextTheory.strip_decompose text) as [pre [post [Hpre [Hpost Ht]]]].
    now exists pre, (strip text), post.
  - intros [pre [word [post [-> [Hpre [Hpost Hin]]]]]].
    rewrite (padded_word pre word post Hpre Hpost).
    assert (Hb : blank (lower post) = true) by now rewrite TextTheory.blank_lower.
    simpl in Hin.
    destruct Hin as [<-|[<-|[<-|[<-|[]]]]];
      match goal with
      | |- mem (rstrip (lstrip (?w ++ ?p))) _ = true =>
          change (lstrip (w ++ p)) with (w ++ p);
          rewrite (TextTheory.rstrip_app_blank w p Hb); reflexivity
      end.
  - intros H. apply TextTheory.mem_In in H. simpl in H.
    destruct H as [<-|[<-|[<-|[<-|[]]]]]; split; reflexivity.
Qed.

End CommandsTheory.

(** ** The chat memory *)

Module MemoryTheory.

Import Text Memory.
Local Open Scope string_scope.
Local Open Scope list_scope.
Local Open Scope Z_scope.

Lemma last_n_all {A} (n : nat) (l : list A) :
  (List.length l <= n)%nat -> last_n n l = l.
Proof.
  intros H. unfold last_n.
  replace (List.length l - n)%nat with O by lia. reflexivity.
Qed.

Lemma length_last_n {A} (n : nat) (l : list A) :
  List.length (last_n n l) = Nat.min n (List.length l).
Proof. unfold last_n. rewrite length_skipn. lia. Qed.

Lemma last_n_last_n {A} (a b : nat) (l : list A) :
  last_n a (last_n b l) = last_n (Nat.min a b) l.
Proof.
  unfold last_n. rewrite length_skipn, skipn_skipn. f_equal. lia.
Qed.

Lemma slice_from_last_n {A} (n : Z) (l : list A) :
  1 <= n -> slice_from (- n) l = last_n (Z.to_nat n) l.
Proof.
  intros H. unfold slice_from, last_n.
  destruct (Z.ltb_spec (- n) 0); [|lia].
  now rewrite Z.opp_involutive.
Qed.

Lemma last_n_app {A} (n : nat) (pre l : list A) :
  (n <= List.length l)%nat -> last_n n (pre ++ l) = last_n n l.
Proof.
  intros H. unfold last_n. rewrite length_app, skipn_app.
  rewrite skipn_all2 by lia. simpl. f_equal. lia.
Qed.

Lemma pushed_is_last_n (bound : Z) (buffer : list string) (t : string) :
  1 <= bound -> pushed bound buffer t = last_n (Z.to_nat bound) (buffer ++ [t]).
Proof.
  intros H. unfold pushed.
  destruct (Z.gtb_spec (Z.of_nat (List.length (buffer ++ [t]))) bound).
  - now apply slice_from_last_n.
  - symmetry. apply last_n_all. lia.
Qed.

(** A push onto the last [bound] of a list gives the last [bound] of the
    list with one more element. *)
Lemma pushed_last_n (bound : Z) (all : list string) (t : string) :
  1 <= bound ->
  pushed bound (last_n (Z.to_nat bound) all) t =
  last_n (Z.to_nat bound) (all ++ [t]).
Proof.
  intros H. rewrite pushed_is_last_n by exact H.
  destruct (Nat.le_gt_cases (Z.to_nat bound) (List.length all)) as [Hfull|Hroom].
  - replace (all ++ [t])
      with (firstn (List.length all - Z.to_nat bound) all ++
            (last_n (Z.to_nat bound) all ++ [t])).
    + rewrite (last_n_app _ (firstn (List.length all - Z.to_nat bound) all));
        [reflexivity|].
      rewrite length_app, length_last_n. simpl. lia.
    + unfold last_n. now rewrite app_assoc, firstn_skipn.
  - now rewrite (last_n_all _ all) by lia.
Qed.

Lemma pushes_last_n (bound : Z) (all texts : list string) :
  1 <= bound ->
  fold_left (pushed bound) texts (last_n (Z.to_nat bound) all) =
  last_n (Z.to_nat bound) (all ++ texts).
Proof.
  intros H. revert all. induction texts as [|t texts IH]; intros all; simpl.
  - now rewrite app_nil_r.
  - rewrite pushed_last_n by exact H. rewrite IH. now rewrite <- app_assoc.
Qed.

Lemma pushes_from_empty (bound : Z) (texts : list string) :
  1 <= bound ->
  fold_left (pushed bound) texts [] = last_n (Z.to_nat bound) texts.
Proof. intros H. exact (pushes_last_n bound [] texts H). Qed.

Lemma after_turns_buffers (turns : list (string * string)) (m : ChatMemory) :
  max_user (after_turns turns m) = max_user m /\
  max_bot (after_turns turns m) = max_bot m /\
  user_messages (after_turns turns m) =
    fold_left (pushed (max_user m)) (map fst turns) (user_messages m) /\
  bot_messages (after_turns turns m) =
    fold_left (pushed (max_bot m)) (map snd turns) (bot_messages m).
Proof.
  unfold after_turns. revert m.
  induction turns as [|[q a] turns IH]; intros m; simpl; [auto|].
  destruct (IH (push_bot a (push_user q m))) as [H1 [H2 [H3 H4]]].
  rewrite H1, H2, H3, H4. auto.
Qed.

(** With bounds of at least 1, each buffer of the memory holds the latest
    messages pushed to it, as many as its bound allows and in the order
    they came. *)
Theorem memory_keeps_the_latest (bound_user bound_bot : Z)
  (turns : list (string * string)) :
  1 <= bound_user -> 1 <= bound_bot ->
  user_messages (after_turns turns (new bound_user bound_bot)) =
    last_n (Z.to_nat bound_user) (map fst turns) /\
  bot_messages (after_turns turns (new bound_user bound_bot)) =
    last_n (Z.to_nat bound_bot) (map snd turns) /\
  Z.of_nat (List.length (user_messages (after_turns turns (new bound_user bound_bot))))
    <= bound_user /\
  Z.of_nat (List.length (bot_messages (after_turns turns (new bound_user bound_bot))))
    <= bound_bot.
Proof.
  intros Hu Hb.
  destruct (after_turns_buffers turns (new bound_user bound_bot)) as [_ [_ [Hum Hbm]]].
  cbn [new max_user max_bot user_messages bot_messages] in Hum, Hbm.
  rewrite Hum, Hbm.
  rewrite (pushes_from_empty bound_user (map fst turns) Hu).
  rewrite (pushes_from_empty bound_bot (map snd turns) Hb).
  rewrite !length_last_n. repeat split; lia.
Qed.

Lemma memory_keeps_the_latest_witness :
  user_messages (after_turns [("q1", "a1"); ("q2", "a2"); ("q3", "a3")] (new 2 1)) =
    ["q2"; "q3"] /\
  bot_messages (after_turns [("q1", "a1"); ("q2", "a2"); ("q3", "a3")] (new 2 1)) =
    ["a3"].
Proof.
  destruct (memory_keeps_the_latest 2 1 [("q1", "a1"); ("q2", "a2"); ("q3", "a3")])
    as [Hu [Hb _]]; [lia | lia |].
  split; [exact Hu | exact Hb].
Defined.

Lemma after_user_messages_buffer (texts : list string) (m : ChatMemory) :
  user_messages (after_user_messages texts m) =
  fold_left (pushed (max_user m)) texts (user_messages m).
Proof.
  unfold after_user_messages. revert m.
  induction texts as [|t texts IH]; intros m; cbn [fold_left];
    [reflexivity | rewrite IH; reflexivity].
Qed.

Lemma after_bot_messages_buffer (texts : list string) (m : ChatMemory) :
  bot_messages (after_bot_messages texts m) =
  fold_left (pushed (max_bot m)) texts (bot_messages m).
Proof.
  unfold after_bot_messages. revert m.
  induction texts as [|t texts IH]; intros m; cbn [fold_left];
    [reflexivity | rewrite IH; reflexivity].
Qed.

(** A bound below 1 does not bound the memory as meant: with the bound 0 no
    message is ever dropped, and with a negative bound none is ever kept. *)
Theorem memory_bounds_below_one (bound : Z) (texts : list string) :
  (bound = 0 ->
     user_messages (after_user_messages texts (new bound bound)) = texts /\
     bot_messages (after_bot_messages texts (new bound bound)) = texts) /\
  (bound < 0 ->
     user_messages (after_user_messages texts (new bound bound)) = [] /\
     bot_messages (after_bot_messages texts (new bound bound)) = []).
Proof.
  rewrite after_user_messages_buffer, after_bot_messages_buffer.
  cbn [new max_user max_bot user_messages bot_messages].
  split.
  - intros ->.
    assert (H : forall buf, fold_left (pushed 0) texts buf = buf ++ texts).
    { induction texts as [|t texts IH]; intros buf; simpl; [now rewrite app_nil_r|].
      rewrite IH. unfold pushed. rewrite length_app. cbn [List.length].
      destruct (Z.gtb_spec (Z.of_nat (List.length buf + 1)) 0); [|lia].
      cbn. now rewrite <- app_assoc. }
    now rewrite H.
  - intros Hneg.
    assert (H : fold_left (pushed bound) texts [] = []).
    { induction texts as [|t texts IH]; simpl; [reflexivity|].
      unfold pushed at 2. cbn [app List.length].
      destruct (Z.gtb_spec (Z.of_nat 1) bound); [|lia].
      unfold slice_from. destruct (Z.ltb_spec (- bound) 0); [lia|].
      rewrite skipn_all2 by (simpl; lia). exact IH. }
    now rewrite H.
Qed.

(** *** The history text *)

Lemma combine_turns (turns : list (string * string)) (q : string) :
  combine (map fst turns ++ [q]) (map snd turns) = turns.
Proof.
  induction turns as [|[u b] turns IH]; simpl; [reflexivity | now rewrite IH].
Qed.

(** The history text pairs the i-th kept question with the i-th kept
    answer.  In a conversation the question of the current turn is pushed
    before the history is built, so the question buffer is one message
    ahead: as long as fewer turns than the window (the smaller of the bound
    and [max_turns]) have been completed, the pairs are the completed turns;
    from then on every pair holds an answer with the question that came
    after it, the last pair being the current question with the answer to
    the one before. *)
Theorem history_shifts_once_the_buffers_are_full
  (bound max_turns : Z) (turns : list (string * string)) (q : string) :
  1 <= bound -> 1 <= max_turns ->
  let m := push_user q (after_turns turns (new bound bound)) in
  let window := Z.to_nat (Z.min bound max_turns) in
  let n := List.length turns in
  history_string max_turns m =
    String.concat (LF ++ LF) (map paired_turn (history_pairs max_turns m)) /\
  ((n < window)%nat -> history_pairs max_turns m = turns) /\
  ((window <= n)%nat ->
     List.length (history_pairs max_turns m) = window /\
     forall i, (i < window)%nat ->
       nth i (history_pairs max_turns m) ("", "") =
       (nth (n + 1 - window + i) (map fst turns ++ [q]) "",
        nth (n - window + i) (map snd turns) "")).
Proof.
  intros Hb Ht m window n.
  split; [reflexivity|].
  destruct (memory_keeps_the_latest bound bound turns Hb Hb) as [Hu [Hbm _]].
  assert (Hpairs : history_pairs max_turns m =
            combine (last_n window (map fst turns ++ [q]))
                    (last_n window (map snd turns))).
  { unfold history_pairs. subst m. cbn [push_user user_messages bot_messages].
    destruct (after_turns_buffers turns (new bound bound)) as [Hmax _].
    rewrite Hmax. cbn [new max_user].
    rewrite Hu, Hbm, pushed_last_n by exact Hb.
    rewrite !slice_from_last_n by exact Ht.
    rewrite !last_n_last_n.
    subst window. rewrite Z2Nat.inj_min, Nat.min_comm. reflexivity. }
  rewrite Hpairs.
  assert (Hlu : List.length (map fst turns ++ [q]) = S n)
    by (rewrite length_app, length_map; simpl; lia).
  assert (Hlb : List.length (map snd turns) = n) by apply length_map.
  split.
  - intros Hn. rewrite !last_n_all by lia. apply combine_turns.
  - intros Hn. split.
    + rewrite length_combine, !length_last_n. lia.
    + intros i Hi. rewrite combine_nth by (rewrite !length_last_n; lia).
      unfold last_n. rewrite !nth_skipn, Hlu, Hlb.
      f_equal; f_equal; lia.
Qed.

Lemma history_shifts_once_the_buffers_are_full_witness :
  history_pairs 5 (push_user "q3" (after_turns [("q1", "a1"); ("q2", "a2")] (new 2 2))) =
    [("q2", "a1"); ("q3", "a2")] /\
  history_pairs 5 (push_user "q2" (after_turns [("q1", "a1")] (new 2 2))) =
    [("q1", "a1")].
Proof.
  split.
  - reflexivity.
  - destruct (history_shifts_once_the_buffers_are_full 2 5 [("q1", "a1")] "q2")
      as [_ [Hfew _]]; [lia | lia |].
    apply Hfew. simpl. lia.
Defined.

End MemoryTheory.
(** ** Settings and the login gate *)

Module AuthTheory.

Import Text Auth.
Local Open Scope string_scope.
Local Open Scope list_scope.
Local Open Scope Z_scope.

(** *** The switch *)

(** Authentication is on unless ENABLE_AUTH switches it off, and any text
    but true, 1, yes, y and on (in any letter case, with white space
    around) switches it off, a misspelt "true" and the empty text included;
    [maybe_login] then lets the session start without reading the users
    file or asking for anything. *)
Theorem any_other_text_switches_auth_off
  {builtins : Config.Builtins} {libraries : Libraries}
  (environ : Config.Environ) :
  (Config.enable_auth (Config.from_env environ) = false <->
   exists raw, environ "ENABLE_AUTH" = Some raw /\
               ~ In (lower (strip raw)) Config.truthy_words) /\
  (Config.enable_auth (Config.from_env environ) = false ->
   forall files answers,
     maybe_login (Config.from_env environ) files answers = (true, answers)).
Proof.
  split.
  - cbn [Config.from_env Config.enable_auth]. unfold Config._get_bool.
    destruct (environ "ENABLE_AUTH") as [raw|].
    + rewrite <- not_true_iff_false, TextTheory.mem_In. split.
      * intros H. now exists raw.
      * intros [raw' [[= <-] H]]. exact H.
    + split; [discriminate | intros [raw [H _]]; discriminate].
  - intros H files answers. unfold maybe_login, login, auth_config.
    cbn [enabled]. now rewrite H.
Qed.

(** *** The stored users *)

Lemma normalized_users_nil {libraries : Libraries} (users : list Yaml) :
  normalized_users users = [] <-> forall u, In u users -> ~ usable_entry u.
Proof.
  induction users as [|u users IH].
  - simpl. split; [intros _ u [] | reflexivity].
  - assert (Hskip : ~ usable_entry u ->
              (normalized_users users = [] <->
               forall v, In v (u :: users) -> ~ usable_entry v)).
    { intros Hn. rewrite IH. split.
      - intros H v [<-|Hv]; [exact Hn | now apply H].
      - intros H v Hv. apply H. now right. }
    destruct u as [|b|z|s|items|entries|truth text]; cbn [normalized_users];
      try (apply Hskip; intros [e [E _]]; discriminate).
    destruct (String.eqb_spec (strip (str (get "username" (YStr "") entries))) "")
      as [En|En]; cbn [negb andb].
    + apply Hskip. intros [e [[= <-] [Hn _]]]. now apply Hn.
    + destruct (String.eqb_spec
                  (strip (str (get "password_hash" (YStr "") entries))) "")
        as [Eh|Eh]; cbn [negb].
      * apply Hskip. intros [e [[= <-] [_ Hh]]]. now apply Hh.
      * split; [discriminate|].
        intros H. exfalso. apply (H (YMap entries)); [now left|].
        now exists entries.
Qed.

Lemma _load_users_nil {libraries : Libraries} (file : File) :
  (forall entries users u,
     file = Parsed (YMap entries) ->
     get "users" (YSeq []) entries = YSeq users ->
     In u users -> ~ usable_entry u) ->
  _load_users file = [].
Proof.
  intros H. destruct file as [| |loaded]; [reflexivity | reflexivity|].
  unfold _load_users.
  destruct loaded as [|b|z|s|items|entries|truth text]; cbn [truthy].
  - reflexivity.
  - now destruct b.
  - now destruct (z =? 0).
  - now destruct (String.eqb s "").
  - now destruct items.
  - assert (Hget : match get "users" (YSeq []) entries with
                   | YSeq users => normalized_users users
                   | _ => []
                   end = []).
    { destruct (get "users" (YSeq []) entries) eqn:E; try reflexivity.
      apply normalized_users_nil. intros u Hu.
      now apply (H entries items u). }
    destruct entries; [reflexivity | exact Hget].
  - now destruct truth.
Qed.

(** With authentication on, [login] refuses, before asking for anything,
    whenever the users file is missing, cannot be read, is not a mapping
    with a list under "users", or lists no entry with a non-empty username
    and a non-empty password_hash. *)
Theorem login_fails_closed {libraries : Libraries}
  (cfg : AuthConfig) (files : string -> File) (answers : list Answer) :
  enabled cfg = true ->
  (forall entries users u,
     files (users_file cfg) = Parsed (YMap entries) ->
     get "users" (YSeq []) entries = YSeq users ->
     In u users -> ~ usable_entry u) ->
  login cfg files answers = (false, answers).
Proof.
  intros He H. unfold login. rewrite He. cbn [negb].
  now rewrite (_load_users_nil _ H).
Qed.

Lemma login_fails_closed_witness :
  login (libraries := sample_libraries) (auth_config true "users.yaml")
        (fun _ => Missing) [Typed "demo"; Typed "open sesame"] =
    (false, [Typed "demo"; Typed "open sesame"]) /\
  login (libraries := sample_libraries) (auth_config true "users.yaml")
        (fun _ => sample_users_file) [Typed "demo"; Typed "open sesame"] =
    (true, []).
Proof.
  split; [|reflexivity].
  apply (login_fails_closed (libraries := sample_libraries)
           (auth_config true "users.yaml") (fun _ => Missing)); [reflexivity|].
  intros entries users u H. discriminate.
Defined.

(** *** The credentials *)

(** The first stored entry with the given username decides, by its hash
    alone: entries further down the list with the same username are never
    tried, and a check that raises counts as a refusal; a username that no
    entry carries is refused. *)
Theorem the_first_entry_of_a_name_decides {libraries : Libraries}
  (before after : list User) (u : User) (password : string) :
  Forall (fun v => username v <> username u) before ->
  _check_credentials (before ++ u :: after) (username u) password =
    match checkpw password (password_hash u) with
    | Some ok => ok
    | None => false
    end /\
  _check_credentials before (username u) password = false.
Proof.
  induction 1 as [|v before Hv _ [IH1 IH2]]; simpl.
  - rewrite String.eqb_refl. auto.
  - destruct (String.eqb_spec (username v) (username u)); [contradiction|].
    simpl. auto.
Qed.

Lemma the_first_entry_of_a_name_decides_witness :
  _check_credentials (libraries := sample_libraries)
    (_load_users (libraries := sample_libraries) sample_users_file)
    "demo" "second" = false /\
  _check_credentials (libraries := sample_libraries)
    (_load_users (libraries := sample_libraries) sample_users_file)
    "demo" "open sesame" = true.
Proof.
  split.
  - exact (proj1 (the_first_entry_of_a_name_decides (libraries := sample_libraries)
             [] [{| username := "demo"; password_hash := "second" |}]
             {| username := "demo"; password_hash := "open sesame" |} "second"
             (Forall_nil _))).
  - reflexivity.
Defined.

(** *** The attempts *)

Lemma attempts_refused {libraries : Libraries}
  (users : list User) (pairs : list (string * string)) (n : nat)
  (rest : list Answer) :
  forallb (fun p => negb (accepted users p)) pairs = true ->
  (List.length pairs <= n)%nat ->
  attempts n users (typed_pairs pairs ++ rest) =
  attempts (n - List.length pairs) users rest.
Proof.
  revert n. induction pairs as [|[name password] pairs IH]; intros n Hall Hlen.
  - simpl. now rewrite Nat.sub_0_r.
  - simpl in Hall, Hlen. apply andb_prop in Hall. destruct Hall as [Hp Hall].
    destruct n as [|n]; [lia|].
    cbn [typed_pairs flat_map fst snd app attempts List.length].
    unfold accepted in Hp. cbn [fst snd] in Hp.
    apply negb_true_iff in Hp. rewrite Hp.
    apply (IH n Hall). lia.
Qed.

(** With authentication on and users stored, [login] reads at most
    [max_attempts] pairs of a name and a password.  After that many refused
    pairs it refuses and leaves the rest unread, whatever it holds; a pair
    that is accepted before that lets the session start.  The name is taken
    without the white space around it, the password as typed. *)
Theorem login_reads_at_most_max_attempts {libraries : Libraries}
  (cfg : AuthConfig) (files : string -> File)
  (pairs : list (string * string)) (rest : list Answer) :
  enabled cfg = true ->
  _load_users (files (users_file cfg)) <> [] ->
  forallb (fun p => negb (accepted (_load_users (files (users_file cfg))) p))
          pairs = true ->
  (Z.of_nat (List.length pairs) = max_attempts cfg ->
     login cfg files (typed_pairs pairs ++ rest) = (false, rest)) /\
  (Z.of_nat (List.length pairs) < max_attempts cfg ->
     forall name password,
       accepted (_load_users (files (users_file cfg))) (name, password) = true ->
       login cfg files (typed_pairs pairs ++ Typed name :: Typed password :: rest) =
         (true, rest)).
Proof.
  intros He Hu Hall. unfold login. rewrite He. cbn [negb].
  destruct (_load_users (files (users_file cfg))) as [|u0 users] eqn:E; [congruence|].
  split.
  - intros Hlen. rewrite attempts_refused by (auto; lia).
    replace (Z.to_nat (max_attempts cfg) - List.length pairs)%nat with O by lia.
    reflexivity.
  - intros Hlen name password Hok.
    rewrite attempts_refused by (auto; lia).
    destruct (Z.to_nat (max_attempts cfg) - List.length pairs)%nat as [|k] eqn:Ek;
      [lia|].
    cbn [attempts]. unfold accepted in Hok. cbn [fst snd] in Hok.
    now rewrite Hok.
Qed.

Lemma login_reads_at_most_max_attempts_witness :
  login (libraries := sample_libraries) (auth_config true "users.yaml")
    (fun _ => sample_users_file)
    (typed_pairs [("demo", "a"); ("demo", "b"); ("demo", "second")] ++
     [Typed "demo"; Typed "open sesame"]) =
    (false, [Typed "demo"; Typed "open sesame"]) /\
  login (libraries := sample_libraries) (auth_config true "users.yaml")
    (fun _ => sample_users_file)
    (typed_pairs [("demo", "a")] ++ [Typed " demo "; Typed "open sesame"]) =
    (true, []).
Proof.
  split.
  - apply (login_reads_at_most_max_attempts (libraries := sample_libraries)
             (auth_config true "users.yaml") (fun _ => sample_users_file)
             [("demo", "a"); ("demo", "b"); ("demo", "second")]
             [Typed "demo"; Typed "open sesame"]);
      [reflexivity | discriminate | reflexivity | reflexivity].
  - apply (login_reads_at_most_max_attempts (libraries := sample_libraries)
             (auth_config true "users.yaml") (fun _ => sample_users_file)
             [("demo", "a")] []);
      [reflexivity | discriminate | reflexivity | reflexivity | reflexivity].
Defined.

End AuthTheory.
(** ** The router *)

Module RouterTheory.

Import Text Router.
Local Open Scope list_scope.
Local Open Scope string_scope.

(** *** Texts *)

Lemma append_nil_r (s : string) : s ++ "" = s.
Proof. induction s as [|c s IH]; simpl; [reflexivity | now rewrite IH]. Qed.

Lemma append_eq_nil (s t : string) : s ++ t = "" -> t = "".
Proof. destruct s; [auto | discriminate]. Qed.

Lemma rstrip_app_kept (s t : string) :
  rstrip t <> "" -> rstrip (s ++ t) = s ++ rstrip t.
Proof.
  intros H. induction s as [|c s IH]; simpl; [reflexivity|].
  rewrite IH. destruct (s ++ rstrip t) eqn:E; [|reflexivity].
  apply append_eq_nil in E. contradiction.
Qed.

Lemma lstrip_blank (ws s : string) : blank ws = true -> lstrip (ws ++ s) = lstrip s.
Proof. apply TextTheory.lstrip_blank_app. Qed.

(** *** The braces *)

Lemma from_first_brace_app (pre rest : string) :
  lacks "{" pre = true ->
  from_first_brace (pre ++ String "{" rest) = Some (String "{" rest).
Proof.
  induction pre as [|c pre IH]; simpl; [reflexivity|].
  intros H. apply andb_prop in H. destruct H as [Hc Hpre].
  apply negb_true_iff in Hc. rewrite Hc. now apply IH.
Qed.

Lemma to_last_brace_lacks (s : string) : lacks "}" s = true -> to_last_brace s = None.
Proof.
  induction s as [|c s IH]; simpl; [reflexivity|].
  intros H. apply andb_prop in H. destruct H as [Hc Hs].
  apply negb_true_iff in Hc. now rewrite (IH Hs), Hc.
Qed.

Lemma to_last_brace_app (mid post : string) :
  lacks "}" post = true ->
  to_last_brace (mid ++ String "}" post) = Some (mid ++ "}").
Proof.
  intros H. induction mid as [|c mid IH]; simpl.
  - now rewrite (to_last_brace_lacks post H).
  - now rewrite IH.
Qed.

Lemma search_block_app (pre mid post : string) :
  lacks "{" pre = true -> lacks "}" post = true ->
  search_block (pre ++ "{" ++ mid ++ "}" ++ post) = Some ("{" ++ mid ++ "}").
Proof.
  intros Hpre Hpost. unfold search_block.
  change (pre ++ "{" ++ mid ++ "}" ++ post)
    with (pre ++ String "{" (mid ++ String "}" post)).
  rewrite (from_first_brace_app pre _ Hpre).
  now rewrite (to_last_brace_app mid post Hpost).
Qed.

(** The block that [_safe_parse_json] falls back on runs from the first
    opening brace of the cleaned text to its last closing brace, whatever
    lies between: a reply that holds two objects yields the span over both,
    not the first object. *)
Theorem the_block_runs_to_the_last_brace {services : Services}
  (text pre mid post : string) :
  text <> "" ->
  cleaned text = pre ++ "{" ++ mid ++ "}" ++ post ->
  lacks "{" pre = true -> lacks "}" post = true ->
  json_loads (cleaned text) = None ->
  search_block (cleaned text) = Some ("{" ++ mid ++ "}") /\
  _safe_parse_json text =
    match json_loads ("{" ++ mid ++ "}") with
    | Some data => data
    | None => JDict []
    end.
Proof.
  intros Hne Hc Hpre Hpost Hloads.
  assert (Hs : search_block (cleaned text) = Some ("{" ++ mid ++ "}"))
    by (rewrite Hc; now apply search_block_app).
  split; [exact Hs|].
  unfold _safe_parse_json.
  destruct (String.eqb_spec text ""); [contradiction|].
  now rewrite Hloads, Hs.
Qed.

Lemma the_block_runs_to_the_last_brace_witness :
  search_block ("Either " ++ route_object "dataset" ++ " or " ++ route_object "meta") =
    Some (route_object "dataset" ++ " or " ++ route_object "meta") /\
  _safe_parse_json (services := sample_services)
    ("Either " ++ route_object "dataset" ++ " or " ++ route_object "meta") = JDict [] /\
  _safe_parse_json (services := sample_services)
    ("Either " ++ route_object "dataset") = JDict [("route", JStr "dataset")].
Proof.
  split; [reflexivity|]. split; [|reflexivity].
  exact (proj2 (the_block_runs_to_the_last_brace (services := sample_services)
                  ("Either " ++ route_object "dataset" ++ " or " ++ route_object "meta")
                  "Either "
                  (quoted "route" ++ ": " ++ quoted "dataset" ++ "} or {" ++
                   quoted "route" ++ ": " ++ quoted "meta")
                  ""
                  ltac:(discriminate) eq_refl eq_refl eq_refl eq_refl)).
Defined.

(** *** The fences *)

Lemma after_prefix_lower (p t s : string) :
  lower t = lower p -> after_prefix p (t ++ s) = Some s.
Proof.
  revert t. induction p as [|a p IH]; intros [|b t]; simpl; try discriminate.
  - reflexivity.
  - intros [= Hb Ht]. rewrite Hb, Ascii.eqb_refl. now apply IH.
Qed.

Lemma after_json_blank (ws rest : string) :
  blank ws = true -> after_prefix "json" (ws ++ String "{" rest) = None.
Proof.
  destruct ws as [|c ws]; [reflexivity|].
  cbn [blank append]. intros H. apply andb_prop in H. destruct H as [Hc _].
  change (after_prefix "json" (String c (ws ++ String "{" rest)))
    with (if Ascii.eqb (lower_char "j") (lower_char c)
          then after_prefix "son" (ws ++ String "{" rest) else None).
  destruct (Ascii.eqb_spec (lower_char "j") (lower_char c)) as [E|_]; [|reflexivity].
  rewrite <- TextTheory.isspace_lower_char, <- E in Hc.
  vm_compute in Hc. discriminate.
Qed.

Lemma eqb_app_longer (c : ascii) (s p : string) :
  String.eqb (String c (s ++ p)) p = false.
Proof.
  apply String.eqb_neq. intros E.
  apply (f_equal String.length) in E.
  simpl in E. rewrite LoaderTheory.length_append in E. lia.
Qed.

Lemma before_suffix_app (p s : string) : before_suffix p (s ++ p) = Some s.
Proof.
  induction s as [|c s IH].
  - cbn [append]. destruct p; cbn [before_suffix]; now rewrite String.eqb_refl.
  - cbn [append before_suffix]. rewrite eqb_app_longer.
    now rewrite IH.
Qed.

Lemma without_json_fence_plain (ws rest : string) :
  blank ws = true ->
  without_json_fence (fence ++ ws ++ String "{" rest) =
  fence ++ ws ++ String "{" rest.
Proof.
  intros H. unfold without_json_fence.
  change (after_prefix (fence ++ "json") (fence ++ ws ++ String "{" rest))
    with (after_prefix "json" (ws ++ String "{" rest)).
  now rewrite after_json_blank.
Qed.

(** The text between the fences, once the fences are taken away. *)
Lemma cleaned_fenced (tag ws1 mid ws2 : string) :
  tag = "" \/ lower tag = "json" ->
  blank ws1 = true -> blank ws2 = true ->
  cleaned (fence ++ tag ++ ws1 ++ "{" ++ mid ++ "}" ++ ws2 ++ fence) =
  "{" ++ mid ++ "}".
Proof.
  intros Htag H1 H2. unfold cleaned.
  set (inner := "{" ++ mid ++ "}" ++ ws2 ++ fence).
  assert (Hstrip : strip (fence ++ tag ++ ws1 ++ inner) = fence ++ tag ++ ws1 ++ inner).
  { unfold strip. change (lstrip (fence ++ tag ++ ws1 ++ inner))
      with (fence ++ tag ++ ws1 ++ inner).
    subst inner.
    replace (fence ++ tag ++ ws1 ++ "{" ++ mid ++ "}" ++ ws2 ++ fence)
      with ((fence ++ tag ++ ws1 ++ "{" ++ mid ++ "}" ++ ws2) ++ fence)
      by (now rewrite !LoaderTheory.append_assoc).
    now rewrite rstrip_app_kept by discriminate. }
  rewrite Hstrip.
  assert (Hopen : without_opening_fence (without_json_fence
                    (fence ++ tag ++ ws1 ++ inner)) = inner).
  { destruct Htag as [->|Htag].
    - assert (Hj : without_json_fence (fence ++ "" ++ ws1 ++ inner) =
                   fence ++ ws1 ++ inner).
      { subst inner. apply (without_json_fence_plain ws1 _ H1). }
      rewrite Hj. unfold without_opening_fence.
      rewrite (after_prefix_lower fence fence (ws1 ++ inner) eq_refl).
      rewrite (lstrip_blank ws1 inner H1). reflexivity.
    - assert (Hj : without_json_fence (fence ++ tag ++ ws1 ++ inner) = inner).
      { unfold without_json_fence.
        replace (fence ++ tag ++ ws1 ++ inner) with ((fence ++ tag) ++ ws1 ++ inner)
          by (now rewrite LoaderTheory.append_assoc).
        rewrite (after_prefix_lower (fence ++ "json") (fence ++ tag) (ws1 ++ inner)).
        - rewrite (lstrip_blank ws1 inner H1). reflexivity.
        - rewrite !TextTheory.lower_append, Htag. reflexivity. }
      rewrite Hj. reflexivity. }
  rewrite Hopen. subst inner. unfold without_closing_fence.
  replace ("{" ++ mid ++ "}" ++ ws2 ++ fence)
    with (("{" ++ mid ++ "}" ++ ws2) ++ fence)
    by (now rewrite !LoaderTheory.append_assoc).
  rewrite before_suffix_app.
  replace ("{" ++ mid ++ "}" ++ ws2) with (("{" ++ mid ++ "}") ++ ws2)
    by (now rewrite !LoaderTheory.append_assoc).
  rewrite (TextTheory.rstrip_app_blank _ _ H2).
  replace ("{" ++ mid ++ "}") with (("{" ++ mid) ++ "}")
    by (now rewrite !LoaderTheory.append_assoc).
  now rewrite rstrip_app_kept by discriminate.
Qed.

(** A reply that is one object between markdown fences, the opening one
    with or without the word json in any letter case, and any white space
    inside the fences, is parsed as the object alone; if the object does
    not parse the result is the empty dict. *)
Theorem a_fenced_object_is_unwrapped {services : Services}
  (tag ws1 mid ws2 : string) :
  tag = "" \/ lower tag = "json" ->
  blank ws1 = true -> blank ws2 = true ->
  _safe_parse_json (fence ++ tag ++ ws1 ++ "{" ++ mid ++ "}" ++ ws2 ++ fence) =
    match json_loads ("{" ++ mid ++ "}") with
    | Some data => data
    | None => JDict []
    end.
Proof.
  intros Htag H1 H2. unfold _safe_parse_json.
  change (String.eqb (fence ++ tag ++ ws1 ++ "{" ++ mid ++ "}" ++ ws2 ++ fence) "")
    with false. cbn iota.
  rewrite (cleaned_fenced tag ws1 mid ws2 Htag H1 H2).
  destruct (json_loads ("{" ++ mid ++ "}")) as [data|] eqn:E; [reflexivity|].
  change (search_block ("{" ++ mid ++ "}"))
    with (search_block ("" ++ "{" ++ mid ++ "}" ++ "")).
  rewrite (search_block_app "" mid "" eq_refl eq_refl).
  now rewrite E.
Qed.

Lemma a_fenced_object_is_unwrapped_witness :
  _safe_parse_json (services := sample_services)
    (fence ++ "JSON" ++ LF ++ route_object "meta" ++ LF ++ fence) =
    JDict [("route", JStr "meta")].
Proof.
  exact (a_fenced_object_is_unwrapped (services := sample_services)
           "JSON" LF (quoted "route" ++ ": " ++ quoted "meta") LF
           (or_intror eq_refl) eq_refl eq_refl).
Defined.

(** *** The classifier *)

Lemma route_question_In_routes {services : Services}
  (prompts : string -> option string) (question route : string) :
  route_question prompts question = OK route -> In route routes.
Proof.
  unfold route_question.
  destruct (usable (prompts "classifier_system")) as [system|];
    [|intros [= <-]; simpl; tauto].
  destruct (usable (prompts "classifier_user_template")) as [user_tmpl|];
    [|intros [= <-]; simpl; tauto].
  destruct (format user_tmpl [("question", question)]) as [user|e];
    [|discriminate].
  cbn [bind].
  destruct (_generate_text system user) as [txt|e]; [|discriminate].
  cbn [bind].
  destruct (_safe_parse_json txt) as [| | | | |entries]; try discriminate.
  destruct (mem _ routes) eqn:E; intros [= <-].
  - now apply TextTheory.mem_In.
  - simpl. tauto.
Qed.

(** [route_question] returns one of the four routes or raises.  Without a
    usable classifier prompt it answers out_of_scope and calls nothing; a
    reply in which no JSON is found goes to out_of_scope as well; a reply
    that is JSON but no object (a number, a text, a list, null) makes it
    raise an AttributeError instead. *)
Theorem route_question_stays_in_its_routes {services : Services}
  (prompts : string -> option string) (question : string) :
  (forall route, route_question prompts question = OK route -> In route routes) /\
  (usable (prompts "classifier_system") = None \/
   usable (prompts "classifier_user_template") = None ->
   route_question prompts question = OK "out_of_scope") /\
  (forall system user_tmpl user txt,
     usable (prompts "classifier_system") = Some system ->
     usable (prompts "classifier_user_template") = Some user_tmpl ->
     format user_tmpl [("question", question)] = OK user ->
     _generate_text system user = OK txt ->
     (_safe_parse_json txt = JDict [] ->
        route_question prompts question = OK "out_of_scope") /\
     ((forall entries, _safe_parse_json txt <> JDict entries) ->
        route_question prompts question = Raise (no_get (_safe_parse_json txt)))).
Proof.
  split; [|split].
  - intros route. apply route_question_In_routes.
  - unfold route_question. intros [H|H]; rewrite H; [reflexivity|].
    now destruct (usable (prompts "classifier_system")).
  - intros system user_tmpl user txt Hs Hu Hf Hg. unfold route_question.
    rewrite Hs, Hu, Hf. cbn [bind]. rewrite Hg. cbn [bind]. split.
    + intros ->. reflexivity.
    + intros H. destruct (_safe_parse_json txt) as [| | | | |entries];
        try reflexivity.
      now elim (H entries).
Qed.

Lemma route_question_stays_in_its_routes_witness :
  route_question (services := sample_services)
    (fun _ => Some "classify: ") (route_object "terminate") = OK "terminate" /\
  route_question (services := sample_services)
    (fun _ => Some "classify: ") "what is the total revenue?" = OK "out_of_scope" /\
  _safe_parse_json (services := sample_services) "42" = JNumber true "42".
Proof.
  split; [reflexivity|]. split; [|reflexivity].
  destruct (route_question_stays_in_its_routes (services := sample_services)
              (fun _ => Some "classify: ") "what is the total revenue?")
    as [_ [_ H]].
  exact (proj1 (H "classify: " "classify: " _ _ eq_refl eq_refl eq_refl eq_refl)
           eq_refl).
Defined.

End RouterTheory.

(** ** The tables of app/render.py *)

Module RenderTheory.

Import Text Render.
Local Open Scope list_scope.
Local Open Scope string_scope.
Local Open Scope Z_scope.

Section Frames.

Context {Value : Type} (str : Value -> string).

Lemma len_head (n : Z) (df : Frame (Value := Value)) :
  0 <= n -> len (head n df) = Z.min n (len df).
Proof.
  intros Hn. unfold len, head. cbn [body].
  destruct (Z.leb_spec 0 n) as [_ | H]; [| lia].
  rewrite length_firstn. lia.
Qed.

Lemma len_head_negative (n : Z) (df : Frame (Value := Value)) :
  n < 0 -> len (head n df) = Z.max 0 (len df + n).
Proof.
  intros Hn. unfold len, head. cbn [body].
  destruct (Z.leb_spec 0 n) as [H | _]; [lia |].
  rewrite length_firstn. lia.
Qed.

Lemma head_head (n : Z) (df : Frame (Value := Value)) :
  0 <= n -> head n (head n df) = head n df.
Proof.
  intros Hn. unfold head. cbn [body labels].
  destruct (Z.leb_spec 0 n) as [_ | H]; [| lia].
  f_equal. rewrite firstn_firstn. now rewrite Nat.min_id.
Qed.

Lemma len_select (cols : list string) (df : Frame (Value := Value)) :
  len (select cols df) = len df.
Proof. unfold len, select. cbn [body]. now rewrite length_map. Qed.

Lemma lines_length (df : Frame (Value := Value)) (title : string) (max_rows : Z) :
  Z.of_nat (List.length (lines (_df_to_rich_table str df title max_rows))) =
  len (head max_rows df).
Proof. unfold _df_to_rich_table, len. cbn [lines]. now rewrite length_map. Qed.

(** [_df_to_rich_table] shows the first [max_rows] rows of the frame,
    that is min(max_rows, len) of them, when [max_rows] is not negative, and
    its caption is absent exactly when every row of the frame is shown.  A
    negative [max_rows] leaves out the last [-max_rows] rows instead, and
    the caption is then always there, on an empty frame too. *)
Theorem the_caption_tells_when_rows_were_cut
  (df : Frame (Value := Value)) (title : string) (max_rows : Z) :
  let table := _df_to_rich_table str df title max_rows in
  header table = labels df /\
  (0 <= max_rows ->
     lines table = map (map str) (firstn (Z.to_nat max_rows) (body df)) /\
     Z.of_nat (List.length (lines table)) = Z.min max_rows (len df) /\
     (caption table = None <-> lines table = map (map str) (body df)) /\
     (caption table = None <-> len df <= max_rows)) /\
  (max_rows < 0 ->
     Z.of_nat (List.length (lines table)) = Z.max 0 (len df + max_rows) /\
     caption table <> None).
Proof.
  intros table. split; [reflexivity |]. split.
  - intros Hn.
    assert (Hlines : lines table =
                     map (map str) (firstn (Z.to_nat max_rows) (body df))).
    { unfold table, _df_to_rich_table, head. cbn [lines body].
      destruct (Z.leb_spec 0 max_rows); [reflexivity | lia]. }
    assert (Hlen : Z.of_nat (List.length (lines table)) = Z.min max_rows (len df)).
    { unfold table. rewrite lines_length. now apply len_head. }
    assert (Hcap : caption table = None <-> len df <= max_rows).
    { unfold table, _df_to_rich_table. cbn [caption].
      destruct (Z.gtb_spec (len df) max_rows); split; intros; try lia;
        try reflexivity; discriminate. }
    repeat split; try assumption.
    + intros Hc. apply (proj1 Hcap) in Hc. rewrite Hlines.
      rewrite firstn_all2; [reflexivity |]. unfold len in Hc. lia.
    + intros Hall. apply (proj2 Hcap).
      rewrite Hall, length_map in Hlen. unfold len in Hlen |- *. lia.
    + apply (proj1 Hcap).
    + apply (proj2 Hcap).
  - intros Hn. split.
    + unfold table. rewrite lines_length. now apply len_head_negative.
    + unfold table, _df_to_rich_table. cbn [caption].
      assert (0 <= len df) by (unfold len; lia).
      destruct (Z.gtb_spec (len df) max_rows); [discriminate | lia].
Qed.

(** [render_sample_rows_table] cuts the frame to [max_rows] rows before
    it builds the table, so on a frame with rows, and with [max_rows] not
    negative, it prints one table of min(max_rows, len) rows whose caption
    is never there, however many rows were left out; the columns are the
    preferred ones that the frame has, in the preferred order, or all the
    columns of the frame when it has none of them. *)
Theorem the_sample_table_never_tells_of_a_cut
  (df : Frame (Value := Value)) (title : string) (max_rows : Z) :
  0 <= max_rows -> 0 < len df ->
  exists table,
    render_sample_rows_table str (Some df) title max_rows = [Table table] /\
    caption table = None /\
    Z.of_nat (List.length (lines table)) = Z.min max_rows (len df) /\
    header table =
      match filter (fun c => mem c (labels df)) preferred_cols with
      | [] => labels df
      | cols => cols
      end.
Proof.
  intros Hn Hlen. unfold render_sample_rows_table.
  destruct (Z.eqb_spec (len df) 0) as [E | _]; [lia |].
  set (cols := filter (fun c => mem c (labels df)) preferred_cols).
  set (view := match cols with
               | [] => head max_rows df
               | _ :: _ => head max_rows (select cols df)
               end).
  assert (Hview : exists src, view = head max_rows src /\ len src = len df /\
                              labels src = match cols with [] => labels df | _ => cols end).
  { unfold view. destruct cols.
    - exists df. now repeat split.
    - exists (select (s :: cols) df). repeat split. apply len_select. }
  destruct Hview as (src & Ev & Els & Elab). clearbody view. clearbody cols.
  exists (_df_to_rich_table str view title max_rows).
  split; [reflexivity |]. split; [| split].
  - unfold _df_to_rich_table. cbn [caption]. rewrite Ev, len_head by assumption.
    destruct (Z.gtb_spec (Z.min max_rows (len src)) max_rows); [lia | reflexivity].
  - rewrite lines_length, Ev, head_head, len_head by assumption. now rewrite Els.
  - unfold _df_to_rich_table. cbn [header]. rewrite Ev. cbn [head labels].
    rewrite Elab. now destruct cols.
Qed.

End Frames.

Lemma the_sample_table_never_tells_of_a_cut_witness :
  exists table,
    render_sample_rows_table Loader.str_of_Z (Some sample_frame) "Sample rows" 2 =
      [Table table] /\
    caption table = None /\
    Z.of_nat (List.length (lines table)) = Z.min 2 (len sample_frame) /\
    header table =
      match filter (fun c => mem c (labels sample_frame)) preferred_cols with
      | [] => labels sample_frame
      | cols => cols
      end.
Proof.
  apply (the_sample_table_never_tells_of_a_cut Loader.str_of_Z sample_frame
           "Sample rows" 2); vm_compute; [discriminate | reflexivity].
Defined.

End RenderTheory.

(** ** The loop of app/chat_loop.py *)

Module ChatLoopTheory.

Import Text Memory ChatLoop.
Local Open Scope list_scope.
Local Open Scope string_scope.
Local Open Scope Z_scope.

(** A response builder that always has an answer, on the stable pandas. *)
Definition sample_runtime : Runtime := {|
  pandas := pandas_stable;
  build_message := fun _ _ _ => OK "Here is the result.";
  model_dump_json := fun _ => "{}"
|}.

Definition sample_turn : Turn :=
  {| typed := " revenue of the last two years ";
     services := dataset_services |}.

Definition sample_state : State :=
  {| memory := new 5 5; console := [] |}.

Section WithRuntime.

Context {runtime : Runtime} (deps : ChatLoopDeps).

Lemma safe_route_In_routes (t : Turn) (user_text : string) :
  In (_safe_route deps t user_text) Router.routes.
Proof.
  unfold _safe_route.
  destruct (Router.route_question _ _) as [route | e] eqn:E.
  - exact (RouterTheory.route_question_In_routes _ _ _ E).
  - simpl. tauto.
Qed.

Lemma safe_route_dataset (t : Turn) (user_text : string) :
  String.eqb (_safe_route deps t user_text) "terminate" = false ->
  mem (_safe_route deps t user_text) ["meta"; "out_of_scope"] = false ->
  _safe_route deps t user_text = "dataset".
Proof.
  intros Ht Hm. pose proof (safe_route_In_routes t user_text) as H.
  simpl in H. destruct H as [H | [H | [H | [H | []]]]]; rewrite <- H in *;
    try reflexivity; discriminate.
Qed.

Lemma _handle_meta_last_plan (t : Turn) (user_text history_str : string) (s : State) :
  _last_plan (memory (_handle_meta deps t user_text history_str s)) =
  _last_plan (memory s).
Proof. reflexivity. Qed.

Lemma _handle_terminate_last_plan (t : Turn) (user_text history_str : string)
  (s : State) :
  _last_plan (memory (_handle_terminate deps t user_text history_str s)) =
  _last_plan (memory s).
Proof. reflexivity. Qed.

Lemma _handle_dataset_last_plan (plan : Plan.QueryPlan) (s : State) :
  _last_plan (memory (_handle_dataset deps plan s)) = _last_plan (memory s).
Proof.
  unfold _handle_dataset.
  destruct (Engine.execute_with_subset _ _) as [exec_res | e]; [| reflexivity].
  destruct (build_message _ _ _) as [bot_text | message]; [| reflexivity].
  now destruct (Engine.subset_df exec_res).
Qed.

(** The four ways in which one pass of the loop goes. *)
Lemma turn_cases (t : Turn) (s : State) :
  let user_text := strip (typed t) in
  let route := _safe_route deps t user_text in
  (user_text = "" /\ turn deps t s = Continue s) \/
  (user_text <> "" /\
   (Commands.is_exit_command user_text = true \/ route = "terminate") /\
   exists s', turn deps t s = Return s' /\
              _last_plan (memory s') = _last_plan (memory s)) \/
  (user_text <> "" /\ Commands.is_exit_command user_text = false /\
   (route = "meta" \/ route = "out_of_scope" \/
    (route = "dataset" /\
     exists plan, planned deps t s = OK plan /\
                  Plan.intent plan = Plan.I_unknown)) /\
   exists s', turn deps t s = Continue s' /\
              _last_plan (memory s') = _last_plan (memory s)) \/
  (user_text <> "" /\ Commands.is_exit_command user_text = false /\
   route = "dataset" /\
   ((exists e, planned deps t s = Raise e /\ turn deps t s = Raises e (asked t s)) \/
    (exists plan, planned deps t s = OK plan /\
                  Plan.intent plan <> Plan.I_unknown /\
                  turn deps t s =
                    Continue (_handle_dataset deps plan
                                (on_memory (set_last_plan plan) (asked t s)))))).
Proof.
  intros user_text route. unfold turn. fold user_text.
  destruct (String.eqb_spec user_text "") as [E | Hne]; [now left |].
  destruct (Commands.is_exit_command user_text) eqn:Hexit.
  { right; left. split; [assumption |]. split; [now left |].
    eexists. split; reflexivity. }
  change (on_memory (push_user user_text) s) with (asked t s).
  cbv zeta. fold route.
  destruct (String.eqb_spec route "terminate") as [Ht | Ht].
  { right; left. split; [assumption |]. split; [now right |].
    eexists. split; reflexivity. }
  destruct (mem route ["meta"; "out_of_scope"]) eqn:Hm.
  { right; right; left. split; [assumption |]. split; [reflexivity |]. split.
    - apply (proj1 (TextTheory.mem_In _ _)) in Hm.
      destruct Hm as [Hm | [Hm | []]]; [left | right; left]; now symmetry.
    - eexists. split; reflexivity. }
  assert (Hroute : route = "dataset").
  { apply safe_route_dataset; [| exact Hm].
    now apply String.eqb_neq. }
  change (Router.build_plan (router deps) user_text
            (history_string 5 (memory (asked t s)))
            (last_plan_json model_dump_json (memory (asked t s))))
    with (planned deps t s).
  destruct (planned deps t s) as [plan | e] eqn:Ep.
  - destruct (Plan.intent plan) eqn:Ei;
      try (right; right; right; repeat split; try assumption; right;
           exists plan; repeat split; congruence).
    right; right; left. split; [assumption |]. split; [reflexivity |]. split.
    + right; right. split; [assumption |]. now exists plan.
    + eexists. split; reflexivity.
  - right; right; right. repeat split; try assumption. left. now exists e.
Qed.



(** A plan with a known intent is remembered before it is executed.
    When the input is a dataset question and the planner gives such a plan,
    the turn goes on with the plan remembered, whatever its execution does:
    the planner of the next turn is handed this plan as the last plan, also
    when the engine has raised on it and the user has only seen the text
    that it could not be computed. *)
Theorem a_plan_is_remembered_before_it_is_run
  (t : Turn) (s : State) (plan : Plan.QueryPlan) :
  strip (typed t) <> "" ->
  Commands.is_exit_command (strip (typed t)) = false ->
  _safe_route deps t (strip (typed t)) = "dataset" ->
  planned deps t s = OK plan ->
  Plan.intent plan <> Plan.I_unknown ->
  exists s',
    turn deps t s = Continue s' /\
    _last_plan (memory s') = Some plan /\
    (forall t', last_plan_json model_dump_json (memory (asked t' s')) =
                model_dump_json plan) /\
    (forall e,
       Engine.execute_with_subset (pandas := pandas) (engine deps) plan = Raise e ->
       console s' =
         (console s ++
          [Assistant_message ("I couldn't compute that: " ++ str_of_exception e)])%list).
Proof.
  intros Hne Hexit Hroute Hp Hi.
  destruct (turn_cases t s)
    as [(E0 & _) | [(_ & Hend & _) | [(_ & _ & Hmeta & _)
        | (_ & _ & _ & [(e & Ep & E) | (plan' & Ep & _ & E)])]]].
  - contradiction.
  - destruct Hend as [H | H]; congruence.
  - destruct Hmeta as [H | [H | (_ & plan' & Ep & Ei)]]; congruence.
  - congruence.
  - assert (plan' = plan) as -> by congruence.
    eexists. split; [exact E |]. split; [| split].
    + now rewrite _handle_dataset_last_plan.
    + intros t'. unfold last_plan_json, asked.
      cbn [memory on_memory].
      change (_last_plan (push_user (strip (typed t'))
                (memory (_handle_dataset deps plan
                           (on_memory (set_last_plan plan)
                              (on_memory (push_user (strip (typed t))) s))))))
        with (_last_plan (memory (_handle_dataset deps plan
                           (on_memory (set_last_plan plan)
                              (on_memory (push_user (strip (typed t))) s))))).
      now rewrite _handle_dataset_last_plan.
    + intros e He. unfold _handle_dataset. rewrite He. reflexivity.
Qed.

(** Whatever the classifier, the meta answers, the engine and the
    response builder do, [run] ends by returning, or by an exception that
    the planner raised on a dataset question, which nothing in the loop
    catches; the memory then holds the question without an answer. *)
Theorem only_the_planner_breaks_the_loop (turns : list Turn) (s : State) :
  match run deps turns s with
  | Continue _ => False
  | Return _ => True
  | Raises e s' =>
      exists t s0,
        In t turns /\
        _safe_route deps t (strip (typed t)) = "dataset" /\
        planned deps t s0 = Raise e /\
        s' = asked t s0
  end.
Proof.
  revert s. induction turns as [| t rest IH]; intros s; [exact I |].
  cbn [run].
  destruct (turn_cases t s)
    as [(_ & E) | [(_ & _ & s' & E & H) | [(_ & _ & _ & s' & E & H)
        | (_ & _ & Hr & [(e & Ep & E) | (plan & Ep & _ & E)])]]];
    rewrite E; try exact I.
  - specialize (IH s). destruct (run deps rest s) as [| | e s']; try assumption.
    destruct IH as (t' & s0 & Hin & H). exists t', s0. split; [now right | exact H].
  - specialize (IH s'). destruct (run deps rest s') as [| | e s'']; try assumption.
    destruct IH as (t' & s0 & Hin & H'). exists t', s0. split; [now right | exact H'].
  - exists t, s. repeat split; try assumption. now left.
  - match goal with |- match run deps rest ?x with _ => _ end => specialize (IH x);
      destruct (run deps rest x) as [| | e s''] end; try assumption.
    destruct IH as (t' & s0 & Hin & H'). exists t', s0. split; [now right | exact H'].
Qed.

End WithRuntime.

Lemma a_plan_is_remembered_before_it_is_run_witness :
  exists s',
    turn (runtime := sample_runtime) sample_deps sample_turn sample_state =
      Continue s' /\
    _last_plan (memory s') = Some (Engine.last_years_plan None (Some 2)) /\
    (forall t', last_plan_json (model_dump_json (Runtime := sample_runtime))
                  (memory (asked t' s')) =
                model_dump_json (Runtime := sample_runtime)
                  (Engine.last_years_plan None (Some 2))) /\
    (forall e,
       Engine.execute_with_subset (pandas := pandas_stable)
         (engine sample_deps) (Engine.last_years_plan None (Some 2)) = Raise e ->
       console s' =
         (console sample_state ++
          [Assistant_message ("I couldn't compute that: " ++ str_of_exception e)])%list).
Proof.
  apply (a_plan_is_remembered_before_it_is_run (runtime := sample_runtime)
           sample_deps sample_turn sample_state
           (Engine.last_years_plan None (Some 2)));
    vm_compute; (reflexivity || discriminate).
Defined.

End ChatLoopTheory.
